(** * The 28-day consistency score ([src/scoring.ts]) in Rocq

    The scoring engine is a pure function of a session list, a reference
    instant and an IANA zone name.  It is embedded here function by
    function.  What the engine takes from the JavaScript platform (the
    [Date] type, [Intl.DateTimeFormat], the number type) is modelled in
    the first half of the file, following ECMA-262 section 21.4.1:

    - a time value is an integer count of milliseconds since the epoch,
      and a [Date] is a time value or the invalid date; a time value
      beyond the limit of 8.64e15 ms, which [TimeClip] turns into the
      invalid date, is refused by [format] like the invalid date;
    - a number is an exact rational, an infinity or NaN: the arithmetic
      does not round to binary64, so sums and quotients are the exact
      ones, and the sign of zero is outside the model;
    - the zone database, the zone of the host, the clock and the
      implementation-defined fallback of [Date.parse] are fields of a
      [Platform] record, so every theorem holds for every platform;
      offsets are less than a day in size;
    - the en-CA rendering of a civil date is [y-MM-dd]; the ten character
      form YYYY-MM-DD, which [new Date] reads back as UTC midnight, is what
      it produces for the years 1000 to 9999. *)

From Stdlib Require Import ZArith QArith Qround List String Ascii Bool.
From Stdlib Require Import Lia Lqa Permutation Sorted DecimalString OrderedTypeEx.
Import ListNotations.
Open Scope Z_scope.

(** ** Numbers *)

Inductive number : Type :=
| Fin (q : Q)
| PosInf
| NegInf
| NaN.

Definition ofZ (z : Z) : number := Fin (inject_Z z).

Definition Qsign (q : Q) : Z := Z.sgn (Qnum q).

Definition nneg (x : number) : number :=
  match x with
  | Fin q => Fin (- q)
  | PosInf => NegInf
  | NegInf => PosInf
  | NaN => NaN
  end.

Definition nadd (x y : number) : number :=
  match x, y with
  | NaN, _ | _, NaN => NaN
  | PosInf, NegInf | NegInf, PosInf => NaN
  | PosInf, _ | _, PosInf => PosInf
  | NegInf, _ | _, NegInf => NegInf
  | Fin a, Fin b => Fin (a + b)
  end.

Definition nsub (x y : number) : number := nadd x (nneg y).

Definition infOfSign (s : Z) : number :=
  match s with
  | Z0 => NaN
  | Zpos _ => PosInf
  | Zneg _ => NegInf
  end.

Definition nsign (x : number) : option Z :=
  match x with
  | Fin q => Some (Qsign q)
  | PosInf => Some 1
  | NegInf => Some (-1)
  | NaN => None
  end.

Definition nmul (x y : number) : number :=
  match x, y with
  | Fin a, Fin b => Fin (a * b)
  | _, _ =>
      match nsign x, nsign y with
      | Some s, Some t => infOfSign (s * t)
      | _, _ => NaN
      end
  end.

Definition ndiv (x y : number) : number :=
  match x, y with
  | NaN, _ | _, NaN => NaN
  | Fin a, Fin b =>
      if Qeq_bool b 0 then infOfSign (Qsign a) else Fin (a / b)
  | Fin _, _ => Fin 0
  | _, Fin b => match nsign x with
                | Some s => infOfSign (if Qeq_bool b 0 then s else s * Qsign b)
                | None => NaN
                end
  | _, _ => NaN
  end.

(** The relational operators; each is [false] as soon as an operand is NaN. *)
Definition nleb (x y : number) : bool :=
  match x, y with
  | NaN, _ | _, NaN => false
  | NegInf, _ | _, PosInf => true
  | PosInf, _ | _, NegInf => false
  | Fin a, Fin b => Qle_bool a b
  end.

Definition nltb (x y : number) : bool :=
  match x, y with
  | NaN, _ | _, NaN => false
  | _, _ => negb (nleb y x)
  end.

Definition ngeb (x y : number) : bool := nleb y x.
Definition ngtb (x y : number) : bool := nltb y x.

(** [x === y] on numbers. *)
Definition nstrictEq (x y : number) : bool :=
  match x, y with
  | Fin a, Fin b => Qeq_bool a b
  | PosInf, PosInf | NegInf, NegInf => true
  | _, _ => false
  end.

(** [Math.max(x, y)] and [Math.min(x, y)]. *)
Definition Math_max (x y : number) : number :=
  match x, y with
  | NaN, _ | _, NaN => NaN
  | _, _ => if nleb x y then y else x
  end.

Definition Math_min (x y : number) : number :=
  match x, y with
  | NaN, _ | _, NaN => NaN
  | _, _ => if nleb x y then x else y
  end.

(** [Math.max(...xs)]: minus infinity on the empty list. *)
Definition Math_max_spread (xs : list number) : number :=
  fold_left Math_max xs NegInf.

Definition Math_floor (x : number) : number :=
  match x with
  | Fin q => Fin (inject_Z (Qfloor q))
  | _ => x
  end.

(** [Math.round]: halves go up. *)
Definition Math_round (x : number) : number :=
  match x with
  | Fin q => Fin (inject_Z (Qfloor (q + (1 # 2))))
  | _ => x
  end.

(** Truthiness of a number, as [||] tests it. *)
Definition truthy (x : number) : bool :=
  match x with
  | Fin q => negb (Qeq_bool q 0)
  | NaN => false
  | _ => true
  end.

(** [x || y] on numbers. *)
Definition nor (x y : number) : number := if truthy x then x else y.

Definition isInteger (x : number) : bool :=
  match x with
  | Fin q => Qeq_bool q (inject_Z (Qfloor q))
  | _ => false
  end.

Definition string_of_Z (z : Z) : string := NilZero.string_of_int (Z.to_int z).

(** Interpolation of a number into a template literal.  The engine only
    interpolates integers and NaN (lemma [interpolated_numbers_integral]);
    a fraction is shown by its integer part. *)
Definition number_toString (x : number) : string :=
  match x with
  | Fin q => string_of_Z (Qfloor q)
  | PosInf => "Infinity"
  | NegInf => "-Infinity"
  | NaN => "NaN"
  end.

(** ** Time values and the civil calendar (ECMA-262, 21.4.1) *)

Definition msPerDay : Z := 86400000.

Definition Day (t : Z) : Z := t / msPerDay.
Definition TimeWithinDay (t : Z) : Z := t mod msPerDay.

Definition isLeapYear (y : Z) : bool :=
  if negb (y mod 4 =? 0) then false
  else if negb (y mod 100 =? 0) then true
  else if negb (y mod 400 =? 0) then false
  else true.

Definition DaysInYear (y : Z) : Z := if isLeapYear y then 366 else 365.

Definition DayFromYear (y : Z) : Z :=
  365 * (y - 1970) + (y - 1969) / 4 - (y - 1901) / 100 + (y - 1601) / 400.

Definition TimeFromYear (y : Z) : Z := msPerDay * DayFromYear y.

(** The largest year whose first day is not after [d]: the estimate from the
    mean year length is off by at most one. *)
Definition YearFromDay (d : Z) : Z :=
  let y := 1970 + (400 * d) / 146097 in
  if DayFromYear (y + 1) <=? d then y + 1
  else if DayFromYear y <=? d then y
  else y - 1.

Definition YearFromTime (t : Z) : Z := YearFromDay (Day t).

Definition InLeapYear (t : Z) : Z := if isLeapYear (YearFromTime t) then 1 else 0.

Definition DayWithinYear (t : Z) : Z := Day t - DayFromYear (YearFromTime t).

(** First day (within the year) of month [m], 0 for January. *)
Definition monthStart (leap m : Z) : Z :=
  match m with
  | 0 => 0
  | 1 => 31
  | 2 => 59 + leap
  | 3 => 90 + leap
  | 4 => 120 + leap
  | 5 => 151 + leap
  | 6 => 181 + leap
  | 7 => 212 + leap
  | 8 => 243 + leap
  | 9 => 273 + leap
  | 10 => 304 + leap
  | 11 => 334 + leap
  | _ => 365 + leap
  end.

Definition monthOfDay (leap dwy : Z) : Z :=
  if dwy <? 31 then 0
  else if dwy <? 59 + leap then 1
  else if dwy <? 90 + leap then 2
  else if dwy <? 120 + leap then 3
  else if dwy <? 151 + leap then 4
  else if dwy <? 181 + leap then 5
  else if dwy <? 212 + leap then 6
  else if dwy <? 243 + leap then 7
  else if dwy <? 273 + leap then 8
  else if dwy <? 304 + leap then 9
  else if dwy <? 334 + leap then 10
  else 11.

Definition MonthFromTime (t : Z) : Z := monthOfDay (InLeapYear t) (DayWithinYear t).

Definition DateFromTime (t : Z) : Z :=
  DayWithinYear t - monthStart (InLeapYear t) (MonthFromTime t) + 1.

Definition MakeDay (year month date : Z) : Z :=
  let ym := year + month / 12 in
  let mn := month mod 12 in
  DayFromYear ym + monthStart (if isLeapYear ym then 1 else 0) mn + date - 1.

Definition MakeDate (day time : Z) : Z := day * msPerDay + time.

Definition DaysInMonth (year month : Z) : Z :=
  let leap := if isLeapYear year then 1 else 0 in
  monthStart leap month - monthStart leap (month - 1).

Inductive JSDate : Type :=
| Valid (t : Z)
| Invalid.

(** The time values of a [Date] lie within 100,000,000 days of the epoch
    (ECMA-262, 21.4.1.1); [TimeClip] gives NaN for any other. *)
Definition maxTime : Z := 8640000000000000.

Definition timeInRange (t : Z) : bool := Z.abs t <=? maxTime.

Definition getTime (d : JSDate) : number :=
  match d with
  | Valid t => ofZ t
  | Invalid => NaN
  end.

(** ** Date strings *)

Definition digitChar (d : Z) : ascii := ascii_of_N (Z.to_N (48 + d)).

Definition digitVal (c : ascii) : option Z :=
  let n := Z.of_N (N_of_ascii c) in
  if (48 <=? n) && (n <=? 57) then Some (n - 48) else None.

Definition twoDigits (n : Z) : string :=
  String (digitChar (n / 10)) (String (digitChar (n mod 10)) EmptyString).

(** The pattern letter [y] prints the year of the era with no padding. *)
Definition yearDigits (y : Z) : string :=
  string_of_Z (if y <=? 0 then 1 - y else y).

(** The en-CA rendering of the civil date of a local time value. *)
Definition formatCivil (lt : Z) : string :=
  yearDigits (YearFromTime lt) ++ "-" ++ twoDigits (MonthFromTime lt + 1)
    ++ "-" ++ twoDigits (DateFromTime lt).

Definition hyphen : ascii := "-"%char.

Definition readDigits (cs : list ascii) : option Z :=
  fold_left (fun acc c =>
               match acc, digitVal c with
               | Some a, Some d => Some (10 * a + d)
               | _, _ => None
               end) cs (Some 0).

(** The date-only form YYYY-MM-DD of the date-time string format, with a
    legal month and day: UTC midnight of that day. *)
Definition parseISODate (s : string) : option Z :=
  match s with
  | String y1 (String y2 (String y3 (String y4 (String h1
      (String m1 (String m2 (String h2 (String d1 (String d2 EmptyString))))))))) =>
      if Ascii.eqb h1 hyphen && Ascii.eqb h2 hyphen then
        match readDigits [y1; y2; y3; y4], readDigits [m1; m2], readDigits [d1; d2] with
        | Some y, Some m, Some d =>
            if (1 <=? m) && (m <=? 12) && (1 <=? d) && (d <=? DaysInMonth y m)
            then Some (MakeDate (MakeDay y (m - 1) d) 0)
            else None
        | _, _, _ => None
        end
      else None
  | _ => None
  end.

(** ** The platform *)

Record Platform : Type := {
  (** the zone database: the offset (ms) in force at a UTC time value;
      [None] when the identifier is not recognised *)
  zoneOffset : string -> option (Z -> Z);
  (** the offset of the host zone at a UTC time value, and at a local one *)
  hostOffsetAtUTC : Z -> Z;
  hostOffsetAtLocal : Z -> Z;
  (** the clock read by [new Date()] *)
  currentTime : Z;
  (** [Date.parse] on a string that is not a legal YYYY-MM-DD *)
  parseOther : string -> JSDate;
  (** an offset is at most a day in size *)
  zoneOffset_bounded :
    forall tz off t, zoneOffset tz = Some off -> Z.abs (off t) <= msPerDay;
  hostOffset_bounded :
    forall t, Z.abs (hostOffsetAtUTC t) <= msPerDay /\ Z.abs (hostOffsetAtLocal t) <= msPerDay
}.

Inductive exn : Type :=
| RangeError_InvalidTimeZone (tz : string)
| RangeError_InvalidTimeValue
| TypeError_Undefined.

Inductive Result (A : Type) : Type :=
| Ok (a : A)
| Throw (e : exn).

Arguments Ok {A} a.
Arguments Throw {A} e.

Definition bind {A B : Type} (r : Result A) (k : A -> Result B) : Result B :=
  match r with
  | Ok a => k a
  | Throw e => Throw e
  end.

Notation "x <- r ;; k" := (bind r (fun x => k))
  (at level 61, r at next level, right associativity).

Section Engine.

Variable P : Platform.

Definition LocalTime (t : Z) : Z := t + hostOffsetAtUTC P t.
Definition UTC (t : Z) : Z := t - hostOffsetAtLocal P t.

(** [new Date(string)] *)
Definition newDate (s : string) : JSDate :=
  match parseISODate s with
  | Some t => Valid t
  | None => parseOther P s
  end.

(** [date.getDate()] *)
Definition getDate (d : JSDate) : number :=
  match d with
  | Valid t => ofZ (DateFromTime (LocalTime t))
  | Invalid => NaN
  end.

Definition truncate (q : Q) : Z := if Qle_bool 0 q then Qfloor q else Qceiling q.

(** [date.setDate(dt)]: the resulting date (the method mutates its receiver).
    The method ends with [TimeClip]; here a time value that has left the
    range of [Date] is carried as it is and refused by [format], which is
    what the engine does next with every date that it sets. *)
Definition setDate (d : JSDate) (dt : number) : JSDate :=
  match d, dt with
  | Valid t, Fin q =>
      let lt := LocalTime t in
      Valid (UTC (MakeDate (MakeDay (YearFromTime lt) (MonthFromTime lt) (truncate q))
                           (TimeWithinDay lt)))
  | _, _ => Invalid
  end.

(** [toLocalDateString] (scoring.ts 357-366).  The constructor rejects the
    zone before [format] looks at the date; [format] applies [TimeClip] and
    throws a RangeError when the outcome is NaN. *)
Definition toLocalDateString (date : JSDate) (timezone : string) : Result string :=
  match zoneOffset P timezone with
  | None => Throw (RangeError_InvalidTimeZone timezone)
  | Some off =>
      match date with
      | Invalid => Throw RangeError_InvalidTimeValue
      | Valid t =>
          if timeInRange t then Ok (formatCivil (t + off t))
          else Throw RangeError_InvalidTimeValue
      end
  end.

End Engine.

(** ** The data model *)

(** The records below follow the declarations of [types.ts].

    The value of the optional [durationSec] field ("may be
    missing/invalid"): absent, a number, or any other value, which is kept
    as what [Number(...)] makes of it. *)
Inductive DurationValue : Type :=
| DurMissing
| DurNumber (n : number)
| DurOther (coerced : number).

(** Session: [{id, timestamp, durationSec?, type?}]. *)
Record Session : Type := {
  id : string;
  timestamp : JSDate;
  durationSec : DurationValue;
  type : option string
}.

(** ActiveDay: [{date, sessionCount, totalDurationSec}]. *)
Record ActiveDay : Type := {
  date : string;
  sessionCount : Z;
  totalDurationSec : number
}.

(** ConsistencyMetadata.  The fields that only ever hold a count are
    integers. *)
Record ConsistencyMetadata : Type := {
  totalSessions : Z;
  activeDays : Z;
  longestStreak : Z;
  longestGap : number;
  averageGap : number;
  daysSinceLastSession : number
}.

(** ScoreBreakdown: "Frequency component (0-60)", "Even spacing reward
    (0-25)", "Current streak reward (0-10)", "Recent activity reward
    (0-5)". *)
Record ScoreBreakdown : Type := {
  baseScore : number;
  distributionBonus : number;
  streakBonus : number;
  recencyBonus : number
}.

(** DayActivity: [{date, hasActivity, sessionCount}]. *)
Record DayActivity : Type := {
  chartDate : string;
  hasActivity : bool;
  chartSessionCount : Z
}.

(** ConsistencyScore: "Final score (0-100)". *)
Record ConsistencyScore : Type := {
  score : number;
  explanations : list string;
  chartData : list DayActivity;
  metadata : ConsistencyMetadata;
  breakdown : ScoreBreakdown
}.

(** ScoreInput: [{sessions, referenceDate?, timezone?}]. *)
Record ScoreInput : Type := {
  sessions : list Session;
  referenceDate : option JSDate;
  timezone : option string
}.

(** ** [Map<string, V>]: an association list in insertion order *)

Definition JSMap (V : Type) : Type := list (string * V).

Fixpoint Map_get {V : Type} (m : JSMap V) (k : string) : option V :=
  match m with
  | [] => None
  | (k', v) :: m' => if String.eqb k' k then Some v else Map_get m' k
  end.

Definition Map_has {V : Type} (m : JSMap V) (k : string) : bool :=
  match Map_get m k with
  | Some _ => true
  | None => false
  end.

(** [set] keeps the position of a key that is already there. *)
Fixpoint Map_set {V : Type} (m : JSMap V) (k : string) (v : V) : JSMap V :=
  match m with
  | [] => [(k, v)]
  | (k', v') :: m' =>
      if String.eqb k' k then (k, v) :: m' else (k', v') :: Map_set m' k v
  end.

Definition Map_values {V : Type} (m : JSMap V) : list V := map snd m.

(** [new Map(entries)] *)
Definition Map_of {V : Type} (entries : list (string * V)) : JSMap V :=
  fold_left (fun m kv => Map_set m (fst kv) (snd kv)) entries [].

(** [Array.prototype.sort] with a comparator: a stable insertion sort. *)
Fixpoint sortInsert {A : Type} (cmp : A -> A -> comparison) (x : A) (l : list A) : list A :=
  match l with
  | [] => [x]
  | y :: l' =>
      match cmp x y with
      | Lt => x :: l
      | _ => y :: sortInsert cmp x l'
      end
  end.

Definition Array_sort {A : Type} (cmp : A -> A -> comparison) (l : list A) : list A :=
  fold_left (fun acc x => sortInsert cmp x acc) l [].

(** [a.localeCompare(b)] on date strings: digits and hyphens collate in
    code point order. *)
Definition localeCompare (a b : string) : comparison := String.compare a b.

(** ** The engine *)

Definition WINDOW_DAYS : Z := 28.

Section Scoring.

Variable P : Platform.

(** [Number(session.durationSec)] *)
Definition Number_of (v : DurationValue) : number :=
  match v with
  | DurMissing => NaN
  | DurNumber n => n
  | DurOther n => n
  end.

(** The body of the loop of [groupSessionsByDay] (scoring.ts 76-93).  The
    bucket object is mutated in place: its entry keeps its position. *)
Definition groupStep (timezone : string) (dayMap : JSMap ActiveDay) (session : Session)
  : Result (JSMap ActiveDay) :=
  dateStr <- toLocalDateString P (timestamp session) timezone ;;
  let dayMap1 :=
    if negb (Map_has dayMap dateStr)
    then Map_set dayMap dateStr
           {| date := dateStr; sessionCount := 0; totalDurationSec := ofZ 0 |}
    else dayMap in
  match Map_get dayMap1 dateStr with
  | None => Throw TypeError_Undefined
  | Some day =>
      let duration := Math_max (ofZ 0) (nor (Number_of (durationSec session)) (ofZ 0)) in
      Ok (Map_set dayMap1 dateStr
            {| date := date day;
               sessionCount := sessionCount day + 1;
               totalDurationSec := nadd (totalDurationSec day) duration |})
  end.

Fixpoint groupLoop (timezone : string) (dayMap : JSMap ActiveDay) (ss : list Session)
  : Result (JSMap ActiveDay) :=
  match ss with
  | [] => Ok dayMap
  | session :: rest =>
      dayMap' <- groupStep timezone dayMap session ;;
      groupLoop timezone dayMap' rest
  end.

(** [groupSessionsByDay] (scoring.ts 70-98) *)
Definition groupSessionsByDay (ss : list Session) (timezone : string)
  : Result (list ActiveDay) :=
  dayMap <- groupLoop timezone [] ss ;;
  Ok (Array_sort (fun a b => localeCompare (date a) (date b)) (Map_values dayMap)).

(** [calculateBaseScore] (scoring.ts 104-107) *)
Definition calculateBaseScore (days : list ActiveDay) : number :=
  let MAX_BASE_SCORE := ofZ 60 in
  nmul (ndiv (ofZ (Z.of_nat (List.length days))) (ofZ WINDOW_DAYS)) MAX_BASE_SCORE.

(** The day difference of two buckets, as the three loops compute it:
    [Math.floor((curr.getTime() - prev.getTime()) / (1000*60*60*24))]. *)
Definition dayDiff (prev curr : ActiveDay) : number :=
  let prevD := newDate P (date prev) in
  let currD := newDate P (date curr) in
  Math_floor (ndiv (nsub (getTime currD) (getTime prevD)) (ofZ (1000 * 60 * 60 * 24))).

(** [for (let i = 1; i < activeDays.length; i++)] over the pairs
    [(activeDays[i-1], activeDays[i])], collecting the gaps. *)
Fixpoint gapsFrom (prev : ActiveDay) (rest : list ActiveDay) : list number :=
  match rest with
  | [] => []
  | curr :: rest' => dayDiff prev curr :: gapsFrom curr rest'
  end.

Definition gapsOf (days : list ActiveDay) : list number :=
  match days with
  | [] => []
  | first :: rest => gapsFrom first rest
  end.

(** [calculateDistributionBonus] (scoring.ts 117-137) *)
Definition calculateDistributionBonus (days : list ActiveDay) : number :=
  let MAX_DISTRIBUTION_BONUS := ofZ 25 in
  if (Z.of_nat (List.length days) <? 2) then ofZ 0
  else
    let gaps := gapsOf days in
    let maxGap := Math_max_spread gaps in
    let distributionQuality :=
      nsub (ofZ 1) (Math_min (ndiv maxGap (ofZ WINDOW_DAYS)) (ofZ 1)) in
    nmul distributionQuality MAX_DISTRIBUTION_BONUS.

(** The loop of [calculateStreakBonus] (scoring.ts 160-170); [steps] is the
    number of iterations left. *)
Fixpoint streakWalk (has : string -> bool) (timezone : string) (steps : nat)
  (streak : Z) (checkDate : JSDate) : Result Z :=
  match steps with
  | O => Ok streak
  | S steps' =>
      dateStr <- toLocalDateString P checkDate timezone ;;
      let next := setDate P checkDate (nsub (getDate P checkDate) (ofZ 1)) in
      if has dateStr then streakWalk has timezone steps' (streak + 1) next
      else if streak >? 0 then Ok streak
      else streakWalk has timezone steps' streak next
  end.

(** [new Set(activeDays.map(d => d.date)).has] *)
Definition activeDaySet_has (days : list ActiveDay) (s : string) : bool :=
  existsb (fun d => String.eqb (date d) s) days.

(** [calculateStreakBonus] (scoring.ts 143-173) *)
Definition calculateStreakBonus (days : list ActiveDay) (reference : JSDate)
  (timezone : string) : Result number :=
  let MAX_STREAK_BONUS := 10 in
  let POINTS_PER_DAY := 2 in
  if Z.of_nat (List.length days) =? 0 then Ok (ofZ 0)
  else
    refStr <- toLocalDateString P reference timezone ;;
    let checkDate := newDate P refStr in
    streak <- streakWalk (activeDaySet_has days) timezone (Z.to_nat WINDOW_DAYS) 0 checkDate ;;
    Ok (ofZ (Z.min (streak * POINTS_PER_DAY) MAX_STREAK_BONUS)).

(** [calculateRecencyBonus] (scoring.ts 179-186) *)
Definition calculateRecencyBonus (m : ConsistencyMetadata) : number :=
  if nleb (daysSinceLastSession m) (ofZ 1) then ofZ 5
  else if nleb (daysSinceLastSession m) (ofZ 3) then ofZ 3
  else if nleb (daysSinceLastSession m) (ofZ 7) then ofZ 1
  else ofZ 0.

(** [calculateScoreBreakdown] (scoring.ts 191-201) *)
Definition calculateScoreBreakdown (days : list ActiveDay) (m : ConsistencyMetadata)
  : ScoreBreakdown :=
  {| baseScore := calculateBaseScore days;
     distributionBonus := calculateDistributionBonus days;
     streakBonus := ofZ 0;
     recencyBonus := calculateRecencyBonus m |}.

(** The longest-streak loop of [calculateMetadata] (scoring.ts 231-244). *)
Fixpoint streakScan (prev : ActiveDay) (rest : list ActiveDay)
  (longestStreak currentStreak : Z) : Z :=
  match rest with
  | [] => longestStreak
  | curr :: rest' =>
      if nstrictEq (dayDiff prev curr) (ofZ 1)
      then streakScan curr rest' (Z.max longestStreak (currentStreak + 1)) (currentStreak + 1)
      else streakScan curr rest' longestStreak 1
  end.

(** [calculateMetadata] (scoring.ts 206-276) *)
Definition calculateMetadata (days : list ActiveDay) (reference : JSDate)
  (timezone : string) : Result ConsistencyMetadata :=
  match days with
  | [] =>
      Ok {| totalSessions := 0; activeDays := 0; longestStreak := 0;
            longestGap := ofZ 0; averageGap := ofZ 0;
            daysSinceLastSession := ofZ WINDOW_DAYS |}
  | first :: rest =>
      let total := fold_left (fun sum d => sum + sessionCount d) days 0 in
      let longest := streakScan first rest 1 1 in
      let gaps := gapsOf days in
      let longestGap_ :=
        if (0 <? Z.of_nat (List.length gaps)) then Math_max_spread gaps else ofZ 0 in
      let averageGap_ :=
        if (0 <? Z.of_nat (List.length gaps))
        then ndiv (fold_left nadd gaps (ofZ 0)) (ofZ (Z.of_nat (List.length gaps)))
        else ofZ 0 in
      let lastDate := newDate P (date (last rest first)) in
      refStr <- toLocalDateString P reference timezone ;;
      let refLocal := newDate P refStr in
      let since :=
        Math_floor (ndiv (nsub (getTime refLocal) (getTime lastDate))
                         (ofZ (1000 * 60 * 60 * 24))) in
      Ok {| totalSessions := total;
            activeDays := Z.of_nat (List.length days);
            longestStreak := longest;
            longestGap := longestGap_;
            averageGap := averageGap_;
            daysSinceLastSession := since |}
  end.

(** One iteration of the loop of [generateChartData] (scoring.ts 293-303). *)
Definition chartEntry (activeDayMap : JSMap ActiveDay) (reference : JSDate)
  (timezone : string) (i : Z) : Result DayActivity :=
  let d := reference in
  let d := setDate P d (nsub (getDate P d) (ofZ i)) in
  dateStr <- toLocalDateString P d timezone ;;
  let day := Map_get activeDayMap dateStr in
  Ok {| chartDate := dateStr;
        hasActivity := match day with Some _ => true | None => false end;
        chartSessionCount := match day with Some a => sessionCount a | None => 0 end |}.

(** [for (let i = n - 1; i >= 0; i--)] *)
Fixpoint chartLoop (activeDayMap : JSMap ActiveDay) (reference : JSDate)
  (timezone : string) (n : nat) : Result (list DayActivity) :=
  match n with
  | O => Ok []
  | S i =>
      entry <- chartEntry activeDayMap reference timezone (Z.of_nat i) ;;
      chart <- chartLoop activeDayMap reference timezone i ;;
      Ok (entry :: chart)
  end.

(** [generateChartData] (scoring.ts 281-307) *)
Definition generateChartData (days : list ActiveDay) (reference : JSDate)
  (timezone : string) : Result (list DayActivity) :=
  let activeDayMap := Map_of (map (fun d => (date d, d)) days) in
  chartLoop activeDayMap reference timezone (Z.to_nat WINDOW_DAYS).

(** [generateExplanations] (scoring.ts 312-352) *)
Definition generateExplanations (m : ConsistencyMetadata) (b : ScoreBreakdown)
  : list string :=
  let pct := Math_round (nmul (ndiv (ofZ (activeDays m)) (ofZ WINDOW_DAYS)) (ofZ 100)) in
  let bullets :=
    ["You trained " ++ string_of_Z (activeDays m) ++ " out of 28 days ("
       ++ number_toString pct ++ "%)"]%string in
  let bullets :=
    if activeDays m >=? 2 then
      let distPct := Math_round (nmul (ndiv (distributionBonus b) (ofZ 25)) (ofZ 100)) in
      if ngeb distPct (ofZ 75) then bullets ++ ["Your sessions are evenly distributed"%string]
      else if ngeb distPct (ofZ 50) then bullets ++ ["Your sessions are fairly well spaced"%string]
      else bullets ++ ["Long gaps reduce your consistency score"%string]
    else bullets in
  let bullets :=
    if longestStreak m >? 1
    then bullets ++ [("Longest streak: " ++ string_of_Z (longestStreak m) ++ " days")%string]
    else bullets in
  let bullets :=
    if nleb (daysSinceLastSession m) (ofZ 3) then
      bullets ++
        [if nstrictEq (daysSinceLastSession m) (ofZ 0)
         then "You exercised today—great momentum!"%string
         else ("Last session was " ++ number_toString (daysSinceLastSession m)
                 ++ " days ago")%string]
    else bullets in
  let bullets :=
    if ngtb (longestGap m) (ofZ 7) && (Z.of_nat (List.length bullets) <? 5)
    then bullets ++ [("Longest gap: " ++ number_toString (longestGap m) ++ " days")%string]
    else bullets in
  firstn 5 bullets.

(** The defaults of the destructuring on line 26:
    [referenceDate = new Date()] and [timezone = 'UTC']. *)
Definition referenceOf (input : ScoreInput) : JSDate :=
  match referenceDate input with
  | Some d => d
  | None => Valid (currentTime P)
  end.

Definition zoneOf (input : ScoreInput) : string :=
  match timezone input with
  | Some z => z
  | None => "UTC"%string
  end.

(** [calculateConsistencyScore] (scoring.ts 25-64) *)
Definition calculateConsistencyScore (input : ScoreInput) : Result ConsistencyScore :=
  let reference := referenceOf input in
  let tz := zoneOf input in
  days <- groupSessionsByDay (sessions input) tz ;;
  metadata_ <- calculateMetadata days reference tz ;;
  let breakdown0 := calculateScoreBreakdown days metadata_ in
  streak <- calculateStreakBonus days reference tz ;;
  let breakdown_ :=
    {| baseScore := baseScore breakdown0;
       distributionBonus := distributionBonus breakdown0;
       streakBonus := streak;
       recencyBonus := recencyBonus breakdown0 |} in
  chart <- generateChartData days reference tz ;;
  let explanations_ := generateExplanations metadata_ breakdown_ in
  let rawScore :=
    nadd (nadd (nadd (baseScore breakdown_) (distributionBonus breakdown_))
               (streakBonus breakdown_))
         (recencyBonus breakdown_) in
  let score_ := Math_max (ofZ 0) (Math_min (ofZ 100) (Math_round rawScore)) in
  Ok {| score := score_;
        explanations := explanations_;
        chartData := chart;
        metadata := metadata_;
        breakdown := breakdown_ |}.

End Scoring.

(** ** Definitions used in the statements and proofs *)

(** The civil date of a local time value has a four-digit year. *)
Definition fourDigitYear (lt : Z) : bool :=
  (1000 <=? YearFromTime lt) && (YearFromTime lt <=? 9999).

(** A date whose civil date in the zone has a four-digit year. *)
Definition dateInRange (P : Platform) (tz : string) (d : JSDate) : bool :=
  match zoneOffset P tz, d with
  | Some off, Valid t => fourDigitYear (t + off t)
  | _, _ => false
  end.

Definition fourDigits (y : Z) : string :=
  String (digitChar (y / 1000)) (String (digitChar (y / 100 mod 10))
    (String (digitChar (y / 10 mod 10)) (String (digitChar (y mod 10)) EmptyString))).

(** The ten characters YYYY-MM-DD. *)
Definition isoString (y m d : Z) : string :=
  fourDigits y ++ String hyphen (twoDigits m ++ String hyphen (twoDigits d)).

(** The civil date as one integer, YYYYMMDD. *)
Definition civilKey (y m d : Z) : Z := y * 10000 + m * 100 + d.

Definition civilKeyOf (lt : Z) : Z :=
  civilKey (YearFromTime lt) (MonthFromTime lt + 1) (DateFromTime lt).

(** What the rest of the engine reads of a bucket: its date and its count. *)
Definition observe (d : ActiveDay) : string * Z := (date d, sessionCount d).

Definition byDate (a b : ActiveDay) : comparison := localeCompare (date a) (date b).

Definition byKey (a b : string * Z) : comparison := localeCompare (fst a) (fst b).

(** The comparator [(a, b) => key(a).localeCompare(key(b))]. *)
Definition cmpBy {A : Type} (key : A -> string) (a b : A) : comparison :=
  localeCompare (key a) (key b).

(** Strictly ascending keys. *)
Definition keyLt {A : Type} (key : A -> string) (a b : A) : Prop :=
  String.compare (key a) (key b) = Lt.

(** Counting dates, in the order of their first occurrence. *)
Fixpoint tallyAdd (k : string) (t : list (string * Z)) : list (string * Z) :=
  match t with
  | [] => [(k, 1)]
  | (k', c) :: t' =>
      if String.eqb k' k then (k', c + 1) :: t' else (k', c) :: tallyAdd k t'
  end.

Definition tally (dates : list string) : list (string * Z) :=
  fold_left (fun t k => tallyAdd k t) dates [].

(** The number of occurrences of a date. *)
Definition occurrences (k : string) (dates : list string) : Z :=
  Z.of_nat (count_occ string_dec dates k).

(** The date strings of the sessions, in order, or the first error. *)
Fixpoint sessionDates (P : Platform) (tz : string) (ss : list Session)
  : Result (list string) :=
  match ss with
  | [] => Ok []
  | s :: rest =>
      k <- toLocalDateString P (timestamp s) tz ;;
      ks <- sessionDates P tz rest ;;
      Ok (k :: ks)
  end.

(** The effect of one iteration of [groupSessionsByDay] on the map, once
    the date string [k] of the session is known. *)
Fixpoint bump (k : string) (duration : number) (m : JSMap ActiveDay) : JSMap ActiveDay :=
  match m with
  | [] => [(k, {| date := k; sessionCount := 0 + 1;
                  totalDurationSec := nadd (ofZ 0) duration |})]
  | (k', v) :: m' =>
      if String.eqb k' k
      then (k, {| date := date v; sessionCount := sessionCount v + 1;
                  totalDurationSec := nadd (totalDurationSec v) duration |}) :: m'
      else (k', v) :: bump k duration m'
  end.

(** Every entry is filed under its own date. *)
Definition wellKeyed (m : JSMap ActiveDay) : Prop :=
  Forall (fun kv => date (snd kv) = fst kv) m.

(** The count filed under a key, 0 when the key is absent. *)
Fixpoint countOf (k : string) (t : list (string * Z)) : Z :=
  match t with
  | [] => 0
  | (k', c) :: t' => if String.eqb k' k then c else countOf k t'
  end.

(** [Math.max(0, Number(session.durationSec) || 0)] *)
Definition normalizedDuration (s : Session) : number :=
  Math_max (ofZ 0) (nor (Number_of (durationSec s)) (ofZ 0)).

(** A date that [format] accepts. *)
Definition validDate (d : JSDate) : bool :=
  match d with
  | Valid t => timeInRange t
  | Invalid => false
  end.

(** The date string of a valid date in a zone with offset function [off]. *)
Definition civilDateOf (off : Z -> Z) (d : JSDate) : string :=
  match d with
  | Valid t => formatCivil (t + off t)
  | Invalid => EmptyString
  end.

(** What [calculateConsistencyScore] does once the buckets are there
    (scoring.ts 31-63). *)
Definition scoreDays (P : Platform) (days : list ActiveDay) (reference : JSDate)
  (tz : string) : Result ConsistencyScore :=
  metadata_ <- calculateMetadata P days reference tz ;;
  let breakdown0 := calculateScoreBreakdown P days metadata_ in
  streak <- calculateStreakBonus P days reference tz ;;
  let breakdown_ :=
    {| baseScore := baseScore breakdown0;
       distributionBonus := distributionBonus breakdown0;
       streakBonus := streak;
       recencyBonus := recencyBonus breakdown0 |} in
  chart <- generateChartData P days reference tz ;;
  let explanations_ := generateExplanations metadata_ breakdown_ in
  let rawScore :=
    nadd (nadd (nadd (baseScore breakdown_) (distributionBonus breakdown_))
               (streakBonus breakdown_))
         (recencyBonus breakdown_) in
  let score_ := Math_max (ofZ 0) (Math_min (ofZ 100) (Math_round rawScore)) in
  Ok {| score := score_;
        explanations := explanations_;
        chartData := chart;
        metadata := metadata_;
        breakdown := breakdown_ |}.

(** Two maps with the same keys, in the same order, and the same observed
    buckets. *)
Definition sameEntries (m1 m2 : JSMap ActiveDay) : Prop :=
  Forall2 (fun a b => fst a = fst b /\ observe (snd a) = observe (snd b)) m1 m2.

(** Two sessions that differ at most in [durationSec]. *)
Definition sameButDuration (a b : Session) : Prop :=
  id a = id b /\ timestamp a = timestamp b /\ type a = type b.

(** ** A host and some histories *)

Definition hours (h : Z) : Z := h * 3600000.

(** The time value of a UTC wall-clock time. *)
Definition utcTime (y m d hh mm : Z) : Z :=
  MakeDate (MakeDay y (m - 1) d) (hours hh + mm * 60000).

(** New York in 2024: daylight time from 10 March 07:00 UTC to
    3 November 06:00 UTC. *)
Definition newYork2024 (t : Z) : Z :=
  if (utcTime 2024 3 10 7 0 <=? t) && (t <? utcTime 2024 11 3 6 0)
  then hours (-4) else hours (-5).

(** Four zones. *)
Definition fourZones (tz : string) : option (Z -> Z) :=
  if String.eqb tz "UTC" then Some (fun _ => 0)
  else if String.eqb tz "Etc/GMT+5" then Some (fun _ => hours (-5))
  else if String.eqb tz "Asia/Tokyo" then Some (fun _ => hours 9)
  else if String.eqb tz "America/New_York" then Some newYork2024
  else None.

Definition fourZones_bounded (tz : string) (off : Z -> Z) (t : Z) :
  fourZones tz = Some off -> Z.abs (off t) <= msPerDay.
Proof.
  unfold fourZones.
  repeat (destruct (String.eqb tz _);
          [intros H; injection H as <-; try (unfold newYork2024; destruct (_ && _));
           vm_compute; discriminate |]).
  discriminate.
Qed.

Definition utcOffset_bounded (t : Z) : Z.abs 0 <= msPerDay /\ Z.abs 0 <= msPerDay.
Proof. split; vm_compute; discriminate. Qed.

(** A host that runs in UTC, with the four zones in its database. *)
Definition utcHost : Platform := {|
  zoneOffset := fourZones;
  hostOffsetAtUTC := fun _ => 0;
  hostOffsetAtLocal := fun _ => 0;
  currentTime := utcTime 2024 6 15 12 0;
  parseOther := fun _ => Invalid;
  zoneOffset_bounded := fourZones_bounded;
  hostOffset_bounded := utcOffset_bounded
|}.

Definition sessionAt (name : string) (d : JSDate) (dur : DurationValue) : Session :=
  {| id := name; timestamp := d; durationSec := dur; type := None |}.

(** Noon UTC on 15 June 2024, and a session [n] days before it. *)
Definition noon : Z := utcTime 2024 6 15 12 0.

Definition daysAgo (n : Z) : Session :=
  sessionAt "s" (Valid (noon - n * msPerDay)) (DurNumber (ofZ 30)).

Definition inputAt (ss : list Session) (t : Z) (tz : string) : ScoreInput :=
  {| sessions := ss; referenceDate := Some (Valid t); timezone := Some tz |}.

(** The time value that iteration [i] of the chart loop formats: the
    reference moved back [i] days on the calendar of the host. *)
Definition chartInstant (P : Platform) (t i : Z) : Z :=
  UTC P (LocalTime P t - i * msPerDay).

(** The chart entry of iteration [i], in a zone with offset function [off]. *)
Definition chartEntryAt (P : Platform) (m : JSMap ActiveDay) (off : Z -> Z) (t i : Z)
  : DayActivity :=
  let u := chartInstant P t i in
  let dateStr := formatCivil (u + off u) in
  {| chartDate := dateStr;
     hasActivity := Map_has m dateStr;
     chartSessionCount := match Map_get m dateStr with
                          | Some a => sessionCount a
                          | None => 0
                          end |}.

(** [n - 1, ..., 1, 0] *)
Definition countdown (n : nat) : list Z := map Z.of_nat (rev (seq 0 n)).

(** The instants of the last [n] iterations of the chart loop are time
    values of a [Date]. *)
Definition chartInRange (P : Platform) (t : Z) (n : nat) : bool :=
  forallb (fun i => timeInRange (chartInstant P t i)) (countdown n).

Definition emptyMetadata : ConsistencyMetadata :=
  {| totalSessions := 0; activeDays := 0; longestStreak := 0;
     longestGap := ofZ 0; averageGap := ofZ 0; daysSinceLastSession := ofZ 28 |}.

(** A finite number between two rationals. *)
Definition within (lo hi : Q) (x : number) : Prop :=
  exists q, x = Fin q /\ (lo <= q <= hi)%Q.

(** The date of a bucket is the rendering of a civil date with a four-digit
    year. *)
Definition rendered (d : ActiveDay) : Prop :=
  exists lt, date d = formatCivil lt /\ fourDigitYear lt = true.

(** An integer that is at least [lo]. *)
Definition intFrom (lo : Z) (x : number) : Prop :=
  exists z, x = ofZ z /\ lo <= z.

(** Scenario A of the spec: sessions 27, 20, 12 and 2 days before the
    reference date. *)
Definition scenarioA : ScoreInput :=
  inputAt [daysAgo 27; daysAgo 20; daysAgo 12; daysAgo 2] noon "UTC".

(** One session on each of 29 consecutive days, the last one today. *)
Definition twentyNineDays : ScoreInput :=
  inputAt (map (fun n => daysAgo (Z.of_nat n)) (seq 0 29)) noon "UTC".

(** The sum of the four components. *)
Definition rawScoreOf (b : ScoreBreakdown) : number :=
  nadd (nadd (nadd (baseScore b) (distributionBonus b)) (streakBonus b)) (recencyBonus b).

(** The number of sessions whose date string in the zone is [k]. *)
Definition sessionsOn (P : Platform) (tz k : string) (ss : list Session) : Z :=
  Z.of_nat (List.length
    (filter (fun s => match toLocalDateString P (timestamp s) tz with
                      | Ok k' => String.eqb k' k
                      | Throw _ => false
                      end) ss)).

(** The sum of the counts of a tally. *)
Definition totalCount (t : list (string * Z)) : Z :=
  fold_right (fun kc acc => snd kc + acc) 0 t.

(** Scenario D of the spec: two sessions with the same timestamp. *)
Definition sameInstantTwice : list Session :=
  [sessionAt "a" (Valid (noon - 10 * msPerDay)) (DurNumber (ofZ 30));
   sessionAt "b" (Valid (noon - 10 * msPerDay)) (DurNumber (ofZ 45))].

(** ** The streak walk and the chart as the specification words them *)

(** The walk of section 4.3 over civil days: [day] is the number of the
    civil day that is examined, [counter] the streak so far. *)
Fixpoint specStreakWalk (active : Z -> bool) (steps : nat) (counter day : Z) : Z :=
  match steps with
  | O => counter
  | S n =>
      if active day then specStreakWalk active n (counter + 1) (day - 1)
      else if counter >? 0 then counter
      else specStreakWalk active n counter (day - 1)
  end.

(** The date string of a civil day. *)
Definition civilDayString (day : Z) : string := formatCivil (day * msPerDay).

(** [min(counter * 2, 10)], the walk starting at the civil date of the
    reference instant [t] in the zone with offsets [off]. *)
Definition specStreakBonus (days : list ActiveDay) (off : Z -> Z) (t : Z) : number :=
  let active := fun day => activeDaySet_has days (civilDayString day) in
  ofZ (Z.min (specStreakWalk active (Z.to_nat WINDOW_DAYS) 0 (Day (t + off t)) * 2) 10).

(** The civil dates from the reference date minus 27 days to the reference
    date, oldest first (section 4.4). *)
Definition specChartDates (off : Z -> Z) (t : Z) : list string :=
  map (fun i => civilDayString (Day (t + off t) - i)) (countdown (Z.to_nat WINDOW_DAYS)).

(** A session at 12:00 in the zone Etc/GMT+5 (five hours behind UTC), and
    the same instant as reference date. *)
Definition noonWest : Z := utcTime 2024 6 15 17 0.

Definition trainedTodayWest : ScoreInput :=
  inputAt [sessionAt "today" (Valid noonWest) (DurNumber (ofZ 1800))] noonWest "Etc/GMT+5".

(** 23:30 in New York on 3 November 2024, the day the clocks go back. *)
Definition lateOnFallBack : Z := utcTime 2024 11 4 4 30.

Definition fallBackSunday : ScoreInput := inputAt [] lateOnFallBack "America/New_York".

(** A number that a template literal shows exactly: an integer or NaN. *)
Definition integralOrNaN (x : number) : Prop := x = NaN \/ isInteger x = true.

(** What a chart entry must report about the buckets: the bucket of its
    date when there is one, inactivity otherwise. *)
Definition reportsBucket (days : list ActiveDay) (e : DayActivity) : Prop :=
  match find (fun d => String.eqb (date d) (chartDate e)) days with
  | Some a => hasActivity e = true /\ chartSessionCount e = sessionCount a
  | None => hasActivity e = false /\ chartSessionCount e = 0
  end.

(** ** Further definitions used in the statements *)

(** The frequency bullet for [n] active days. *)
Definition frequencyBullet (n : Z) : string :=
  "You trained " ++ string_of_Z n ++ " out of 28 days ("
    ++ number_toString (Math_round (nmul (ndiv (ofZ n) (ofZ WINDOW_DAYS)) (ofZ 100)))
    ++ "%)".

Definition gapBullet (g : number) : string :=
  "Longest gap: " ++ number_toString g ++ " days".

(** The metadata and the breakdown of scenario A. *)
Definition scenarioA_metadata : ConsistencyMetadata :=
  {| totalSessions := 4; activeDays := 4; longestStreak := 1;
     longestGap := ofZ 10; averageGap := Fin (25 # 3);
     daysSinceLastSession := ofZ 2 |}.

Definition scenarioA_breakdown : ScoreBreakdown :=
  {| baseScore := Fin (240 # 28); distributionBonus := Fin (450 # 28);
     streakBonus := ofZ 2; recencyBonus := ofZ 3 |}.

(** Three buckets: two consecutive days and a third one three days later. *)
Definition threeBuckets : list ActiveDay :=
  [{| date := "2024-06-10"; sessionCount := 1; totalDurationSec := ofZ 0 |};
   {| date := "2024-06-11"; sessionCount := 2; totalDurationSec := ofZ 0 |};
   {| date := "2024-06-14"; sessionCount := 1; totalDurationSec := ofZ 0 |}].

(** Sessions one, two, three and seven days before the reference date, in
    Tokyo. *)
Definition tokyoStreak : ScoreInput :=
  inputAt [daysAgo 3; daysAgo 2; daysAgo 1; daysAgo 7] noon "Asia/Tokyo".

(** The number of the civil day of a date in a zone with offsets [off]. *)
Definition civilDayOf (off : Z -> Z) (d : JSDate) : Z :=
  match d with
  | Valid u => Day (u + off u)
  | Invalid => 0
  end.

(** [D] is the latest civil day on which a session of the list falls. *)
Definition latestDay (off : Z -> Z) (ss : list Session) (D : Z) : Prop :=
  (exists s, In s ss /\ civilDayOf off (timestamp s) = D)
  /\ forall s, In s ss -> civilDayOf off (timestamp s) <= D.

(** [D] is the earliest civil day on which a session of the list falls. *)
Definition earliestDay (off : Z -> Z) (ss : list Session) (D : Z) : Prop :=
  (exists s, In s ss /\ civilDayOf off (timestamp s) = D)
  /\ forall s, In s ss -> D <= civilDayOf off (timestamp s).

(** The number of the civil day that the date string of a bucket names. *)
Definition bucketDay (d : ActiveDay) : Z :=
  match parseISODate (date d) with
  | Some t => Day t
  | None => 0
  end.

Definition sumZ (zs : list Z) : Z := fold_right Z.add 0 zs.

(** An integer between [lo] and [hi]. *)
Definition intBetween (lo hi : Z) (x : number) : Prop :=
  exists z, x = ofZ z /\ lo <= z <= hi.

(** A number that is neither NaN nor negative. *)
Definition nonNegative (x : number) : Prop :=
  x = PosInf \/ exists q, x = Fin q /\ (0 <= q)%Q.

(** The normalised durations of the sessions that fall on the date string
    [k], in the order of the list. *)
Definition durationsOn (P : Platform) (tz k : string) (ss : list Session) : list number :=
  map normalizedDuration
    (filter (fun s => match toLocalDateString P (timestamp s) tz with
                      | Ok k' => String.eqb k' k
                      | Throw _ => false
                      end) ss).

(** The duration filed under a key, 0 when the key is absent. *)
Definition totalOf (m : JSMap ActiveDay) (k : string) : number :=
  match Map_get m k with
  | Some v => totalDurationSec v
  | None => ofZ 0
  end.

(** What a chart entry shows besides the count. *)
Definition chartMark (e : DayActivity) : string * bool := (chartDate e, hasActivity e).

(** Two metadata records that differ at most in [totalSessions]. *)
Definition sameButTotal (m1 m2 : ConsistencyMetadata) : Prop :=
  activeDays m1 = activeDays m2 /\ longestStreak m1 = longestStreak m2
  /\ longestGap m1 = longestGap m2 /\ averageGap m1 = averageGap m2
  /\ daysSinceLastSession m1 = daysSinceLastSession m2.

(** Two histories with the same active dates: one session a day, and the
    later day visited three times. *)
Definition onceADay : list Session := [daysAgo 5; daysAgo 2].

Definition thriceADay : list Session := [daysAgo 2; daysAgo 5; daysAgo 2; daysAgo 2].

(** * The Firestore helpers (queries.ts) *)

(** Why a promise is rejected: an error of the database, or an exception
    thrown inside the async function. *)
Inductive Reason : Type :=
| FirestoreError (code : string)
| Thrown (e : exn).

(** What a promise settles to. *)
Inductive Settled (A : Type) : Type :=
| Resolved (a : A)
| Rejected (r : Reason).

Arguments Resolved {A} a.
Arguments Rejected {A} r.

(** [await p] followed by the rest of the async function. *)
Definition await {A B : Type} (p : Settled A) (k : A -> Settled B) : Settled B :=
  match p with
  | Resolved a => k a
  | Rejected r => Rejected r
  end.

(** The promise of an async function whose body runs without awaiting. *)
Definition settle {A : Type} (r : Result A) : Settled A :=
  match r with
  | Ok a => Resolved a
  | Throw e => Rejected (Thrown e)
  end.

(** [Promise.all] over promises that have settled: the values in order, or
    the first rejection. *)
Fixpoint Promise_all {A : Type} (ps : list (Settled A)) : Settled (list A) :=
  match ps with
  | [] => Resolved []
  | p :: rest =>
      await p (fun a => await (Promise_all rest) (fun l => Resolved (a :: l)))
  end.

(** A Firestore Timestamp: [toDate()] is the date with the time value
    [toMillis], a time value of a [Date]. *)
Record Timestamp : Type := {
  toMillis : Z;
  toMillis_range : timeInRange toMillis = true
}.

(** A document of [users/{userId}/sessions] as the helpers read it.  The
    field [timestamp] is [Some ts] for a Firestore Timestamp and [None] for
    anything else, on which the call of [toDate] throws a TypeError. *)
Record Doc : Type := {
  docId : string;
  docTimestamp : option Timestamp;
  docDurationSec : DurationValue;
  docType : option string
}.

(** The two queries that the helpers build: the sessions of a user with
    [startDate <= timestamp <= referenceDate], latest first, at most
    [limit] of them; and the latest session of a user. *)
Inductive Query : Type :=
| SessionsBetween (userId : string) (startDate referenceDate : JSDate) (limit : number)
| LatestSession (userId : string).

(** The database: [get()] on a query, with the conversion of the bounds by
    [Timestamp.fromDate].  It answers a query the same way however often
    it is asked. *)
Definition Firestore : Type := Query -> Settled (list Doc).

Record FetchOptions : Type := {
  optLimit : option number;
  optReferenceDate : option JSDate
}.

Definition DEFAULT_WINDOW_DAYS : number := ofZ 28.
Definition DEFAULT_LIMIT : number := ofZ 200.

(** The object literal of [fetchUserSessions] (queries.ts 50-59) and of
    [getLastSession] (queries.ts 117-125). *)
Definition docToSession (doc : Doc) : Result Session :=
  match docTimestamp doc with
  | None => Throw TypeError_Undefined
  | Some ts =>
      Ok {| id := docId doc;
            timestamp := Valid (toMillis ts);
            durationSec := DurNumber (nor (Number_of (docDurationSec doc)) (ofZ 0));
            type := docType doc |}
  end.

(** [docs.map(f)] with a callback that may throw. *)
Fixpoint mapDocs {A B : Type} (f : A -> Result B) (docs : list A) : Result (list B) :=
  match docs with
  | [] => Ok []
  | doc :: rest =>
      b <- f doc ;;
      bs <- mapDocs f rest ;;
      Ok (b :: bs)
  end.

Section Queries.

Variable P : Platform.

(** [date.setHours(0, 0, 0, 0)]: the resulting date. *)
Definition setHours_midnight (d : JSDate) : JSDate :=
  match d with
  | Valid t => Valid (UTC P (MakeDate (Day (LocalTime P t)) 0))
  | Invalid => Invalid
  end.

(** queries.ts 36-38.  A start that has left the range of [Date] is handed
    on as it is: it is [Timestamp.fromDate], on the side of the database,
    that refuses it. *)
Definition fetchWindowStart (referenceDate : JSDate) (days : number) : JSDate :=
  let startDate := referenceDate in
  let startDate := setDate P startDate (nsub (getDate P startDate) days) in
  setHours_midnight startDate.

(** The query of [fetchUserSessions] (queries.ts 33-48). *)
Definition fetchQuery (userId : string) (days : option number)
  (options : option FetchOptions) : Query :=
  let days := match days with Some d => d | None => DEFAULT_WINDOW_DAYS end in
  let limit :=
    match options with
    | Some o => match optLimit o with Some l => l | None => DEFAULT_LIMIT end
    | None => DEFAULT_LIMIT
    end in
  let referenceDate :=
    match options with
    | Some o => match optReferenceDate o with Some d => d | None => Valid (currentTime P) end
    | None => Valid (currentTime P)
    end in
  SessionsBetween userId (fetchWindowStart referenceDate days) referenceDate limit.

(** [fetchUserSessions] (queries.ts 24-60) *)
Definition fetchUserSessions (db : Firestore) (userId : string) (days : option number)
  (options : option FetchOptions) : Settled (list Session) :=
  await (db (fetchQuery userId days options)) (fun docs =>
  settle (mapDocs docToSession docs)).

(** The callback of [batchFetchUserSessions] (queries.ts 80-88). *)
Definition fetchOrEmpty (db : Firestore) (days : number) (userId : string)
  : Settled (string * list Session) :=
  match fetchUserSessions db userId (Some days) None with
  | Resolved sessions => Resolved (userId, sessions)
  | Rejected _ => Resolved (userId, [])
  end.

(** [batchFetchUserSessions] (queries.ts 74-92) *)
Definition batchFetchUserSessions (db : Firestore) (userIds : list string)
  (days : option number) : Settled (JSMap (list Session)) :=
  let days := match days with Some d => d | None => DEFAULT_WINDOW_DAYS end in
  await (Promise_all (map (fetchOrEmpty db days) userIds)) (fun results =>
  Resolved (Map_of results)).

End Queries.

(** [getLastSession] (queries.ts 101-127) *)
Definition getLastSession (db : Firestore) (userId : string) : Settled (option Session) :=
  await (db (LatestSession userId)) (fun docs =>
  match docs with
  | [] => Resolved None
  | doc :: _ => settle (s <- docToSession doc ;; Ok (Some s))
  end).

(** ** Definitions used in the statements about the helpers *)

(** What the batch keeps of the fetch of one user. *)
Definition sessionsOrNone (P : Platform) (db : Firestore) (days : option number)
  (userId : string) : list Session :=
  let days := match days with Some d => d | None => DEFAULT_WINDOW_DAYS end in
  match fetchUserSessions P db userId (Some days) None with
  | Resolved sessions => sessions
  | Rejected _ => []
  end.

(** A session as the helpers build it from a document. *)
Definition fromDoc (doc : Doc) (s : Session) : Prop :=
  id s = docId doc /\ type s = docType doc
  /\ (exists ts, docTimestamp doc = Some ts /\ timestamp s = Valid (toMillis ts))
  /\ exists n, durationSec s = DurNumber n /\ n <> NaN
       /\ n = nor (Number_of (docDurationSec doc)) (ofZ 0)
       /\ normalizedDuration s = Math_max (ofZ 0) n.

(** A collection with three sessions of one user: the latest with a
    duration that is no number, the earliest 30 days before [noon]. *)
Definition adaSessions : list Doc :=
  [{| docId := "s3";
      docTimestamp := Some {| toMillis := noon - 1 * msPerDay; toMillis_range := eq_refl |};
      docDurationSec := DurOther NaN; docType := None |};
   {| docId := "s2";
      docTimestamp := Some {| toMillis := noon - 28 * msPerDay - hours 12;
                              toMillis_range := eq_refl |};
      docDurationSec := DurNumber (ofZ 1800); docType := Some "run"%string |};
   {| docId := "s1";
      docTimestamp := Some {| toMillis := noon - 30 * msPerDay; toMillis_range := eq_refl |};
      docDurationSec := DurMissing; docType := None |}].

Definition inRange (lo hi : JSDate) (doc : Doc) : bool :=
  match lo, hi, docTimestamp doc with
  | Valid a, Valid b, Some ts => (a <=? toMillis ts) && (toMillis ts <=? b)
  | _, _, _ => false
  end.

(** A database that holds [adaSessions] for the user [ada], nothing for
    [bob], and is out of reach for every other user. *)
Definition sampleDb : Firestore := fun q =>
  match q with
  | SessionsBetween u lo hi _ =>
      if String.eqb u "ada" then Resolved (filter (inRange lo hi) adaSessions)
      else if String.eqb u "bob" then Resolved []
      else Rejected (FirestoreError "unavailable")
  | LatestSession u =>
      if String.eqb u "ada" then Resolved (firstn 1 adaSessions)
      else if String.eqb u "bob" then Resolved []
      else Rejected (FirestoreError "unavailable")
  end.

Definition atNoon : option FetchOptions :=
  Some {| optLimit := None; optReferenceDate := Some (Valid noon) |}.

(** The Timestamp of a time value of a [Date]. *)
Definition timestampOf (ms : Z) : option Timestamp :=
  (if timeInRange ms as b return timeInRange ms = b -> option Timestamp
   then fun R => Some {| toMillis := ms; toMillis_range := R |}
   else fun _ => None) eq_refl.

(** A collection with one session at 12:00 UTC on every day, of which the
    database returns those within the bounds of the query, latest first. *)
Definition dailySessions : list Doc :=
  map (fun n => {| docId := "daily";
                   docTimestamp := timestampOf (noon - Z.of_nat n * msPerDay);
                   docDurationSec := DurNumber (ofZ 1800);
                   docType := None |}) (seq 0 60).

Definition dailyDb : Firestore := fun q =>
  match q with
  | SessionsBetween _ lo hi _ => Resolved (filter (inRange lo hi) dailySessions)
  | LatestSession _ => Resolved (firstn 1 dailySessions)
  end.


(** * Proofs *)

(** ** The civil calendar *)

Ltac divmod := Z.div_mod_to_equations; lia.

Lemma isLeapYear_cases (y : Z) :
  isLeapYear y = true /\ (y mod 4 = 0 /\ (y mod 100 <> 0 \/ y mod 400 = 0))
  \/ isLeapYear y = false /\ (y mod 4 <> 0 \/ (y mod 100 = 0 /\ y mod 400 <> 0)).
Proof.
  unfold isLeapYear.
  destruct (y mod 4 =? 0) eqn:E4; destruct (y mod 100 =? 0) eqn:E100;
    destruct (y mod 400 =? 0) eqn:E400; simpl;
    rewrite ?Z.eqb_eq, ?Z.eqb_neq in *; intuition lia.
Qed.

Lemma DayFromYear_succ (y : Z) : DayFromYear (y + 1) = DayFromYear y + DaysInYear y.
Proof.
  unfold DaysInYear, DayFromYear.
  destruct (isLeapYear_cases y) as [[-> H] | [-> H]]; divmod.
Qed.

Lemma DaysInYear_pos (y : Z) : 365 <= DaysInYear y <= 366.
Proof. unfold DaysInYear; destruct (isLeapYear y); lia. Qed.

Lemma DayFromYear_lt (y1 y2 : Z) : y1 < y2 -> DayFromYear y1 < DayFromYear y2.
Proof. unfold DayFromYear; intros; divmod. Qed.

Lemma DayFromYear_le (y1 y2 : Z) : y1 <= y2 -> DayFromYear y1 <= DayFromYear y2.
Proof. unfold DayFromYear; intros; divmod. Qed.

Lemma YearFromDay_spec (d : Z) :
  DayFromYear (YearFromDay d) <= d < DayFromYear (YearFromDay d + 1).
Proof.
  unfold YearFromDay.
  set (y := 1970 + 400 * d / 146097).
  assert (Hlo : DayFromYear (y - 1) <= d) by (unfold DayFromYear, y; divmod).
  assert (Hhi : d < DayFromYear (y + 2)) by (unfold DayFromYear, y; divmod).
  destruct (DayFromYear (y + 1) <=? d) eqn:E1; [apply Z.leb_le in E1 | apply Z.leb_gt in E1].
  - replace (y + 1 + 1) with (y + 2) by lia; lia.
  - destruct (DayFromYear y <=? d) eqn:E0; [apply Z.leb_le in E0 | apply Z.leb_gt in E0].
    + lia.
    + replace (y - 1 + 1) with y by lia; lia.
Qed.

Lemma YearFromDay_unique (d y : Z) :
  DayFromYear y <= d < DayFromYear (y + 1) -> YearFromDay d = y.
Proof.
  intros H. pose proof (YearFromDay_spec d) as S.
  destruct (Z.lt_trichotomy (YearFromDay d) y) as [L | [E | G]]; [| exact E |].
  - assert (DayFromYear (YearFromDay d + 1) <= DayFromYear y) by (apply DayFromYear_le; lia). lia.
  - assert (DayFromYear (y + 1) <= DayFromYear (YearFromDay d)) by (apply DayFromYear_le; lia). lia.
Qed.

Lemma YearFromDay_mono (d1 d2 : Z) : d1 <= d2 -> YearFromDay d1 <= YearFromDay d2.
Proof.
  intros H. pose proof (YearFromDay_spec d1) as S1. pose proof (YearFromDay_spec d2) as S2.
  destruct (Z_le_gt_dec (YearFromDay d1) (YearFromDay d2)) as [L | G]; [exact L |].
  assert (DayFromYear (YearFromDay d2 + 1) <= DayFromYear (YearFromDay d1))
    by (apply DayFromYear_le; lia).
  lia.
Qed.

Lemma InLeapYear_cases (t : Z) :
  InLeapYear t = 0 /\ DaysInYear (YearFromTime t) = 365
  \/ InLeapYear t = 1 /\ DaysInYear (YearFromTime t) = 366.
Proof. unfold InLeapYear, DaysInYear. destruct (isLeapYear (YearFromTime t)); auto. Qed.

Lemma DayWithinYear_bounds (t : Z) :
  0 <= DayWithinYear t < DaysInYear (YearFromTime t).
Proof.
  unfold DayWithinYear, YearFromTime.
  pose proof (YearFromDay_spec (Day t)) as S.
  rewrite DayFromYear_succ in S. lia.
Qed.

Lemma monthOfDay_range (leap dwy : Z) : 0 <= monthOfDay leap dwy <= 11.
Proof.
  unfold monthOfDay.
  repeat match goal with |- context [if ?c then _ else _] => destruct c end; lia.
Qed.

Lemma monthOfDay_spec (leap dwy : Z) :
  0 <= leap <= 1 -> 0 <= dwy < 365 + leap ->
  monthStart leap (monthOfDay leap dwy) <= dwy
  < monthStart leap (monthOfDay leap dwy + 1).
Proof.
  intros Hl Hd. unfold monthOfDay.
  repeat match goal with
         | |- context [if ?a <? ?b then _ else _] =>
             let E := fresh "E" in
             destruct (a <? b) eqn:E; [apply Z.ltb_lt in E | apply Z.ltb_ge in E]
         end;
    match goal with
    | |- context [monthStart leap (?k + 1)] =>
        let v := eval compute in (k + 1) in change (k + 1) with v
    end;
    cbv beta iota delta [monthStart]; lia.
Qed.

Lemma monthOfDay_mono (leap d1 d2 : Z) :
  0 <= leap <= 1 -> d1 <= d2 -> monthOfDay leap d1 <= monthOfDay leap d2.
Proof.
  intros Hl Hd. unfold monthOfDay.
  repeat match goal with
         | |- context [if ?a <? ?b then _ else _] =>
             let E := fresh "E" in
             destruct (a <? b) eqn:E; [apply Z.ltb_lt in E | apply Z.ltb_ge in E]
         end; lia.
Qed.

Lemma MonthFromTime_range (t : Z) : 0 <= MonthFromTime t <= 11.
Proof. apply monthOfDay_range. Qed.

Lemma month_window (t : Z) :
  monthStart (InLeapYear t) (MonthFromTime t) <= DayWithinYear t
  < monthStart (InLeapYear t) (MonthFromTime t + 1).
Proof.
  unfold MonthFromTime. pose proof (DayWithinYear_bounds t) as B.
  destruct (InLeapYear_cases t) as [[-> E] | [-> E]]; rewrite E in B;
    apply monthOfDay_spec; lia.
Qed.

Lemma DateFromTime_range (t : Z) :
  1 <= DateFromTime t <= DaysInMonth (YearFromTime t) (MonthFromTime t + 1).
Proof.
  unfold DateFromTime, DaysInMonth. pose proof (month_window t) as W.
  fold (InLeapYear t). replace (MonthFromTime t + 1 - 1) with (MonthFromTime t) by lia.
  lia.
Qed.

Lemma DaysInMonth_le_31 (y m : Z) : 1 <= m <= 12 -> DaysInMonth y m <= 31.
Proof.
  intros H. unfold DaysInMonth. destruct (isLeapYear y);
  assert (C : m = 1 \/ m = 2 \/ m = 3 \/ m = 4 \/ m = 5 \/ m = 6 \/ m = 7 \/ m = 8
              \/ m = 9 \/ m = 10 \/ m = 11 \/ m = 12) by lia;
  repeat (destruct C as [-> | C]; [cbv; congruence |]); subst; cbv; congruence.
Qed.

Lemma MakeDay_month_in_year (y m d : Z) :
  0 <= m <= 11 ->
  MakeDay y m d = DayFromYear y + monthStart (if isLeapYear y then 1 else 0) m + d - 1.
Proof.
  intros H. unfold MakeDay.
  replace (m / 12) with 0 by divmod. replace (m mod 12) with m by divmod.
  replace (y + 0) with y by lia. reflexivity.
Qed.

(** The civil date of a time value names its day. *)
Lemma MakeDay_civil (t : Z) :
  MakeDay (YearFromTime t) (MonthFromTime t) (DateFromTime t) = Day t.
Proof.
  rewrite MakeDay_month_in_year by apply MonthFromTime_range.
  fold (InLeapYear t). unfold DateFromTime, DayWithinYear. lia.
Qed.

Lemma MakeDay_shift (y m d k : Z) : MakeDay y m (d + k) = MakeDay y m d + k.
Proof. unfold MakeDay. lia. Qed.

Lemma Day_MakeDate (day time : Z) :
  0 <= time < msPerDay -> Day (MakeDate day time) = day.
Proof. unfold Day, MakeDate, msPerDay. intros; divmod. Qed.

Lemma TimeWithinDay_range (t : Z) : 0 <= TimeWithinDay t < msPerDay.
Proof. unfold TimeWithinDay, msPerDay. divmod. Qed.

Lemma Day_decompose (t : Z) : t = MakeDate (Day t) (TimeWithinDay t).
Proof. unfold MakeDate, Day, TimeWithinDay, msPerDay. divmod. Qed.

(** ** Date strings *)

Lemma digit_cases (k : Z) :
  0 <= k <= 9 ->
  k = 0 \/ k = 1 \/ k = 2 \/ k = 3 \/ k = 4 \/ k = 5 \/ k = 6 \/ k = 7 \/ k = 8 \/ k = 9.
Proof. lia. Qed.

Ltac each_digit H :=
  apply digit_cases in H;
  repeat (destruct H as [H | H]); subst.

Lemma digitVal_digitChar (k : Z) : 0 <= k <= 9 -> digitVal (digitChar k) = Some k.
Proof. intros H. each_digit H; reflexivity. Qed.

Lemma digitChar_compare (a b : Z) :
  0 <= a <= 9 -> 0 <= b <= 9 ->
  Ascii.compare (digitChar a) (digitChar b) = (a ?= b).
Proof. intros Ha Hb. each_digit Ha; each_digit Hb; reflexivity. Qed.

Lemma readDigits2 (a b : Z) :
  0 <= a <= 9 -> 0 <= b <= 9 ->
  readDigits [digitChar a; digitChar b] = Some (10 * a + b).
Proof.
  intros Ha Hb. unfold readDigits. cbn [fold_left].
  rewrite !digitVal_digitChar by assumption. f_equal; lia.
Qed.

Lemma readDigits4 (a b c d : Z) :
  0 <= a <= 9 -> 0 <= b <= 9 -> 0 <= c <= 9 -> 0 <= d <= 9 ->
  readDigits [digitChar a; digitChar b; digitChar c; digitChar d]
  = Some (1000 * a + 100 * b + 10 * c + d).
Proof.
  intros Ha Hb Hc Hd. unfold readDigits. cbn [fold_left].
  rewrite !digitVal_digitChar by assumption. f_equal; lia.
Qed.

Lemma parseISODate_isoString (y m d : Z) :
  0 <= y <= 9999 -> 1 <= m <= 12 -> 1 <= d <= DaysInMonth y m ->
  parseISODate (isoString y m d) = Some (MakeDate (MakeDay y (m - 1) d) 0).
Proof.
  intros Hy Hm Hd.
  pose proof (DaysInMonth_le_31 y m Hm) as H31.
  unfold isoString, fourDigits, twoDigits. cbn [append]. unfold parseISODate.
  replace (Ascii.eqb hyphen hyphen) with true by reflexivity. cbn [andb].
  rewrite readDigits4 by divmod.
  rewrite !readDigits2 by divmod.
  replace (1000 * (y / 1000) + 100 * (y / 100 mod 10) + 10 * (y / 10 mod 10) + y mod 10)
    with y by divmod.
  replace (10 * (m / 10) + m mod 10) with m by divmod.
  replace (10 * (d / 10) + d mod 10) with d by divmod.
  replace ((1 <=? m) && (m <=? 12) && (1 <=? d) && (d <=? DaysInMonth y m)) with true.
  - reflexivity.
  - symmetry. rewrite !andb_true_iff, !Z.leb_le. lia.
Qed.

(** Code point order on YYYY-MM-DD strings is the order of the dates. *)
Lemma isoString_compare (y m d y' m' d' : Z) :
  0 <= y <= 9999 -> 0 <= m <= 99 -> 0 <= d <= 99 ->
  0 <= y' <= 9999 -> 0 <= m' <= 99 -> 0 <= d' <= 99 ->
  String.compare (isoString y m d) (isoString y' m' d')
  = (civilKey y m d ?= civilKey y' m' d').
Proof.
  intros Hy Hm Hd Hy' Hm' Hd'.
  unfold isoString, fourDigits, twoDigits, civilKey. cbn [append String.compare].
  replace (Ascii.compare hyphen hyphen) with Eq by reflexivity.
  rewrite !digitChar_compare by divmod.
  repeat match goal with
         | |- context [match (?a ?= ?b) with _ => _ end] =>
             destruct (Z.compare_spec a b)
         end;
    symmetry;
    first [ apply Z.compare_eq_iff | apply Z.compare_lt_iff | apply Z.compare_gt_iff ];
    divmod.
Qed.

Lemma yearDigits_fourDigits (y : Z) :
  1000 <= y <= 9999 -> yearDigits y = fourDigits y.
Proof.
  intros H.
  assert (A : forallb (fun n => String.eqb (yearDigits (1000 + Z.of_nat n))
                                           (fourDigits (1000 + Z.of_nat n)))
                      (seq 0 (Z.to_nat 9000)) = true) by (vm_compute; reflexivity).
  rewrite forallb_forall in A.
  specialize (A (Z.to_nat (y - 1000))).
  replace (1000 + Z.of_nat (Z.to_nat (y - 1000))) with y in A by lia.
  apply String.eqb_eq, A, in_seq. lia.
Qed.

Lemma fourDigitYear_spec (lt : Z) :
  fourDigitYear lt = true <-> 1000 <= YearFromTime lt <= 9999.
Proof. unfold fourDigitYear. rewrite andb_true_iff, !Z.leb_le. tauto. Qed.

Lemma formatCivil_iso (lt : Z) :
  fourDigitYear lt = true ->
  formatCivil lt = isoString (YearFromTime lt) (MonthFromTime lt + 1) (DateFromTime lt).
Proof.
  intros H. apply fourDigitYear_spec in H.
  unfold formatCivil. rewrite yearDigits_fourDigits by assumption. reflexivity.
Qed.

(** Reading back a rendered date gives UTC midnight of its day. *)
Lemma parseISODate_formatCivil (lt : Z) :
  fourDigitYear lt = true ->
  parseISODate (formatCivil lt) = Some (Day lt * msPerDay).
Proof.
  intros H. rewrite formatCivil_iso by assumption. apply fourDigitYear_spec in H.
  pose proof (MonthFromTime_range lt) as Hm.
  pose proof (DateFromTime_range lt) as Hd.
  rewrite parseISODate_isoString by lia.
  replace (MonthFromTime lt + 1 - 1) with (MonthFromTime lt) by lia.
  rewrite MakeDay_civil. unfold MakeDate. f_equal. lia.
Qed.

Lemma newDate_formatCivil (P : Platform) (lt : Z) :
  fourDigitYear lt = true -> newDate P (formatCivil lt) = Valid (Day lt * msPerDay).
Proof. intros H. unfold newDate. rewrite parseISODate_formatCivil by assumption. reflexivity. Qed.

Lemma civil_same_day (a b : Z) :
  Day a = Day b ->
  YearFromTime a = YearFromTime b /\ MonthFromTime a = MonthFromTime b
  /\ DateFromTime a = DateFromTime b.
Proof.
  intros E.
  assert (Y : YearFromTime a = YearFromTime b) by (unfold YearFromTime; now rewrite E).
  assert (L : InLeapYear a = InLeapYear b) by (unfold InLeapYear; now rewrite Y).
  assert (W : DayWithinYear a = DayWithinYear b) by (unfold DayWithinYear; now rewrite E, Y).
  assert (M : MonthFromTime a = MonthFromTime b) by (unfold MonthFromTime; now rewrite L, W).
  repeat split; trivial. unfold DateFromTime. now rewrite L, W, M.
Qed.

Lemma formatCivil_same_day (a b : Z) : Day a = Day b -> formatCivil a = formatCivil b.
Proof.
  intros E. destruct (civil_same_day a b E) as (Y & M & D).
  unfold formatCivil. now rewrite Y, M, D.
Qed.

Lemma civilKeyOf_lt (a b : Z) : Day a < Day b -> civilKeyOf a < civilKeyOf b.
Proof.
  intros H. unfold civilKeyOf, civilKey.
  pose proof (MonthFromTime_range a) as Ma. pose proof (MonthFromTime_range b) as Mb.
  pose proof (DateFromTime_range a) as Da. pose proof (DateFromTime_range b) as Db.
  pose proof (DaysInMonth_le_31 (YearFromTime a) (MonthFromTime a + 1) ltac:(lia)) as La.
  pose proof (DaysInMonth_le_31 (YearFromTime b) (MonthFromTime b + 1) ltac:(lia)) as Lb.
  assert (Y : YearFromTime a <= YearFromTime b)
    by (unfold YearFromTime; apply YearFromDay_mono; lia).
  destruct (Z.eq_dec (YearFromTime a) (YearFromTime b)) as [EY | NY]; [| lia].
  assert (L : InLeapYear a = InLeapYear b) by (unfold InLeapYear; now rewrite EY).
  assert (W : DayWithinYear a < DayWithinYear b) by (unfold DayWithinYear; rewrite EY; lia).
  assert (Hl : 0 <= InLeapYear b <= 1)
    by (destruct (InLeapYear_cases b) as [[-> _] | [-> _]]; lia).
  assert (M : MonthFromTime a <= MonthFromTime b).
  { unfold MonthFromTime. rewrite L. apply monthOfDay_mono; lia. }
  destruct (Z.eq_dec (MonthFromTime a) (MonthFromTime b)) as [EM | NM]; [| lia].
  unfold DateFromTime. rewrite L, EM, EY. lia.
Qed.

Lemma civilKeyOf_compare (a b : Z) : (civilKeyOf a ?= civilKeyOf b) = (Day a ?= Day b).
Proof.
  destruct (Z.compare_spec (Day a) (Day b)) as [E | L | G].
  - apply Z.compare_eq_iff. destruct (civil_same_day a b E) as (Y & M & D).
    unfold civilKeyOf. now rewrite Y, M, D.
  - apply Z.compare_lt_iff. now apply civilKeyOf_lt.
  - apply Z.compare_gt_iff. now apply civilKeyOf_lt.
Qed.

(** On four-digit years the order of the rendered strings is the order of
    the days. *)
Lemma formatCivil_compare (a b : Z) :
  fourDigitYear a = true -> fourDigitYear b = true ->
  String.compare (formatCivil a) (formatCivil b) = (Day a ?= Day b).
Proof.
  intros Ha Hb. rewrite !formatCivil_iso by assumption.
  apply fourDigitYear_spec in Ha, Hb.
  pose proof (MonthFromTime_range a) as Ma. pose proof (MonthFromTime_range b) as Mb.
  pose proof (DateFromTime_range a) as Da. pose proof (DateFromTime_range b) as Db.
  pose proof (DaysInMonth_le_31 (YearFromTime a) (MonthFromTime a + 1) ltac:(lia)) as La.
  pose proof (DaysInMonth_le_31 (YearFromTime b) (MonthFromTime b + 1) ltac:(lia)) as Lb.
  rewrite isoString_compare by lia.
  apply civilKeyOf_compare.
Qed.

(** ** Sorting by a string key *)

Lemma compare_lt_trans (a b c : string) :
  String.compare a b = Lt -> String.compare b c = Lt -> String.compare a c = Lt.
Proof.
  intros H1 H2.
  apply String_as_OT.cmp_lt in H1. apply String_as_OT.cmp_lt in H2.
  apply String_as_OT.cmp_lt. eapply String_as_OT.lt_trans; eassumption.
Qed.

Lemma compare_refl (a : string) : String.compare a a = Eq.
Proof.
  pose proof (String.compare_antisym a a) as H.
  destruct (String.compare a a); simpl in H; congruence.
Qed.

Lemma compare_gt_lt (a b : string) : String.compare a b = Gt -> String.compare b a = Lt.
Proof. intros H. rewrite String.compare_antisym, H. reflexivity. Qed.

Section SortByKey.

Context {A : Type} (key : A -> string).

Local Abbreviation cmpKey := (cmpBy key).

Lemma sortInsert_perm (x : A) (l : list A) : Permutation (sortInsert cmpKey x l) (x :: l).
Proof.
  induction l as [| y l IH]; simpl; [reflexivity |].
  destruct (cmpKey x y); try reflexivity;
    (etransitivity; [apply perm_skip, IH | apply perm_swap]).
Qed.

Lemma fold_sortInsert_perm (l acc : list A) :
  Permutation (fold_left (fun acc x => sortInsert cmpKey x acc) l acc) (acc ++ l).
Proof.
  revert acc. induction l as [| x l IH]; intros acc; simpl.
  - now rewrite app_nil_r.
  - rewrite IH. rewrite sortInsert_perm. apply Permutation_middle.
Qed.

Lemma Array_sort_perm (l : list A) : Permutation (Array_sort cmpKey l) l.
Proof. unfold Array_sort. apply (fold_sortInsert_perm l []). Qed.

Lemma sortInsert_sorted (x : A) (l : list A) :
  StronglySorted (keyLt key) l ->
  (forall y, In y l -> key y <> key x) ->
  StronglySorted (keyLt key) (sortInsert cmpKey x l).
Proof.
  induction l as [| y l IH]; intros S N; simpl.
  - constructor; constructor.
  - inversion S as [| ? ? S' F]; subst.
    unfold cmpBy at 1, localeCompare.
    destruct (String.compare (key x) (key y)) eqn:E.
    + apply String.compare_eq_iff in E. exfalso. apply (N y); [now left | congruence].
    + constructor; [exact S |]. constructor; [exact E |].
      rewrite Forall_forall in F |- *. intros z Hz.
      eapply compare_lt_trans; [exact E | apply F, Hz].
    + constructor.
      * apply IH; [exact S' | intros z Hz; apply N; now right].
      * rewrite Forall_forall in F |- *. intros z Hz.
        apply (Permutation_in _ (sortInsert_perm x l)) in Hz.
        destruct Hz as [<- | Hz]; [now apply compare_gt_lt | now apply F].
Qed.

Lemma fold_sortInsert_sorted (l acc : list A) :
  StronglySorted (keyLt key) acc ->
  NoDup (map key (acc ++ l)) ->
  StronglySorted (keyLt key) (fold_left (fun acc x => sortInsert cmpKey x acc) l acc).
Proof.
  revert acc. induction l as [| x l IH]; intros acc S N; simpl; [exact S |].
  apply IH.
  - apply sortInsert_sorted; [exact S |].
    intros y Hy E. rewrite map_app in N. simpl in N.
    apply NoDup_remove_2 in N. apply N. rewrite in_app_iff. left.
    rewrite <- E. now apply in_map.
  - eapply Permutation_NoDup; [| exact N].
    apply Permutation_map.
    rewrite (Permutation_app_tail l (sortInsert_perm x acc)).
    simpl. symmetry. apply Permutation_middle.
Qed.

Lemma Array_sort_sorted (l : list A) :
  NoDup (map key l) -> StronglySorted (keyLt key) (Array_sort cmpKey l).
Proof. intros N. apply fold_sortInsert_sorted; [constructor | exact N]. Qed.

Lemma sorted_unique (l1 l2 : list A) :
  Permutation l1 l2 ->
  StronglySorted (keyLt key) l1 -> StronglySorted (keyLt key) l2 -> l1 = l2.
Proof.
  revert l2. induction l1 as [| a t1 IH]; intros l2 Hp S1 S2.
  - apply Permutation_nil in Hp. now subst.
  - destruct l2 as [| b t2]; [apply Permutation_sym, Permutation_nil in Hp; discriminate |].
    inversion S1 as [| ? ? S1' F1]; inversion S2 as [| ? ? S2' F2]; subst.
    assert (E : a = b).
    { assert (Ia : In a (b :: t2)) by (eapply Permutation_in; [exact Hp | now left]).
      assert (Ib : In b (a :: t1))
        by (eapply Permutation_in; [apply Permutation_sym, Hp | now left]).
      destruct Ia as [-> | Ia]; [reflexivity |].
      destruct Ib as [-> | Ib]; [reflexivity |].
      rewrite Forall_forall in F1, F2.
      pose proof (F1 b Ib) as L1. pose proof (F2 a Ia) as L2.
      unfold keyLt in L1, L2. rewrite String.compare_antisym, L2 in L1. discriminate. }
    subst b. f_equal. apply IH; [eapply Permutation_cons_inv; exact Hp | |]; assumption.
Qed.

(** Sorting lists with distinct keys forgets the order of the input. *)
Lemma Array_sort_order_independent (l1 l2 : list A) :
  Permutation l1 l2 -> NoDup (map key l1) ->
  Array_sort cmpKey l1 = Array_sort cmpKey l2.
Proof.
  intros Hp N. apply sorted_unique.
  - rewrite !Array_sort_perm. exact Hp.
  - now apply Array_sort_sorted.
  - apply Array_sort_sorted. eapply Permutation_NoDup; [apply Permutation_map, Hp | exact N].
Qed.

End SortByKey.

Lemma sortInsert_map {A B : Type} (f : B -> A) (c : A -> A -> comparison) (x : B) (l : list B) :
  map f (sortInsert (fun a b => c (f a) (f b)) x l) = sortInsert c (f x) (map f l).
Proof.
  induction l as [| y l IH]; simpl; [reflexivity |].
  destruct (c (f x) (f y)); simpl; now rewrite ?IH.
Qed.

Lemma Array_sort_map {A B : Type} (f : B -> A) (c : A -> A -> comparison) (l : list B) :
  map f (Array_sort (fun a b => c (f a) (f b)) l) = Array_sort c (map f l).
Proof.
  unfold Array_sort. change (@nil A) with (map f []). generalize (@nil B) as acc.
  induction l as [| x l IH]; intros acc; simpl; [reflexivity |].
  rewrite IH. now rewrite sortInsert_map.
Qed.

(** ** Bucketing *)

Lemma Map_get_set_fresh {V : Type} (m : JSMap V) (k : string) (v : V) :
  Map_get m k = None -> Map_get (Map_set m k v) k = Some v.
Proof.
  induction m as [| [k' v'] m IH]; simpl; intros H.
  - now rewrite String.eqb_refl.
  - destruct (String.eqb k' k) eqn:E; [discriminate |]. simpl. rewrite E. now apply IH.
Qed.

Lemma Map_set_set {V : Type} (m : JSMap V) (k : string) (v v' : V) :
  Map_set (Map_set m k v) k v' = Map_set m k v'.
Proof.
  induction m as [| [k' w] m IH]; simpl.
  - now rewrite String.eqb_refl.
  - destruct (String.eqb k' k) eqn:E; simpl.
    + now rewrite String.eqb_refl.
    + now rewrite E, IH.
Qed.

Lemma Map_set_fresh_bump (m : JSMap ActiveDay) (k : string) (dur : number) :
  Map_get m k = None ->
  Map_set m k {| date := k; sessionCount := 0 + 1; totalDurationSec := nadd (ofZ 0) dur |}
  = bump k dur m.
Proof.
  induction m as [| [k' w] m IH]; cbn [Map_set Map_get bump]; intros H; [reflexivity |].
  destruct (String.eqb k' k); [discriminate |]. now rewrite IH.
Qed.

Lemma Map_set_found_bump (m : JSMap ActiveDay) (k : string) (dur : number) (day : ActiveDay) :
  Map_get m k = Some day ->
  Map_set m k {| date := date day; sessionCount := sessionCount day + 1;
                 totalDurationSec := nadd (totalDurationSec day) dur |}
  = bump k dur m.
Proof.
  induction m as [| [k' w] m IH]; cbn [Map_set Map_get bump]; intros H; [discriminate |].
  destruct (String.eqb k' k); [now inversion H | now rewrite IH].
Qed.

(** One iteration of the loop, once the date string is known. *)
Lemma groupStep_bump (P : Platform) (tz : string) (m : JSMap ActiveDay) (s : Session) (k : string) :
  toLocalDateString P (timestamp s) tz = Ok k ->
  groupStep P tz m s = Ok (bump k (normalizedDuration s) m).
Proof.
  intros H. unfold groupStep. rewrite H. cbn [bind]. unfold Map_has.
  destruct (Map_get m k) as [day |] eqn:G; cbn [negb].
  - rewrite G. f_equal. now apply Map_set_found_bump.
  - rewrite Map_get_set_fresh by exact G. cbn [date sessionCount totalDurationSec].
    rewrite Map_set_set. f_equal. now apply Map_set_fresh_bump.
Qed.

Lemma groupStep_throw (P : Platform) (tz : string) (m : JSMap ActiveDay) (s : Session) (e : exn) :
  toLocalDateString P (timestamp s) tz = Throw e -> groupStep P tz m s = Throw e.
Proof. intros H. unfold groupStep. now rewrite H. Qed.

Lemma tallyAdd_observe (k : string) (v : ActiveDay) (t : list (string * Z)) :
  tallyAdd k (observe v :: t)
  = if String.eqb (date v) k then (date v, sessionCount v + 1) :: t
    else observe v :: tallyAdd k t.
Proof. reflexivity. Qed.

Lemma bump_observe (k : string) (dur : number) (m : JSMap ActiveDay) :
  wellKeyed m ->
  wellKeyed (bump k dur m)
  /\ map observe (Map_values (bump k dur m)) = tallyAdd k (map observe (Map_values m)).
Proof.
  unfold wellKeyed, Map_values.
  induction m as [| [k' v] m IH]; intros W.
  - split; [repeat constructor | reflexivity].
  - apply Forall_cons_iff in W. destruct W as [Hd W']. cbn [fst snd] in Hd.
    cbn [bump map snd]. rewrite tallyAdd_observe, Hd.
    destruct (String.eqb k' k) eqn:E.
    + apply String.eqb_eq in E. split; [constructor; [cbn; congruence | assumption] |].
      cbn [map snd]. f_equal.
    + destruct (IH W') as [W'' O]. split; [constructor; assumption |].
      cbn [map snd]. now rewrite O.
Qed.

(** The loop reads the dates of the sessions in order and counts them. *)
Lemma groupLoop_observe (P : Platform) (tz : string) (ss : list Session) :
  forall m, wellKeyed m ->
  match sessionDates P tz ss with
  | Throw e => groupLoop P tz m ss = Throw e
  | Ok dates =>
      exists m', groupLoop P tz m ss = Ok m' /\ wellKeyed m'
        /\ map observe (Map_values m')
           = fold_left (fun t k => tallyAdd k t) dates (map observe (Map_values m))
  end.
Proof.
  induction ss as [| s ss IH]; intros m W; simpl.
  - exists m. auto.
  - destruct (toLocalDateString P (timestamp s) tz) as [k | e] eqn:D; cbn [bind].
    + rewrite (groupStep_bump P tz m s k D). cbn [bind].
      destruct (bump_observe k (normalizedDuration s) m W) as [W' O].
      specialize (IH _ W').
      destruct (sessionDates P tz ss) as [dates | e]; cbn [bind].
      * destruct IH as (m' & G & W'' & O'). exists m'. repeat split; trivial.
        simpl. now rewrite <- O.
      * exact IH.
    + now rewrite (groupStep_throw P tz m s e D).
Qed.

(** [groupSessionsByDay], as the rest of the engine sees it: the tally of
    the session dates, sorted. *)
Lemma groupSessionsByDay_observe (P : Platform) (ss : list Session) (tz : string) :
  match sessionDates P tz ss with
  | Throw e => groupSessionsByDay P ss tz = Throw e
  | Ok dates =>
      exists days, groupSessionsByDay P ss tz = Ok days
        /\ map observe days = Array_sort byKey (tally dates)
  end.
Proof.
  unfold groupSessionsByDay.
  pose proof (groupLoop_observe P tz ss [] (Forall_nil _)) as H.
  destruct (sessionDates P tz ss) as [dates | e].
  - destruct H as (m' & G & _ & O). rewrite G. cbn [bind]. eexists. split; [reflexivity |].
    change (fun a b : ActiveDay => localeCompare (date a) (date b))
      with (fun a b : ActiveDay => byKey (observe a) (observe b)).
    rewrite Array_sort_map. now rewrite O.
  - now rewrite H.
Qed.

(** ** The tally of the dates *)

Lemma occurrences_cons (k x : string) (l : list string) :
  occurrences k (x :: l) = (if String.eqb x k then 1 else 0) + occurrences k l.
Proof.
  unfold occurrences. simpl. destruct (string_dec x k) as [E | N].
  - subst. rewrite String.eqb_refl. lia.
  - apply String.eqb_neq in N. rewrite N. lia.
Qed.

Lemma occurrences_nonneg (k : string) (l : list string) : 0 <= occurrences k l.
Proof. unfold occurrences. lia. Qed.

Lemma occurrences_perm (k : string) (l l' : list string) :
  Permutation l l' -> occurrences k l = occurrences k l'.
Proof.
  intros H. unfold occurrences. f_equal.
  now apply (Permutation_count_occ string_dec).
Qed.

Lemma countOf_tallyAdd (k k' : string) (t : list (string * Z)) :
  countOf k (tallyAdd k' t) = countOf k t + (if String.eqb k' k then 1 else 0).
Proof.
  induction t as [| [k0 c] t IH]; simpl.
  - destruct (String.eqb k' k); lia.
  - destruct (String.eqb k0 k') eqn:E0; simpl.
    + apply String.eqb_eq in E0. subst k0.
      destruct (String.eqb k' k); lia.
    + destruct (String.eqb k0 k) eqn:E1; [| exact IH].
      apply String.eqb_eq in E1. subst k0. rewrite String.eqb_sym, E0. lia.
Qed.

Lemma tallyAdd_keys (k k' : string) (t : list (string * Z)) :
  In k' (map fst (tallyAdd k t)) <-> k' = k \/ In k' (map fst t).
Proof.
  induction t as [| [k0 c] t IH]; simpl.
  - intuition.
  - destruct (String.eqb k0 k) eqn:E; simpl.
    + apply String.eqb_eq in E. subst. intuition.
    + rewrite IH. intuition.
Qed.

Lemma tallyAdd_NoDup (k : string) (t : list (string * Z)) :
  NoDup (map fst t) -> NoDup (map fst (tallyAdd k t)).
Proof.
  induction t as [| [k0 c] t IH]; simpl; intros N.
  - repeat constructor. intros [].
  - inversion N as [| ? ? Hn N']; subst.
    destruct (String.eqb k0 k) eqn:E; simpl.
    + now constructor.
    + constructor; [| now apply IH].
      rewrite tallyAdd_keys. intros [-> | H]; [| contradiction].
      now rewrite String.eqb_refl in E.
Qed.

Lemma tallyAdd_positive (k : string) (t : list (string * Z)) :
  Forall (fun kc => 0 < snd kc) t -> Forall (fun kc => 0 < snd kc) (tallyAdd k t).
Proof.
  induction t as [| [k0 c] t IH]; simpl; intros F.
  - repeat constructor.
  - inversion F as [| ? ? Hc F']; subst. simpl in Hc.
    destruct (String.eqb k0 k); constructor; simpl; auto; lia.
Qed.

Lemma countOf_In (k : string) (c : Z) (t : list (string * Z)) :
  NoDup (map fst t) -> In (k, c) t -> countOf k t = c.
Proof.
  induction t as [| [k0 c0] t IH]; simpl; intros N H; [contradiction |].
  inversion N as [| ? ? Hn N']; subst.
  destruct H as [H | H].
  - inversion H; subst. now rewrite String.eqb_refl.
  - destruct (String.eqb k0 k) eqn:E; [| now apply IH].
    apply String.eqb_eq in E. subst k0. exfalso. apply Hn.
    change k with (fst (k, c)). now apply in_map.
Qed.

Lemma In_countOf (k : string) (t : list (string * Z)) :
  countOf k t <> 0 -> In (k, countOf k t) t.
Proof.
  induction t as [| [k0 c0] t IH]; simpl; intros H; [contradiction |].
  destruct (String.eqb k0 k) eqn:E.
  - apply String.eqb_eq in E. subst. now left.
  - right. now apply IH.
Qed.

Lemma tally_fold (dates : list string) :
  forall t, NoDup (map fst t) -> Forall (fun kc => 0 < snd kc) t ->
  let t' := fold_left (fun t k => tallyAdd k t) dates t in
  NoDup (map fst t') /\ Forall (fun kc => 0 < snd kc) t'
  /\ forall k, countOf k t' = countOf k t + occurrences k dates.
Proof.
  induction dates as [| d dates IH]; intros t N F; simpl.
  - repeat split; trivial. intros k. unfold occurrences. simpl. lia.
  - destruct (IH (tallyAdd d t) (tallyAdd_NoDup d t N) (tallyAdd_positive d t F))
      as (N' & F' & C).
    repeat split; trivial. intros k.
    rewrite C, countOf_tallyAdd, occurrences_cons. lia.
Qed.

Lemma tally_NoDup (dates : list string) : NoDup (map fst (tally dates)).
Proof. apply (tally_fold dates []); constructor. Qed.

(** The tally holds each date that occurs, with its number of occurrences. *)
Lemma tally_In (dates : list string) (k : string) (c : Z) :
  In (k, c) (tally dates) <-> c = occurrences k dates /\ 0 < c.
Proof.
  destruct (tally_fold dates [] (NoDup_nil _) (Forall_nil _)) as (N & F & C).
  fold (tally dates) in N, F, C. simpl in C. split.
  - intros H. split.
    + rewrite <- C. symmetry. now apply countOf_In.
    + rewrite Forall_forall in F. apply (F (k, c) H).
  - intros [-> Hp]. rewrite <- C in *. apply In_countOf. lia.
Qed.

Lemma tally_perm (dates dates' : list string) :
  Permutation dates dates' -> Permutation (tally dates) (tally dates').
Proof.
  intros Hp. apply NoDup_Permutation.
  - eapply NoDup_map_inv, tally_NoDup.
  - eapply NoDup_map_inv, tally_NoDup.
  - intros [k c]. rewrite !tally_In. now rewrite (occurrences_perm k _ _ Hp).
Qed.

(** The sorted tally forgets the order of the dates. *)
Lemma sorted_tally_perm (dates dates' : list string) :
  Permutation dates dates' ->
  Array_sort byKey (tally dates) = Array_sort byKey (tally dates').
Proof.
  intros Hp. apply (Array_sort_order_independent fst).
  - now apply tally_perm.
  - apply tally_NoDup.
Qed.

(** ** The dates of the sessions *)

Lemma toLocalDateString_ok (P : Platform) (tz : string) (off : Z -> Z) (t : Z) :
  zoneOffset P tz = Some off -> timeInRange t = true ->
  toLocalDateString P (Valid t) tz = Ok (formatCivil (t + off t)).
Proof. intros Hz R. unfold toLocalDateString. now rewrite Hz, R. Qed.

Lemma toLocalDateString_inv (P : Platform) (d : JSDate) (tz k : string) :
  toLocalDateString P d tz = Ok k ->
  exists off t, zoneOffset P tz = Some off /\ d = Valid t /\ timeInRange t = true
    /\ k = formatCivil (t + off t).
Proof.
  unfold toLocalDateString. destruct (zoneOffset P tz) as [off |]; [| discriminate].
  destruct d as [t |]; [| discriminate].
  destruct (timeInRange t) eqn:R; [| discriminate].
  intros H. injection H as <-. now exists off, t.
Qed.

Lemma toLocalDateString_out_of_range (P : Platform) (tz : string) (off : Z -> Z) (t : Z) :
  zoneOffset P tz = Some off -> timeInRange t = false ->
  toLocalDateString P (Valid t) tz = Throw RangeError_InvalidTimeValue.
Proof. intros Hz R. unfold toLocalDateString. now rewrite Hz, R. Qed.

(** A civil time with a four-digit year is far inside the range of [Date]. *)
Lemma fourDigitYear_bounds (lt : Z) :
  fourDigitYear lt = true -> -30610224000000 <= lt < 253402300800000.
Proof.
  intros H. apply fourDigitYear_spec in H. unfold YearFromTime in H.
  pose proof (YearFromDay_spec (Day lt)) as S.
  pose proof (DayFromYear_le 1000 (YearFromDay (Day lt)) (proj1 H)) as L.
  assert (U : DayFromYear (YearFromDay (Day lt) + 1) <= DayFromYear 10000)
    by (apply DayFromYear_le; lia).
  change (DayFromYear 1000) with (-354285) in L.
  change (DayFromYear 10000) with 2932897 in U.
  assert (D : -354285 <= Day lt < 2932897) by lia.
  clear - D. unfold Day, msPerDay in D. divmod.
Qed.

Lemma timeInRange_spec (t : Z) : timeInRange t = true <-> - maxTime <= t <= maxTime.
Proof. unfold timeInRange. rewrite Z.leb_le. lia. Qed.


(** So is the instant itself, the offset of a zone being at most a day. *)
Lemma civil_timeInRange (P : Platform) (tz : string) (off : Z -> Z) (t : Z) :
  zoneOffset P tz = Some off -> fourDigitYear (t + off t) = true ->
  timeInRange t = true.
Proof.
  intros Hz H. apply fourDigitYear_bounds in H.
  pose proof (zoneOffset_bounded P tz off t Hz) as B.
  apply timeInRange_spec. unfold maxTime, msPerDay in *. lia.
Qed.

Lemma toLocalDateString_civil (P : Platform) (tz : string) (off : Z -> Z) (t : Z) :
  zoneOffset P tz = Some off -> fourDigitYear (t + off t) = true ->
  toLocalDateString P (Valid t) tz = Ok (formatCivil (t + off t)).
Proof.
  intros Hz H. apply toLocalDateString_ok; [exact Hz |].
  now apply (civil_timeInRange P tz off).
Qed.

Lemma sessionDates_unknown_zone (P : Platform) (tz : string) (ss : list Session) :
  zoneOffset P tz = None ->
  sessionDates P tz ss
  = match ss with
    | [] => Ok []
    | _ :: _ => Throw (RangeError_InvalidTimeZone tz)
    end.
Proof.
  intros H. destruct ss as [| s ss]; [reflexivity |].
  simpl. unfold toLocalDateString. now rewrite H.
Qed.

Lemma sessionDates_known_zone (P : Platform) (tz : string) (off : Z -> Z) (ss : list Session) :
  zoneOffset P tz = Some off ->
  sessionDates P tz ss
  = if forallb (fun s => validDate (timestamp s)) ss
    then Ok (map (fun s => civilDateOf off (timestamp s)) ss)
    else Throw RangeError_InvalidTimeValue.
Proof.
  intros H. induction ss as [| s ss IH]; [reflexivity |].
  cbn [sessionDates forallb map]. unfold toLocalDateString. rewrite H.
  destruct (timestamp s) as [t |]; cbn [validDate civilDateOf andb bind]; [| reflexivity].
  destruct (timeInRange t); cbn [andb bind]; [| reflexivity].
  rewrite IH. now destruct (forallb _ ss).
Qed.

Lemma forallb_perm {A : Type} (f : A -> bool) (l l' : list A) :
  Permutation l l' -> forallb f l = forallb f l'.
Proof.
  induction 1; simpl; try congruence.
  - destruct (f x), (f y); reflexivity.
Qed.

(** The date list of a permuted session list is a permutation, and the
    error, if any, is the same. *)
Lemma sessionDates_perm (P : Platform) (tz : string) (ss ss' : list Session) :
  Permutation ss ss' ->
  match sessionDates P tz ss, sessionDates P tz ss' with
  | Ok d, Ok d' => Permutation d d'
  | Throw e, Throw e' => e = e'
  | _, _ => False
  end.
Proof.
  intros Hp. destruct (zoneOffset P tz) as [off |] eqn:Z.
  - rewrite !(sessionDates_known_zone P tz off) by exact Z.
    rewrite (forallb_perm _ _ _ Hp).
    destruct (forallb _ ss'); [now apply Permutation_map | reflexivity].
  - rewrite !sessionDates_unknown_zone by exact Z.
    destruct ss, ss'; trivial.
    + now apply Permutation_nil in Hp.
    + now apply Permutation_sym, Permutation_nil in Hp.
Qed.

(** ** The engine reads only the date and the count of a bucket *)

Lemma calculateConsistencyScore_split (P : Platform) (input : ScoreInput) :
  calculateConsistencyScore P input
  = (days <- groupSessionsByDay P (sessions input) (zoneOf input) ;;
     scoreDays P days (referenceOf P input) (zoneOf input)).
Proof. reflexivity. Qed.

Section Observed.

Variable P : Platform.

Lemma observe_inv (a b : ActiveDay) :
  observe a = observe b -> date a = date b /\ sessionCount a = sessionCount b.
Proof. unfold observe. intros H. now inversion H. Qed.

Lemma dayDiff_observed (a a' b b' : ActiveDay) :
  date a = date a' -> date b = date b' -> dayDiff P a b = dayDiff P a' b'.
Proof. intros Ha Hb. unfold dayDiff. now rewrite Ha, Hb. Qed.

Lemma gapsFrom_observed (r1 : list ActiveDay) :
  forall r2 p1 p2, date p1 = date p2 -> map observe r1 = map observe r2 ->
  gapsFrom P p1 r1 = gapsFrom P p2 r2.
Proof.
  induction r1 as [| a r1 IH]; intros [| b r2] p1 p2 Hp H; simpl in *; try discriminate; trivial.
  inversion H as [[Hd Hc Ht]].
  rewrite (dayDiff_observed p1 p2 a b Hp Hd). f_equal. now apply IH.
Qed.

Lemma gapsOf_observed (d1 d2 : list ActiveDay) :
  map observe d1 = map observe d2 -> gapsOf P d1 = gapsOf P d2.
Proof.
  destruct d1 as [| a d1], d2 as [| b d2]; simpl; intros H; try discriminate; trivial.
  inversion H. now apply gapsFrom_observed.
Qed.

Lemma streakScan_observed (r1 : list ActiveDay) :
  forall r2 p1 p2 l c, date p1 = date p2 -> map observe r1 = map observe r2 ->
  streakScan P p1 r1 l c = streakScan P p2 r2 l c.
Proof.
  induction r1 as [| a r1 IH]; intros [| b r2] p1 p2 l c Hp H; simpl in *;
    try discriminate; trivial.
  inversion H as [[Hd Hc Ht]].
  rewrite (dayDiff_observed p1 p2 a b Hp Hd).
  destruct (nstrictEq _ _); now apply IH.
Qed.

Lemma sum_observed (d1 : list ActiveDay) :
  forall d2 acc, map observe d1 = map observe d2 ->
  fold_left (fun sum d => sum + sessionCount d) d1 acc
  = fold_left (fun sum d => sum + sessionCount d) d2 acc.
Proof.
  induction d1 as [| a d1 IH]; intros [| b d2] acc H; simpl in *; try discriminate; trivial.
  inversion H as [[Hd Hc Ht]]. rewrite Hc. now apply IH.
Qed.

Lemma last_cons {A : Type} (r : list A) :
  forall a p, last (a :: r) p = last r a.
Proof.
  induction r as [| b r IH]; intros a p; [reflexivity |].
  change (last (a :: b :: r) p) with (last (b :: r) p).
  now rewrite (IH b p), (IH b a).
Qed.

Lemma last_observed (r1 : list ActiveDay) :
  forall r2 p1 p2, date p1 = date p2 -> map observe r1 = map observe r2 ->
  date (last r1 p1) = date (last r2 p2).
Proof.
  induction r1 as [| a r1 IH]; intros [| b r2] p1 p2 Hp H; try discriminate; trivial.
  inversion H as [[Hd Hc Ht]]. rewrite !last_cons. now apply IH.
Qed.

Lemma length_observed (d1 d2 : list ActiveDay) :
  map observe d1 = map observe d2 -> List.length d1 = List.length d2.
Proof. intros H. apply (f_equal (@List.length _)) in H. now rewrite !length_map in H. Qed.

Lemma calculateMetadata_observed (d1 d2 : list ActiveDay) (ref : JSDate) (tz : string) :
  map observe d1 = map observe d2 ->
  calculateMetadata P d1 ref tz = calculateMetadata P d2 ref tz.
Proof.
  intros H. pose proof (gapsOf_observed _ _ H) as G.
  pose proof (length_observed _ _ H) as L.
  pose proof (sum_observed _ _ 0 H) as S.
  destruct d1 as [| a d1], d2 as [| b d2]; try discriminate; trivial.
  unfold calculateMetadata. rewrite G, S, L.
  inversion H as [[Hd Hc Ht]].
  rewrite (streakScan_observed d1 d2 a b 1 1 Hd Ht).
  rewrite (last_observed d1 d2 a b Hd Ht). reflexivity.
Qed.

Lemma calculateScoreBreakdown_observed (d1 d2 : list ActiveDay) (m : ConsistencyMetadata) :
  map observe d1 = map observe d2 ->
  calculateScoreBreakdown P d1 m = calculateScoreBreakdown P d2 m.
Proof.
  intros H. unfold calculateScoreBreakdown, calculateBaseScore, calculateDistributionBonus.
  now rewrite (gapsOf_observed _ _ H), (length_observed _ _ H).
Qed.

Lemma activeDaySet_has_observed (d1 : list ActiveDay) :
  forall d2 s, map observe d1 = map observe d2 ->
  activeDaySet_has d1 s = activeDaySet_has d2 s.
Proof.
  unfold activeDaySet_has.
  induction d1 as [| a d1 IH]; intros [| b d2] s H; simpl in *; try discriminate; trivial.
  inversion H as [[Hd Hc Ht]]. rewrite Hd. f_equal. now apply IH.
Qed.

Lemma streakWalk_ext (has1 has2 : string -> bool) (tz : string) (steps : nat) :
  (forall s, has1 s = has2 s) ->
  forall streak d, streakWalk P has1 tz steps streak d = streakWalk P has2 tz steps streak d.
Proof.
  intros E. induction steps as [| n IH]; intros streak d; simpl; [reflexivity |].
  destruct (toLocalDateString P d tz) as [k | e]; simpl; [| reflexivity].
  rewrite E. destruct (has2 k); [apply IH |]. destruct (streak >? 0); [reflexivity | apply IH].
Qed.

Lemma calculateStreakBonus_observed (d1 d2 : list ActiveDay) (ref : JSDate) (tz : string) :
  map observe d1 = map observe d2 ->
  calculateStreakBonus P d1 ref tz = calculateStreakBonus P d2 ref tz.
Proof.
  intros H. unfold calculateStreakBonus. rewrite (length_observed _ _ H).
  destruct (Z.of_nat (List.length d2) =? 0); [reflexivity |].
  destruct (toLocalDateString P ref tz) as [k | e]; cbn [bind]; [| reflexivity].
  rewrite (streakWalk_ext (activeDaySet_has d1) (activeDaySet_has d2)); [reflexivity |].
  intros s. now apply activeDaySet_has_observed.
Qed.

Lemma Map_set_sameEntries (m1 m2 : JSMap ActiveDay) (k : string) (a b : ActiveDay) :
  sameEntries m1 m2 -> observe a = observe b ->
  sameEntries (Map_set m1 k a) (Map_set m2 k b).
Proof.
  unfold sameEntries. intros R O.
  induction R as [| [k1 v1] [k2 v2] m1 m2 [Hk Hv] R IH]; cbn [Map_set].
  - constructor; [split; [reflexivity | exact O] | constructor].
  - cbn [fst snd] in Hk, Hv. subst k2. destruct (String.eqb k1 k).
    + constructor; [split; [reflexivity | exact O] | exact R].
    + constructor; [split; [reflexivity | exact Hv] | exact IH].
Qed.

Lemma Map_get_sameEntries (m1 m2 : JSMap ActiveDay) (k : string) :
  sameEntries m1 m2 ->
  match Map_get m1 k, Map_get m2 k with
  | Some a, Some b => observe a = observe b
  | None, None => True
  | _, _ => False
  end.
Proof.
  unfold sameEntries. intros R.
  induction R as [| [k1 v1] [k2 v2] m1 m2 [Hk Hv] R IH]; cbn [Map_get].
  - exact I.
  - cbn [fst snd] in Hk, Hv. subst k2. destruct (String.eqb k1 k); [exact Hv | exact IH].
Qed.

Lemma Map_of_sameEntries (d1 : list ActiveDay) :
  forall d2 m1 m2, sameEntries m1 m2 -> map observe d1 = map observe d2 ->
  sameEntries
    (fold_left (fun m kv => Map_set m (fst kv) (snd kv)) (map (fun d => (date d, d)) d1) m1)
    (fold_left (fun m kv => Map_set m (fst kv) (snd kv)) (map (fun d => (date d, d)) d2) m2).
Proof.
  induction d1 as [| a d1 IH]; intros [| b d2] m1 m2 R H; simpl in *; try discriminate; trivial.
  inversion H as [[Hd Hc Ht]]. apply IH; [| exact Ht].
  rewrite Hd. apply Map_set_sameEntries; [exact R |]. unfold observe. now rewrite Hd, Hc.
Qed.

Lemma chartEntry_sameEntries (m1 m2 : JSMap ActiveDay) (ref : JSDate) (tz : string) (i : Z) :
  sameEntries m1 m2 -> chartEntry P m1 ref tz i = chartEntry P m2 ref tz i.
Proof.
  intros R. unfold chartEntry.
  destruct (toLocalDateString P _ tz) as [k | e]; cbn [bind]; [| reflexivity].
  pose proof (Map_get_sameEntries m1 m2 k R) as G.
  destruct (Map_get m1 k) as [a |], (Map_get m2 k) as [b |]; try contradiction; trivial.
  apply observe_inv in G. destruct G as [_ ->]. reflexivity.
Qed.

Lemma chartLoop_sameEntries (m1 m2 : JSMap ActiveDay) (ref : JSDate) (tz : string) (n : nat) :
  sameEntries m1 m2 -> chartLoop P m1 ref tz n = chartLoop P m2 ref tz n.
Proof.
  intros R. induction n as [| n IH]; simpl; [reflexivity |].
  now rewrite (chartEntry_sameEntries m1 m2 ref tz _ R), IH.
Qed.

Lemma generateChartData_observed (d1 d2 : list ActiveDay) (ref : JSDate) (tz : string) :
  map observe d1 = map observe d2 ->
  generateChartData P d1 ref tz = generateChartData P d2 ref tz.
Proof.
  intros H. unfold generateChartData. apply chartLoop_sameEntries.
  unfold Map_of. apply Map_of_sameEntries; [constructor | exact H].
Qed.

(** Everything after the bucketing depends on the buckets only through
    their dates and counts. *)
Lemma scoreDays_observed (d1 d2 : list ActiveDay) (ref : JSDate) (tz : string) :
  map observe d1 = map observe d2 -> scoreDays P d1 ref tz = scoreDays P d2 ref tz.
Proof.
  intros H. unfold scoreDays.
  rewrite (calculateMetadata_observed d1 d2 ref tz H).
  rewrite (calculateStreakBonus_observed d1 d2 ref tz H).
  rewrite (generateChartData_observed d1 d2 ref tz H).
  destruct (calculateMetadata P d2 ref tz) as [m | e]; cbn [bind]; [| reflexivity].
  now rewrite (calculateScoreBreakdown_observed d1 d2 m H).
Qed.

End Observed.

(** ** Errors *)

Lemma sorted_nil_inv (days : list ActiveDay) : map observe days = [] -> days = [].
Proof. now destruct days. Qed.

Lemma Array_sort_nil {A : Type} (c : A -> A -> comparison) : Array_sort c [] = [].
Proof. reflexivity. Qed.

Lemma generateChartData_unknown_zone (P : Platform) (days : list ActiveDay)
  (ref : JSDate) (tz : string) :
  zoneOffset P tz = None ->
  generateChartData P days ref tz = Throw (RangeError_InvalidTimeZone tz).
Proof.
  intros H. unfold generateChartData.
  change (Z.to_nat WINDOW_DAYS) with (S 27). cbn [chartLoop].
  unfold chartEntry, toLocalDateString. now rewrite H.
Qed.

(** C3: for every session list and reference date, a call with a zone
    identifier that the platform does not recognise throws the RangeError of
    the formatter for that identifier; no other zone is substituted. *)
Theorem C3_unrecognized_zone_is_fatal (P : Platform) (ss : list Session)
  (ref : option JSDate) (tz : string) :
  zoneOffset P tz = None ->
  calculateConsistencyScore P {| sessions := ss; referenceDate := ref; timezone := Some tz |}
  = Throw (RangeError_InvalidTimeZone tz).
Proof.
  intros H. rewrite calculateConsistencyScore_split. cbn [sessions zoneOf timezone].
  pose proof (groupSessionsByDay_observe P ss tz) as G.
  rewrite (sessionDates_unknown_zone P tz ss H) in G.
  destruct ss as [| s ss].
  - destruct G as (days & -> & O). apply sorted_nil_inv in O. subst days.
    cbn [bind]. unfold scoreDays. cbn [calculateMetadata bind].
    unfold calculateStreakBonus. cbn [List.length Z.of_nat Z.eqb bind].
    now rewrite generateChartData_unknown_zone.
  - now rewrite G.
Qed.

Lemma C3_witness :
  zoneOffset utcHost "Mars/Phobos" = None
  /\ calculateConsistencyScore utcHost
       {| sessions := [daysAgo 1]; referenceDate := None; timezone := Some "Mars/Phobos"%string |}
     = Throw (RangeError_InvalidTimeZone "Mars/Phobos").
Proof.
  split; [reflexivity |].
  apply (C3_unrecognized_zone_is_fatal utcHost [daysAgo 1] None "Mars/Phobos"). reflexivity.
Defined.

(** C10: in a recognised zone, a session list that holds a session whose
    timestamp is the invalid date makes the whole call throw the RangeError
    of [format]; the session is neither skipped nor counted as inactive. *)
Theorem C10_invalid_timestamp_is_fatal (P : Platform) (input : ScoreInput) (off : Z -> Z) :
  zoneOffset P (zoneOf input) = Some off ->
  (exists s, In s (sessions input) /\ timestamp s = Invalid) ->
  calculateConsistencyScore P input = Throw RangeError_InvalidTimeValue.
Proof.
  intros Hz (s & Hin & Hs). rewrite calculateConsistencyScore_split.
  pose proof (groupSessionsByDay_observe P (sessions input) (zoneOf input)) as G.
  rewrite (sessionDates_known_zone P _ off _ Hz) in G.
  destruct (forallb (fun s => validDate (timestamp s)) (sessions input)) eqn:F.
  - rewrite forallb_forall in F. specialize (F s Hin). rewrite Hs in F. discriminate.
  - now rewrite G.
Qed.

Lemma C10_witness :
  calculateConsistencyScore utcHost
    {| sessions := [daysAgo 2; sessionAt "broken" Invalid DurMissing; daysAgo 1];
       referenceDate := Some (Valid noon); timezone := Some "UTC"%string |}
  = Throw RangeError_InvalidTimeValue.
Proof.
  apply (C10_invalid_timestamp_is_fatal utcHost _ (fun _ => 0)).
  - reflexivity.
  - exists (sessionAt "broken" Invalid DurMissing). split; [simpl; auto | reflexivity].
Defined.

(** ** Order and durations *)

(** C4: for every platform, reference date and zone, two session lists
    that are permutations of each other give the same result: the same
    score, explanations, chart, metadata and breakdown, or the same error.
    With equal lists this is determinism of the call. *)
Theorem C4_order_independence (P : Platform) (ss ss' : list Session)
  (ref : option JSDate) (tz : option string) :
  Permutation ss ss' ->
  calculateConsistencyScore P {| sessions := ss; referenceDate := ref; timezone := tz |}
  = calculateConsistencyScore P {| sessions := ss'; referenceDate := ref; timezone := tz |}.
Proof.
  intros Hp. rewrite !calculateConsistencyScore_split.
  cbn [sessions]. unfold zoneOf, referenceOf. cbn [timezone referenceDate].
  set (z := match tz with Some z => z | None => "UTC"%string end).
  set (r := match ref with Some d => d | None => Valid (currentTime P) end).
  pose proof (groupSessionsByDay_observe P ss z) as G.
  pose proof (groupSessionsByDay_observe P ss' z) as G'.
  pose proof (sessionDates_perm P z ss ss' Hp) as D.
  destruct (sessionDates P z ss) as [d | e], (sessionDates P z ss') as [d' | e'];
    try contradiction.
  - destruct G as (days & -> & O). destruct G' as (days' & -> & O'). cbn [bind].
    apply scoreDays_observed. rewrite O, O'. now apply sorted_tally_perm.
  - subst e'. now rewrite G, G'.
Qed.

Lemma C4_witness :
  Permutation [daysAgo 5; daysAgo 1; daysAgo 5] [daysAgo 1; daysAgo 5; daysAgo 5]
  /\ calculateConsistencyScore utcHost
       {| sessions := [daysAgo 5; daysAgo 1; daysAgo 5];
          referenceDate := Some (Valid noon); timezone := None |}
     = calculateConsistencyScore utcHost
         {| sessions := [daysAgo 1; daysAgo 5; daysAgo 5];
            referenceDate := Some (Valid noon); timezone := None |}.
Proof.
  assert (Hp : Permutation [daysAgo 5; daysAgo 1; daysAgo 5] [daysAgo 1; daysAgo 5; daysAgo 5])
    by apply perm_swap.
  split; [exact Hp |].
  apply (C4_order_independence utcHost _ _ (Some (Valid noon)) None Hp).
Defined.

Lemma sessionDates_sameButDuration (P : Platform) (tz : string) (ss ss' : list Session) :
  Forall2 sameButDuration ss ss' -> sessionDates P tz ss = sessionDates P tz ss'.
Proof.
  induction 1 as [| a b ss ss' (_ & Ht & _) _ IH]; [reflexivity |].
  cbn [sessionDates]. now rewrite Ht, IH.
Qed.

(** C9: two inputs whose session lists differ only in the [durationSec]
    values (absent, negative, not a number, any number) give the same result:
    the accumulated duration reaches none of score, breakdown, metadata,
    chart and explanations, and the call fails on one list exactly when it
    fails on the other, with the same error. *)
Theorem C9_durations_do_not_matter (P : Platform) (ss ss' : list Session)
  (ref : option JSDate) (tz : option string) :
  Forall2 sameButDuration ss ss' ->
  calculateConsistencyScore P {| sessions := ss; referenceDate := ref; timezone := tz |}
  = calculateConsistencyScore P {| sessions := ss'; referenceDate := ref; timezone := tz |}.
Proof.
  intros H. rewrite !calculateConsistencyScore_split.
  cbn [sessions]. unfold zoneOf, referenceOf. cbn [timezone referenceDate].
  set (z := match tz with Some z => z | None => "UTC"%string end).
  set (r := match ref with Some d => d | None => Valid (currentTime P) end).
  pose proof (groupSessionsByDay_observe P ss z) as G.
  pose proof (groupSessionsByDay_observe P ss' z) as G'.
  rewrite <- (sessionDates_sameButDuration P z ss ss' H) in G'.
  destruct (sessionDates P z ss) as [d | e].
  - destruct G as (days & -> & O). destruct G' as (days' & -> & O'). cbn [bind].
    apply scoreDays_observed. now rewrite O, O'.
  - now rewrite G, G'.
Qed.

Lemma C9_witness :
  calculateConsistencyScore utcHost
    {| sessions := [sessionAt "a" (Valid noon) (DurNumber (ofZ (-5)));
                    sessionAt "b" (Valid noon) DurMissing;
                    sessionAt "c" (Valid (noon - msPerDay)) (DurOther NaN)];
       referenceDate := Some (Valid noon); timezone := Some "Asia/Tokyo"%string |}
  = calculateConsistencyScore utcHost
      {| sessions := [sessionAt "a" (Valid noon) (DurNumber PosInf);
                      sessionAt "b" (Valid noon) (DurNumber (Fin (7 # 2)));
                      sessionAt "c" (Valid (noon - msPerDay)) (DurNumber (ofZ 1800))];
         referenceDate := Some (Valid noon); timezone := Some "Asia/Tokyo"%string |}.
Proof.
  apply C9_durations_do_not_matter.
  repeat constructor.
Defined.

(** ** Stepping a date back by whole days *)

Lemma truncate_int (a b : Z) : truncate (inject_Z a + - inject_Z b) = a - b.
Proof.
  unfold truncate.
  assert (F : Qfloor (inject_Z a + - inject_Z b) = a - b).
  { unfold Qfloor, Qplus, Qopp, inject_Z. cbn [Qnum Qden].
    rewrite Z.div_1_r. lia. }
  assert (C : Qceiling (inject_Z a + - inject_Z b) = a - b).
  { unfold Qceiling, Qfloor, Qplus, Qopp, inject_Z. cbn [Qnum Qden].
    rewrite Z.div_1_r. lia. }
  destruct (Qle_bool 0 _); assumption.
Qed.

(** [d.setDate(d.getDate() - i)] moves the local time back by [i] days. *)
Lemma setDate_back (P : Platform) (t i : Z) :
  setDate P (Valid t) (nsub (getDate P (Valid t)) (ofZ i)) = Valid (chartInstant P t i).
Proof.
  unfold setDate, getDate, nsub, ofZ, nneg, nadd, chartInstant.
  rewrite truncate_int. do 2 f_equal.
  replace (DateFromTime (LocalTime P t) - i) with (DateFromTime (LocalTime P t) + - i) by lia.
  rewrite MakeDay_shift, MakeDay_civil.
  rewrite (Day_decompose (LocalTime P t)) at 3. unfold MakeDate. lia.
Qed.

(** ** The chart *)

Lemma chartEntry_ok (P : Platform) (m : JSMap ActiveDay) (tz : string) (off : Z -> Z) (t i : Z) :
  zoneOffset P tz = Some off -> timeInRange (chartInstant P t i) = true ->
  chartEntry P m (Valid t) tz i = Ok (chartEntryAt P m off t i).
Proof.
  intros H R. unfold chartEntry. rewrite setDate_back.
  rewrite (toLocalDateString_ok P tz off _ H R). cbn [bind].
  unfold chartEntryAt, Map_has. cbv zeta.
  now destruct (Map_get m _).
Qed.

Lemma chartEntry_out_of_range (P : Platform) (m : JSMap ActiveDay) (tz : string)
  (off : Z -> Z) (t i : Z) :
  zoneOffset P tz = Some off -> timeInRange (chartInstant P t i) = false ->
  chartEntry P m (Valid t) tz i = Throw RangeError_InvalidTimeValue.
Proof.
  intros H R. unfold chartEntry. rewrite setDate_back.
  now rewrite (toLocalDateString_out_of_range P tz off _ H R).
Qed.

Lemma countdown_S (n : nat) : countdown (S n) = Z.of_nat n :: countdown n.
Proof. unfold countdown. now rewrite seq_S, rev_app_distr. Qed.

Lemma chartLoop_ok (P : Platform) (m : JSMap ActiveDay) (tz : string) (off : Z -> Z)
  (t : Z) (n : nat) :
  zoneOffset P tz = Some off -> chartInRange P t n = true ->
  chartLoop P m (Valid t) tz n = Ok (map (chartEntryAt P m off t) (countdown n)).
Proof.
  intros H. unfold chartInRange. induction n as [| n IH]; [reflexivity |].
  rewrite countdown_S. cbn [forallb map chartLoop]. intros R.
  apply andb_true_iff in R. destruct R as [R1 R2].
  now rewrite (chartEntry_ok P m tz off t _ H R1), (IH R2).
Qed.

(** The loop throws as soon as one of its instants is no time value of a
    [Date]. *)
Lemma chartLoop_out_of_range (P : Platform) (m : JSMap ActiveDay) (tz : string)
  (off : Z -> Z) (t : Z) (n : nat) :
  zoneOffset P tz = Some off -> chartInRange P t n = false ->
  chartLoop P m (Valid t) tz n = Throw RangeError_InvalidTimeValue.
Proof.
  intros H. unfold chartInRange. induction n as [| n IH]; [discriminate |].
  rewrite countdown_S. cbn [forallb chartLoop]. intros R.
  destruct (timeInRange (chartInstant P t (Z.of_nat n))) eqn:R1.
  - rewrite (chartEntry_ok P m tz off t _ H R1). cbn [bind andb] in *.
    now rewrite (IH R).
  - now rewrite (chartEntry_out_of_range P m tz off t _ H R1).
Qed.

Lemma countdown_length (n : nat) : List.length (countdown n) = n.
Proof. unfold countdown. now rewrite length_map, length_rev, length_seq. Qed.

(** In a recognised zone and with a reference date whose 28 chart instants
    are dates, the chart has one entry per iteration, and each entry
    reports the bucket of its date. *)
Lemma generateChartData_ok (P : Platform) (days : list ActiveDay) (tz : string)
  (off : Z -> Z) (t : Z) :
  zoneOffset P tz = Some off -> chartInRange P t (Z.to_nat WINDOW_DAYS) = true ->
  generateChartData P days (Valid t) tz
  = Ok (map (chartEntryAt P (Map_of (map (fun d => (date d, d)) days)) off t)
            (countdown (Z.to_nat WINDOW_DAYS))).
Proof. intros H R. unfold generateChartData. now apply chartLoop_ok. Qed.

Lemma generateChartData_out_of_range (P : Platform) (days : list ActiveDay) (tz : string)
  (off : Z -> Z) (t : Z) :
  zoneOffset P tz = Some off -> chartInRange P t (Z.to_nat WINDOW_DAYS) = false ->
  generateChartData P days (Valid t) tz = Throw RangeError_InvalidTimeValue.
Proof. intros H R. unfold generateChartData. now apply (chartLoop_out_of_range P _ tz off). Qed.

(** What a returned chart is. *)
Lemma generateChartData_value (P : Platform) (days : list ActiveDay) (tz : string)
  (off : Z -> Z) (t : Z) (chart : list DayActivity) :
  zoneOffset P tz = Some off ->
  generateChartData P days (Valid t) tz = Ok chart ->
  chartInRange P t (Z.to_nat WINDOW_DAYS) = true
  /\ chart = map (chartEntryAt P (Map_of (map (fun d => (date d, d)) days)) off t)
                 (countdown (Z.to_nat WINDOW_DAYS)).
Proof.
  intros H G. destruct (chartInRange P t (Z.to_nat WINDOW_DAYS)) eqn:R.
  - rewrite (generateChartData_ok P days tz off t H R) in G. injection G as <-. now split.
  - rewrite (generateChartData_out_of_range P days tz off t H R) in G. discriminate.
Qed.

(** ** The empty history *)

(** C7: for the empty session list, a recognised zone and a valid reference
    date from which the 28 days of the chart can be reached (none of the 28
    instants of the chart loop leaves the range of [Date]), the call
    returns; the metadata is the all-zero record with
    [daysSinceLastSession = 28], the score is 0, the chart has 28 entries,
    none of them active, and the explanations are exactly the frequency
    bullet. *)
Theorem C7_empty_history (P : Platform) (input : ScoreInput) (off : Z -> Z) (t : Z) :
  sessions input = [] ->
  zoneOffset P (zoneOf input) = Some off ->
  referenceOf P input = Valid t ->
  chartInRange P t (Z.to_nat WINDOW_DAYS) = true ->
  exists r, calculateConsistencyScore P input = Ok r
    /\ metadata r = emptyMetadata
    /\ score r = ofZ 0
    /\ List.length (chartData r) = 28%nat
    /\ Forall (fun e => hasActivity e = false /\ chartSessionCount e = 0) (chartData r)
    /\ explanations r = ["You trained 0 out of 28 days (0%)"%string].
Proof.
  intros Hs Hz Hr R. rewrite calculateConsistencyScore_split, Hs, Hr.
  change (groupSessionsByDay P [] (zoneOf input)) with (@Ok (list ActiveDay) []).
  cbn [bind]. unfold scoreDays. cbn [calculateMetadata bind].
  unfold calculateStreakBonus. cbn [List.length Z.of_nat Z.eqb bind].
  rewrite (generateChartData_ok P [] _ off t Hz R). cbn [bind].
  eexists. split; [reflexivity |]. cbn [metadata score chartData explanations].
  split; [reflexivity |]. split; [reflexivity |].
  split; [now rewrite length_map, countdown_length |].
  split; [| reflexivity].
  apply Forall_forall. intros e He. apply in_map_iff in He.
  destruct He as (i & <- & _). split; reflexivity.
Qed.

Lemma C7_witness :
  exists r, calculateConsistencyScore utcHost (inputAt [] noon "Asia/Tokyo") = Ok r
    /\ metadata r = emptyMetadata
    /\ score r = ofZ 0
    /\ List.length (chartData r) = 28%nat
    /\ Forall (fun e => hasActivity e = false /\ chartSessionCount e = 0) (chartData r)
    /\ explanations r = ["You trained 0 out of 28 days (0%)"%string].
Proof.
  apply (C7_empty_history utcHost (inputAt [] noon "Asia/Tokyo") (fun _ => hours 9) noon);
    reflexivity.
Defined.

(** At the earliest time value of a [Date], a valid reference date, the
    27 days before it do not exist: the chart loop sets the date to an
    instant out of range, [format] throws, and the call returns nothing. *)
Lemma C7_counterexample :
  validDate (Valid (- maxTime)) = true
  /\ zoneOffset utcHost "UTC" <> None
  /\ calculateConsistencyScore utcHost (inputAt [] (- maxTime) "UTC")
     = Throw RangeError_InvalidTimeValue.
Proof.
  split; [reflexivity |]. split; [discriminate |]. vm_compute. reflexivity.
Qed.

(** ** Arithmetic on integers *)

Lemma Qle_bool_inject (a b : Z) : Qle_bool (inject_Z a) (inject_Z b) = (a <=? b).
Proof. unfold Qle_bool, inject_Z. cbn [Qnum Qden]. now rewrite !Z.mul_1_r. Qed.

Lemma Math_max_ofZ (a b : Z) : Math_max (ofZ a) (ofZ b) = ofZ (Z.max a b).
Proof.
  unfold Math_max, ofZ, nleb. rewrite Qle_bool_inject.
  destruct (Z.leb_spec a b); f_equal; f_equal; lia.
Qed.

Lemma Math_min_ofZ (a b : Z) : Math_min (ofZ a) (ofZ b) = ofZ (Z.min a b).
Proof.
  unfold Math_min, ofZ, nleb. rewrite Qle_bool_inject.
  destruct (Z.leb_spec a b); f_equal; f_equal; lia.
Qed.

Lemma Qfloor_days (x y : Z) :
  Qfloor ((inject_Z (x * msPerDay) + - inject_Z (y * msPerDay))
          / inject_Z (1000 * 60 * 60 * 24)) = x - y.
Proof.
  unfold Qfloor, Qdiv, Qmult, Qinv, Qplus, Qopp, inject_Z, msPerDay.
  cbn [Qnum Qden Z.mul Pos.mul]. rewrite !Z.mul_1_r. divmod.
Qed.

(** The day difference of two rendered dates is the difference of their
    day numbers. *)
Lemma dayDiff_rendered (P : Platform) (prev curr : ActiveDay) (a b : Z) :
  date prev = formatCivil a -> fourDigitYear a = true ->
  date curr = formatCivil b -> fourDigitYear b = true ->
  dayDiff P prev curr = ofZ (Day b - Day a).
Proof.
  intros Ha Ra Hb Rb. unfold dayDiff. rewrite Ha, Hb.
  rewrite !newDate_formatCivil by assumption.
  unfold getTime, ofZ, nsub, nneg, nadd, ndiv.
  replace (Qeq_bool (inject_Z (1000 * 60 * 60 * 24)) 0) with false by reflexivity.
  unfold Math_floor. now rewrite Qfloor_days.
Qed.

(** ** The buckets of an in-range history *)

Lemma sessionDates_In (P : Platform) (tz : string) (ss : list Session) :
  forall dates k, sessionDates P tz ss = Ok dates -> In k dates ->
  exists s, In s ss /\ toLocalDateString P (timestamp s) tz = Ok k.
Proof.
  induction ss as [| s ss IH]; intros dates k H Hin; cbn [sessionDates] in H.
  - inversion H; subst. contradiction.
  - destruct (toLocalDateString P (timestamp s) tz) as [k0 | e] eqn:D; cbn [bind] in H;
      [| discriminate].
    destruct (sessionDates P tz ss) as [ks | e]; cbn [bind] in H; [| discriminate].
    inversion H; subst. destruct Hin as [<- | Hin].
    + exists s. split; [now left | exact D].
    + destruct (IH ks k eq_refl Hin) as (s' & Hs' & D'). exists s'. split; [now right | exact D'].
Qed.

Lemma occurrences_In (k : string) (dates : list string) :
  0 < occurrences k dates -> In k dates.
Proof. unfold occurrences. intros H. apply (count_occ_In string_dec). lia. Qed.

Lemma StronglySorted_observe (days : list ActiveDay) :
  StronglySorted (keyLt fst) (map observe days) -> StronglySorted (keyLt date) days.
Proof.
  induction days as [| d days IH]; intros S; [constructor |].
  cbn [map] in S. inversion S as [| ? ? S' F]; subst. constructor; [now apply IH |].
  rewrite Forall_forall in F |- *. intros x Hx.
  apply (F (observe x)). now apply in_map.
Qed.

(** The buckets come out in strictly ascending order of their date strings,
    and every bucket carries the date string of some session. *)
Lemma groupSessionsByDay_sorted (P : Platform) (ss : list Session) (tz : string)
  (days : list ActiveDay) :
  groupSessionsByDay P ss tz = Ok days ->
  StronglySorted (keyLt date) days
  /\ forall d, In d days ->
       exists s, In s ss /\ toLocalDateString P (timestamp s) tz = Ok (date d).
Proof.
  intros H. pose proof (groupSessionsByDay_observe P ss tz) as G.
  destruct (sessionDates P tz ss) as [dates |] eqn:D; [| congruence].
  destruct G as (days' & G & O). rewrite H in G. inversion G; subst days'.
  split.
  - apply StronglySorted_observe. rewrite O.
    apply (Array_sort_sorted fst), tally_NoDup.
  - intros d Hd. apply (sessionDates_In P tz ss dates _ D).
    apply occurrences_In.
    assert (I : In (observe d) (tally dates)).
    { eapply Permutation_in; [apply (Array_sort_perm fst) |].
      change (cmpBy fst) with byKey. rewrite <- O. now apply in_map. }
    apply tally_In in I. lia.
Qed.

Lemma toLocalDateString_rendered (P : Platform) (tz : string) (ts : JSDate) (k : string) :
  dateInRange P tz ts = true -> toLocalDateString P ts tz = Ok k ->
  exists lt, k = formatCivil lt /\ fourDigitYear lt = true.
Proof.
  unfold dateInRange, toLocalDateString.
  destruct (zoneOffset P tz) as [off |]; [| discriminate].
  destruct ts as [t |]; [| discriminate].
  intros R H. destruct (timeInRange t); [| discriminate]. inversion H. eauto.
Qed.

Lemma groupSessionsByDay_rendered (P : Platform) (ss : list Session) (tz : string)
  (days : list ActiveDay) :
  Forall (fun s => dateInRange P tz (timestamp s) = true) ss ->
  groupSessionsByDay P ss tz = Ok days ->
  Forall rendered days.
Proof.
  intros R H. destruct (groupSessionsByDay_sorted P ss tz days H) as [_ I].
  apply Forall_forall. intros d Hd. destruct (I d Hd) as (s & Hs & D).
  rewrite Forall_forall in R.
  exact (toLocalDateString_rendered P tz (timestamp s) (date d) (R s Hs) D).
Qed.

(** Between consecutive buckets there is at least one day. *)
Lemma gapsFrom_positive (P : Platform) (rest : list ActiveDay) :
  forall prev, rendered prev -> Forall rendered rest ->
  StronglySorted (keyLt date) (prev :: rest) ->
  Forall (intFrom 1) (gapsFrom P prev rest).
Proof.
  induction rest as [| curr rest IH]; intros prev Rp Rr S; cbn [gapsFrom]; [constructor |].
  inversion S as [| ? ? S' F]; subst.
  inversion Rr as [| ? ? Rc Rr']; subst.
  constructor; [| now apply IH].
  destruct Rp as (a & Ha & Ra). destruct Rc as (b & Hb & Rb).
  rewrite (dayDiff_rendered P prev curr a b Ha Ra Hb Rb).
  exists (Day b - Day a). split; [reflexivity |].
  inversion F as [| ? ? L _]; subst. unfold keyLt in L.
  rewrite Ha, Hb, (formatCivil_compare a b Ra Rb) in L.
  change (Day a < Day b) in L. lia.
Qed.

Lemma gapsOf_positive (P : Platform) (days : list ActiveDay) :
  Forall rendered days -> StronglySorted (keyLt date) days ->
  Forall (intFrom 1) (gapsOf P days).
Proof.
  destruct days as [| d days]; intros R S; [constructor |].
  inversion R; subst. now apply gapsFrom_positive.
Qed.

Lemma gapsFrom_length (P : Platform) (rest : list ActiveDay) :
  forall prev, List.length (gapsFrom P prev rest) = List.length rest.
Proof. induction rest as [| c rest IH]; intros prev; cbn; [reflexivity | now rewrite IH]. Qed.

Lemma fold_Math_max_intFrom (lo : Z) (l : list number) :
  forall acc, intFrom lo acc -> Forall (intFrom lo) l ->
  intFrom lo (fold_left Math_max l acc).
Proof.
  induction l as [| x l IH]; intros acc A F; cbn [fold_left]; [exact A |].
  inversion F as [| ? ? (z & -> & Hz) F']; subst. destruct A as (a & -> & Ha).
  apply IH; [| exact F']. rewrite Math_max_ofZ. exists (Z.max a z). split; [reflexivity | lia].
Qed.

Lemma Math_max_spread_intFrom (lo : Z) (l : list number) :
  l <> [] -> Forall (intFrom lo) l -> intFrom lo (Math_max_spread l).
Proof.
  destruct l as [| x l]; intros N F; [contradiction |].
  inversion F as [| ? ? (z & -> & Hz) F']; subst.
  unfold Math_max_spread. cbn [fold_left].
  change (Math_max NegInf (ofZ z)) with (ofZ z).
  apply fold_Math_max_intFrom; [| exact F']. exists z. auto.
Qed.

(** ** The result of a call *)

Lemma calculateConsistencyScore_inv (P : Platform) (input : ScoreInput) (r : ConsistencyScore) :
  calculateConsistencyScore P input = Ok r ->
  exists days m streak chart,
    groupSessionsByDay P (sessions input) (zoneOf input) = Ok days
    /\ calculateMetadata P days (referenceOf P input) (zoneOf input) = Ok m
    /\ calculateStreakBonus P days (referenceOf P input) (zoneOf input) = Ok streak
    /\ generateChartData P days (referenceOf P input) (zoneOf input) = Ok chart
    /\ metadata r = m
    /\ chartData r = chart
    /\ breakdown r = {| baseScore := calculateBaseScore days;
                        distributionBonus := calculateDistributionBonus P days;
                        streakBonus := streak;
                        recencyBonus := calculateRecencyBonus m |}
    /\ explanations r = generateExplanations m (breakdown r)
    /\ score r = Math_max (ofZ 0) (Math_min (ofZ 100) (Math_round
                   (nadd (nadd (nadd (baseScore (breakdown r)) (distributionBonus (breakdown r)))
                               (streakBonus (breakdown r)))
                         (recencyBonus (breakdown r))))).
Proof.
  rewrite calculateConsistencyScore_split. intros H.
  destruct (groupSessionsByDay P (sessions input) (zoneOf input)) as [days | e] eqn:G;
    cbn [bind] in H; [| discriminate].
  unfold scoreDays in H.
  destruct (calculateMetadata P days _ _) as [m | e] eqn:M; cbn [bind] in H; [| discriminate].
  destruct (calculateStreakBonus P days _ _) as [streak | e] eqn:S;
    cbn [bind] in H; [| discriminate].
  destruct (generateChartData P days _ _) as [chart | e] eqn:C;
    cbn [bind] in H; [| discriminate].
  inversion H; subst r; clear H.
  exists days, m, streak, chart. repeat split; assumption || reflexivity.
Qed.

Lemma calculateMetadata_activeDays (P : Platform) (days : list ActiveDay) (ref : JSDate)
  (tz : string) (m : ConsistencyMetadata) :
  calculateMetadata P days ref tz = Ok m -> activeDays m = Z.of_nat (List.length days).
Proof.
  unfold calculateMetadata. destruct days as [| d days]; intros H.
  - now inversion H.
  - destruct (toLocalDateString P ref tz); cbn [bind] in H; [| discriminate].
    now inversion H.
Qed.

(** ** Bounds of the components *)

Lemma within_ofZ (a b z : Z) : a <= z <= b -> within (inject_Z a) (inject_Z b) (ofZ z).
Proof.
  intros H. exists (inject_Z z). split; [reflexivity |].
  rewrite <- !Zle_Qle. exact H.
Qed.

Lemma calculateBaseScore_value (days : list ActiveDay) :
  calculateBaseScore days = Fin (inject_Z (Z.of_nat (List.length days)) / 28 * 60).
Proof. reflexivity. Qed.

Lemma calculateBaseScore_within (days : list ActiveDay) :
  Z.of_nat (List.length days) <= 28 -> within 0 60 (calculateBaseScore days).
Proof.
  intros H. rewrite calculateBaseScore_value. eexists. split; [reflexivity |].
  set (n := Z.of_nat (List.length days)) in *.
  assert (H0 : (0 <= inject_Z n)%Q) by (change 0%Q with (inject_Z 0); rewrite <- Zle_Qle; lia).
  assert (H1 : (inject_Z n <= 28)%Q) by (change 28%Q with (inject_Z 28); rewrite <- Zle_Qle; lia).
  unfold Qdiv. change (/ 28)%Q with (1 # 28)%Q.
  generalize dependent (inject_Z n). intros x H0 H1. split; lra.
Qed.

Lemma distribution_quality_within (z : Z) :
  1 <= z ->
  within 0 25
    (nmul (nsub (ofZ 1) (Math_min (ndiv (ofZ z) (ofZ WINDOW_DAYS)) (ofZ 1))) (ofZ 25)).
Proof.
  intros Hz.
  assert (H1 : (1 <= inject_Z z)%Q) by (change 1%Q with (inject_Z 1); now rewrite <- Zle_Qle).
  unfold ofZ, ndiv, WINDOW_DAYS.
  replace (Qeq_bool (inject_Z 28) 0) with false by reflexivity.
  unfold Math_min, nleb.
  destruct (Qle_bool (inject_Z z / inject_Z 28) (inject_Z 1)) eqn:E;
    unfold nsub, nneg, nadd, nmul; eexists; (split; [reflexivity |]).
  - apply Qle_bool_iff in E. revert E.
    unfold Qdiv. change (/ inject_Z 28)%Q with (1 # 28)%Q.
    change (inject_Z 1) with 1%Q. change (inject_Z 25) with 25%Q.
    generalize dependent (inject_Z z). intros x Hx E. split; lra.
  - change (inject_Z 1) with 1%Q. change (inject_Z 25) with 25%Q. split; lra.
Qed.

Lemma calculateDistributionBonus_within (P : Platform) (days : list ActiveDay) :
  Forall rendered days -> StronglySorted (keyLt date) days ->
  within 0 25 (calculateDistributionBonus P days).
Proof.
  intros R S. unfold calculateDistributionBonus.
  destruct (Z.ltb_spec (Z.of_nat (List.length days)) 2) as [L | L].
  - exists 0%Q. split; [reflexivity | split; lra].
  - cbv zeta.
    destruct (Math_max_spread_intFrom 1 (gapsOf P days)) as (z & -> & Hz).
    + destruct days as [| a [| b days]]; cbn in L; try lia. discriminate.
    + now apply gapsOf_positive.
    + now apply distribution_quality_within.
Qed.

Lemma streakWalk_nonneg (P : Platform) (has : string -> bool) (tz : string) (steps : nat) :
  forall streak d s, 0 <= streak ->
  streakWalk P has tz steps streak d = Ok s -> 0 <= s.
Proof.
  induction steps as [| n IH]; intros streak d s H0 H; cbn [streakWalk] in H.
  - inversion H. lia.
  - destruct (toLocalDateString P d tz) as [k | e]; cbn [bind] in H; [| discriminate].
    destruct (has k); [eapply IH; [| exact H]; lia |].
    destruct (streak >? 0); [inversion H; lia | eapply IH; [| exact H]; lia].
Qed.

Lemma calculateStreakBonus_within (P : Platform) (days : list ActiveDay) (ref : JSDate)
  (tz : string) (x : number) :
  calculateStreakBonus P days ref tz = Ok x -> within 0 10 x.
Proof.
  unfold calculateStreakBonus. intros H.
  destruct (Z.of_nat (List.length days) =? 0).
  - inversion H. apply (within_ofZ 0 10 0). lia.
  - destruct (toLocalDateString P ref tz) as [k | e]; cbn [bind] in H; [| discriminate].
    destruct (streakWalk P _ tz _ 0 _) as [s | e] eqn:W; cbn [bind] in H; [| discriminate].
    apply streakWalk_nonneg in W; [| lia].
    inversion H. apply (within_ofZ 0 10). lia.
Qed.

Lemma calculateRecencyBonus_within (m : ConsistencyMetadata) :
  within 0 5 (calculateRecencyBonus m).
Proof.
  unfold calculateRecencyBonus.
  repeat match goal with |- context [if ?c then _ else _] => destruct c end;
    (apply (within_ofZ 0 5); lia).
Qed.

(** X25: for every input whose sessions fall on civil dates with four-digit
    years, if the call returns with at most 28 active days then each
    component of the breakdown is a finite number within its bound:
    baseScore in [0,60], distributionBonus in [0,25], streakBonus in [0,10]
    and recencyBonus in [0,5]. *)
Theorem X25_components_within_bounds (P : Platform) (input : ScoreInput) (r : ConsistencyScore) :
  Forall (fun s => dateInRange P (zoneOf input) (timestamp s) = true) (sessions input) ->
  calculateConsistencyScore P input = Ok r ->
  activeDays (metadata r) <= 28 ->
  within 0 60 (baseScore (breakdown r))
  /\ within 0 25 (distributionBonus (breakdown r))
  /\ within 0 10 (streakBonus (breakdown r))
  /\ within 0 5 (recencyBonus (breakdown r)).
Proof.
  intros R H A.
  destruct (calculateConsistencyScore_inv P input r H)
    as (days & m & streak & chart & G & M & S & _ & Em & _ & Eb & _).
  rewrite Eb. cbn [baseScore distributionBonus streakBonus recencyBonus].
  rewrite Em, (calculateMetadata_activeDays P days _ _ m M) in A.
  destruct (groupSessionsByDay_sorted P _ _ days G) as [Sorted _].
  pose proof (groupSessionsByDay_rendered P _ _ days R G) as Rd.
  repeat split.
  - now apply calculateBaseScore_within.
  - now apply calculateDistributionBonus_within.
  - exact (calculateStreakBonus_within P days _ _ streak S).
  - apply calculateRecencyBonus_within.
Qed.

Lemma X25_witness :
  exists r,
    Forall (fun s => dateInRange utcHost (zoneOf scenarioA) (timestamp s) = true)
           (sessions scenarioA)
    /\ calculateConsistencyScore utcHost scenarioA = Ok r
    /\ activeDays (metadata r) <= 28
    /\ within 0 60 (baseScore (breakdown r))
    /\ within 0 25 (distributionBonus (breakdown r))
    /\ within 0 10 (streakBonus (breakdown r))
    /\ within 0 5 (recencyBonus (breakdown r)).
Proof.
  eexists.
  assert (R : Forall (fun s => dateInRange utcHost (zoneOf scenarioA) (timestamp s) = true)
                     (sessions scenarioA)) by (repeat constructor).
  split; [exact R |].
  assert (H : calculateConsistencyScore utcHost scenarioA = Ok _) by (vm_compute; reflexivity).
  split; [exact H |].
  split; [vm_compute; discriminate |].
  apply (X25_components_within_bounds utcHost scenarioA _ R H).
  vm_compute; discriminate.
Defined.

(** C1: the base score leaves its range.  The engine keeps every session
    it is given, whatever the distance to the reference date, and
    [calculateBaseScore] does not cap [(activeDays / 28) * 60] at its
    [MAX_BASE_SCORE] of 60.  With one session on each of 29 consecutive
    days, the last one on the reference date, the call returns 29 active
    days and a base score of 29/28 * 60, above 62, where the constant and
    the declaration of [ScoreBreakdown] ("Frequency component (0-60)") give
    60 as its maximum.  These are the sessions that [fetchUserSessions] returns by
    default from a collection with a session every day: its window of 28
    days reaches over 29 civil dates. *)
Theorem C1_base_score_exceeds_its_maximum :
  (exists r, calculateConsistencyScore utcHost twentyNineDays = Ok r
     /\ activeDays (metadata r) = 29
     /\ (exists q, baseScore (breakdown r) = Fin q /\ (62 < q)%Q)
     /\ ~ within 0 60 (baseScore (breakdown r)))
  /\ exists ss, fetchUserSessions utcHost dailyDb "ada" None atNoon = Resolved ss
       /\ map timestamp ss = map timestamp (sessions twentyNineDays).
Proof.
  split.
  - eexists. split; [vm_compute; reflexivity |]. split; [reflexivity |].
    cbn [breakdown baseScore]. split.
    + eexists. split; [reflexivity |]. reflexivity.
    + intros (q & E & _ & Hle).
      inversion E; subst q. revert Hle. unfold Qle. cbn. lia.
  - eexists. split; vm_compute; reflexivity.
Qed.

(** ** The total *)

Lemma within_Fin (lo hi : Q) (x : number) : within lo hi x -> exists q, x = Fin q.
Proof. intros (q & -> & _). eauto. Qed.

Lemma clamp_round (x : number) :
  x <> NaN ->
  exists z, Math_max (ofZ 0) (Math_min (ofZ 100) (Math_round x)) = ofZ z /\ 0 <= z <= 100.
Proof.
  destruct x as [q | | |]; intros N.
  - exists (Z.max 0 (Z.min 100 (Qfloor (q + (1 # 2))))). split; [| lia].
    unfold Math_round. fold (ofZ (Qfloor (q + (1 # 2)))).
    now rewrite Math_min_ofZ, Math_max_ofZ.
  - exists 100. split; [reflexivity | lia].
  - exists 0. split; [reflexivity | lia].
  - contradiction.
Qed.

(** X26: the clamp of the final score holds for every sum but NaN.  On
    every input on which the call returns, the score is an integer between 0
    and 100 unless the sum of the components is NaN, and then the score is
    NaN; for sessions on civil dates with four-digit years the sum is a
    number, so the score is an integer between 0 and 100. *)
Theorem X26_score_is_a_whole_number_up_to_100 (P : Platform) (input : ScoreInput)
  (r : ConsistencyScore) :
  calculateConsistencyScore P input = Ok r ->
  ((rawScoreOf (breakdown r) = NaN /\ score r = NaN)
   \/ (rawScoreOf (breakdown r) <> NaN /\ exists z, score r = ofZ z /\ 0 <= z <= 100))
  /\ (Forall (fun s => dateInRange P (zoneOf input) (timestamp s) = true) (sessions input) ->
      exists z, score r = ofZ z /\ 0 <= z <= 100).
Proof.
  intros H.
  destruct (calculateConsistencyScore_inv P input r H)
    as (days & m & streak & chart & G & M & S & _ & Em & _ & Eb & _ & Es).
  fold (rawScoreOf (breakdown r)) in Es. rewrite Es. split.
  - destruct (rawScoreOf (breakdown r)) as [q | | |] eqn:E.
    + right. split; [discriminate |]. apply clamp_round. discriminate.
    + right. split; [discriminate |]. apply clamp_round. discriminate.
    + right. split; [discriminate |]. apply clamp_round. discriminate.
    + left. split; reflexivity.
  - intros R. apply clamp_round.
    destruct (groupSessionsByDay_sorted P _ _ days G) as [Sorted _].
    pose proof (groupSessionsByDay_rendered P _ _ days R G) as Rd.
    destruct (within_Fin _ _ _ (calculateDistributionBonus_within P days Rd Sorted)) as (d & Ed).
    destruct (within_Fin _ _ _ (calculateStreakBonus_within P days _ _ streak S)) as (s & ->).
    destruct (within_Fin _ _ _ (calculateRecencyBonus_within m)) as (c & Ec).
    rewrite Eb. unfold rawScoreOf. cbn [baseScore distributionBonus streakBonus recencyBonus].
    rewrite calculateBaseScore_value, Ed, Ec. cbn [nadd]. discriminate.
Qed.

Lemma X26_witness :
  exists r,
    calculateConsistencyScore utcHost scenarioA = Ok r
    /\ Forall (fun s => dateInRange utcHost (zoneOf scenarioA) (timestamp s) = true)
              (sessions scenarioA)
    /\ exists z, score r = ofZ z /\ 0 <= z <= 100.
Proof.
  destruct (calculateConsistencyScore utcHost scenarioA) as [r | e] eqn:H;
    [| vm_compute in H; discriminate].
  assert (R : Forall (fun s => dateInRange utcHost (zoneOf scenarioA) (timestamp s) = true)
                     (sessions scenarioA)) by (repeat constructor).
  exists r. split; [reflexivity |]. split; [exact R |].
  exact (proj2 (X26_score_is_a_whole_number_up_to_100 utcHost scenarioA r H) R).
Defined.

(** ** Sessions on the same civil date *)

Lemma observe_inv' (a : ActiveDay) (k : string) (c : Z) :
  observe a = (k, c) -> date a = k /\ sessionCount a = c.
Proof. unfold observe. intros H. now inversion H. Qed.

Lemma sessionsOn_occurrences (P : Platform) (tz k : string) (ss : list Session) :
  forall dates, sessionDates P tz ss = Ok dates ->
  sessionsOn P tz k ss = occurrences k dates /\ List.length dates = List.length ss.
Proof.
  unfold sessionsOn.
  induction ss as [| s ss IH]; intros dates H; cbn [sessionDates] in H.
  - inversion H. split; reflexivity.
  - destruct (toLocalDateString P (timestamp s) tz) as [k0 | e] eqn:D; cbn [bind] in H;
      [| discriminate].
    destruct (sessionDates P tz ss) as [ks | e]; cbn [bind] in H; [| discriminate].
    inversion H; subst dates. destruct (IH ks eq_refl) as [IH1 IH2].
    rewrite occurrences_cons. cbn [filter]. rewrite D.
    split; [| cbn [List.length]; now rewrite IH2].
    destruct (String.eqb k0 k); cbn [List.length]; lia.
Qed.

Lemma totalCount_cons (k : string) (c : Z) (t : list (string * Z)) :
  totalCount ((k, c) :: t) = c + totalCount t.
Proof. reflexivity. Qed.

Lemma totalCount_tallyAdd (k : string) (t : list (string * Z)) :
  totalCount (tallyAdd k t) = totalCount t + 1.
Proof.
  induction t as [| [k0 c] t IH]; [reflexivity |].
  cbn [tallyAdd]. destruct (String.eqb k0 k); rewrite !totalCount_cons; [| rewrite IH]; lia.
Qed.

Lemma totalCount_tally (dates : list string) :
  totalCount (tally dates) = Z.of_nat (List.length dates).
Proof.
  unfold tally.
  assert (G : forall t, totalCount (fold_left (fun t k => tallyAdd k t) dates t)
                        = totalCount t + Z.of_nat (List.length dates)).
  { induction dates as [| d dates IH]; intros t; cbn [fold_left List.length].
    - lia.
    - rewrite IH. cbv beta. rewrite totalCount_tallyAdd. lia. }
  now rewrite G.
Qed.

Lemma totalCount_perm (t t' : list (string * Z)) :
  Permutation t t' -> totalCount t = totalCount t'.
Proof.
  induction 1 as [| [k c] | [k c] [k' c'] |]; rewrite ?totalCount_cons; lia.
Qed.

Lemma sum_sessionCount (days : list ActiveDay) :
  forall acc, fold_left (fun sum d => sum + sessionCount d) days acc
              = acc + totalCount (map observe days).
Proof.
  induction days as [| d days IH]; intros acc; cbn [fold_left map]; [cbn; lia |].
  rewrite IH. unfold observe at 2. rewrite totalCount_cons. cbn [sessionCount]. lia.
Qed.

Lemma keyLt_NoDup {A : Type} (key : A -> string) (l : list A) :
  StronglySorted (keyLt key) l -> NoDup (map key l).
Proof.
  induction 1 as [| a l S IH F]; cbn; constructor; [| exact IH].
  intros H. apply in_map_iff in H. destruct H as (b & E & Hb).
  rewrite Forall_forall in F. specialize (F b Hb). unfold keyLt in F.
  rewrite E, compare_refl in F. discriminate.
Qed.

Lemma filter_none {A : Type} (f : A -> bool) (l : list A) :
  (forall x, In x l -> f x = false) -> filter f l = [].
Proof.
  induction l as [| x l IH]; intros H; [reflexivity |].
  cbn [filter]. rewrite (H x (or_introl eq_refl)). apply IH. intros y Hy. apply H. now right.
Qed.

Lemma filter_only {A : Type} (key : A -> string) (l : list A) (a : A) :
  NoDup (map key l) -> In a l ->
  filter (fun b => String.eqb (key b) (key a)) l = [a].
Proof.
  induction l as [| x l IH]; intros N H; [contradiction |].
  cbn in N. inversion N as [| ? ? Hx N']; subst. cbn [filter].
  destruct H as [-> | H].
  - rewrite String.eqb_refl. f_equal.
    apply filter_none. intros b Hb.
    apply String.eqb_neq. intros E. apply Hx. rewrite <- E. now apply in_map.
  - destruct (String.eqb (key x) (key a)) eqn:E; [| now apply IH].
    apply String.eqb_eq in E. exfalso. apply Hx. rewrite E. now apply in_map.
Qed.

Lemma calculateMetadata_totalSessions (P : Platform) (days : list ActiveDay) (ref : JSDate)
  (tz : string) (m : ConsistencyMetadata) :
  calculateMetadata P days ref tz = Ok m ->
  totalSessions m = totalCount (map observe days).
Proof.
  unfold calculateMetadata. destruct days as [| d days]; intros H.
  - now inversion H.
  - destruct (toLocalDateString P ref tz); cbn [bind] in H; [| discriminate].
    inversion H. cbn [totalSessions]. now rewrite sum_sessionCount.
Qed.

Lemma calculateMetadata_returns (P : Platform) (days : list ActiveDay) (ref : JSDate)
  (tz : string) (off : Z -> Z) :
  zoneOffset P tz = Some off -> validDate ref = true ->
  exists m, calculateMetadata P days ref tz = Ok m.
Proof.
  intros Hz V. destruct ref as [t |]; [| discriminate]. cbn [validDate] in V.
  unfold calculateMetadata. destruct days; [eauto |].
  rewrite (toLocalDateString_ok P tz off t Hz V). cbn [bind]. eauto.
Qed.

(** C8: when [N >= 1] sessions of a list fall on the civil date [k] of the
    zone, the buckets hold exactly one ActiveDay for [k] and its count is
    [N]; for every valid reference date the metadata is computed, and it
    counts the buckets as [activeDays] and the sessions as [totalSessions];
    when all the sessions fall on [k] that bucket is the only one, so the
    [N] sessions give [activeDays = 1] and [totalSessions = N]. *)
Theorem C8_same_day_sessions_collapse (P : Platform) (ss : list Session) (tz k : string)
  (days : list ActiveDay) (ref : JSDate) :
  groupSessionsByDay P ss tz = Ok days ->
  1 <= sessionsOn P tz k ss ->
  validDate ref = true ->
  (exists a, filter (fun b => String.eqb (date b) k) days = [a]
     /\ date a = k /\ sessionCount a = sessionsOn P tz k ss)
  /\ (exists m, calculateMetadata P days ref tz = Ok m
       /\ activeDays m = Z.of_nat (List.length days)
       /\ totalSessions m = Z.of_nat (List.length ss))
  /\ (Forall (fun s => toLocalDateString P (timestamp s) tz = Ok k) ss ->
      (exists a, days = [a])
      /\ exists m, calculateMetadata P days ref tz = Ok m
           /\ activeDays m = 1
           /\ totalSessions m = Z.of_nat (List.length ss)).
Proof.
  intros G N V.
  destruct (groupSessionsByDay_sorted P ss tz days G) as [Sorted From].
  pose proof (keyLt_NoDup date days Sorted) as ND.
  pose proof (groupSessionsByDay_observe P ss tz) as O.
  destruct (sessionDates P tz ss) as [dates |] eqn:D; [| congruence].
  destruct O as (days' & G' & O). rewrite G in G'. inversion G'; subst days'. clear G'.
  destruct (sessionsOn_occurrences P tz k ss dates D) as [Nk Len].
  assert (Pm : Permutation (map observe days) (tally dates))
    by (rewrite O; apply (Array_sort_perm fst)).
  assert (I : In (k, sessionsOn P tz k ss) (map observe days)).
  { eapply Permutation_in; [apply Permutation_sym, Pm |]. apply tally_In. lia. }
  apply in_map_iff in I. destruct I as (a & Ea & Ia).
  apply observe_inv' in Ea. destruct Ea as [Ek Ec].
  assert (Only : filter (fun b => String.eqb (date b) k) days = [a])
    by (rewrite <- Ek; now apply filter_only).
  assert (Z : exists off, zoneOffset P tz = Some off).
  { destruct (From a Ia) as (s & _ & Ds). apply toLocalDateString_inv in Ds.
    destruct Ds as (off & _ & Hz & _). eauto. }
  destruct Z as (off & Hz).
  destruct (calculateMetadata_returns P days ref tz off Hz V) as (m & M).
  assert (A : activeDays m = Z.of_nat (List.length days))
    by exact (calculateMetadata_activeDays P days ref tz m M).
  assert (T : totalSessions m = Z.of_nat (List.length ss)).
  { rewrite (calculateMetadata_totalSessions P days ref tz m M).
    now rewrite (totalCount_perm _ _ Pm), totalCount_tally, Len. }
  split; [| split].
  - exists a. auto.
  - exists m. auto.
  - intros All.
    assert (One : days = [a]).
    { rewrite <- Only. symmetry.
      apply forallb_filter_id. apply forallb_forall. intros b Hb.
      destruct (From b Hb) as (s & Hs & Ds).
      rewrite Forall_forall in All. rewrite (All s Hs) in Ds. inversion Ds.
      apply String.eqb_refl. }
    split; [now exists a |]. exists m. split; [exact M |]. split; [| exact T].
    rewrite A, One. reflexivity.
Qed.

Lemma C8_witness :
  exists days,
    groupSessionsByDay utcHost sameInstantTwice "UTC" = Ok days
    /\ 1 <= sessionsOn utcHost "UTC" "2024-06-05" sameInstantTwice
    /\ validDate (Valid noon) = true
    /\ Forall (fun s => toLocalDateString utcHost (timestamp s) "UTC" = Ok "2024-06-05"%string)
              sameInstantTwice
    /\ (exists a, filter (fun b => String.eqb (date b) "2024-06-05") days = [a]
          /\ date a = "2024-06-05"%string /\ sessionCount a = 2)
    /\ (exists a, days = [a])
    /\ exists m, calculateMetadata utcHost days (Valid noon) "UTC" = Ok m
         /\ activeDays m = 1
         /\ totalSessions m = 2.
Proof.
  destruct (groupSessionsByDay utcHost sameInstantTwice "UTC") as [days | e] eqn:G;
    [| vm_compute in G; discriminate].
  assert (N : 1 <= sessionsOn utcHost "UTC" "2024-06-05" sameInstantTwice)
    by (vm_compute; discriminate).
  assert (All : Forall (fun s => toLocalDateString utcHost (timestamp s) "UTC"
                                 = Ok "2024-06-05"%string) sameInstantTwice)
    by (repeat constructor).
  destruct (C8_same_day_sessions_collapse utcHost sameInstantTwice "UTC" "2024-06-05" days
              (Valid noon) G N eq_refl) as (A & _ & S).
  destruct (S All) as (One & M).
  exists days. split; [reflexivity |]. split; [exact N |]. split; [reflexivity |].
  split; [exact All |]. split; [exact A |]. split; [exact One | exact M].
Defined.

(** ** The streak walk *)

(** C2: in a zone behind UTC the walk of [calculateStreakBonus] does not
    start at the civil date of the reference instant.  With one session at
    noon today in Etc/GMT+5 the buckets hold today ("2024-06-15") and the
    metadata reports 0 days since the last session, but the walk examines
    "2024-06-14" first and never reaches today: the streak bonus of the
    call is 0, where the walk of the specification gives
    [min(1 * 2, 10) = 2]. *)
Theorem C2_streak_walk_starts_a_day_early :
  exists days r,
    groupSessionsByDay utcHost (sessions trainedTodayWest) "Etc/GMT+5" = Ok days
    /\ map date days = ["2024-06-15"%string]
    /\ toLocalDateString utcHost (Valid noonWest) "Etc/GMT+5" = Ok "2024-06-15"%string
    /\ toLocalDateString utcHost (newDate utcHost "2024-06-15") "Etc/GMT+5"
       = Ok "2024-06-14"%string
    /\ calculateConsistencyScore utcHost trainedTodayWest = Ok r
    /\ daysSinceLastSession (metadata r) = ofZ 0
    /\ streakBonus (breakdown r) = ofZ 0
    /\ specStreakBonus days (fun _ => hours (-5)) noonWest = ofZ 2.
Proof.
  do 2 eexists.
  split; [vm_compute; reflexivity |].
  split; [reflexivity |].
  split; [vm_compute; reflexivity |].
  split; [vm_compute; reflexivity |].
  split; [vm_compute; reflexivity |].
  split; [reflexivity |].
  split; [reflexivity |].
  vm_compute; reflexivity.
Qed.

(** ** The chart across a change of clocks *)

(** C6: the loop of [generateChartData] steps the reference instant back
    on the calendar of the host and renders each instant in the target zone.
    On a host in UTC, for New York at 23:30 on the day the clocks go back,
    the chart has 28 entries, but its last two entries both carry
    "2024-11-03" and the date 27 days before the reference date,
    "2024-10-07", is missing: the entries are not one per civil date of the
    window. *)
Theorem C6_chart_repeats_a_date_when_clocks_go_back :
  exists r,
    calculateConsistencyScore utcHost fallBackSunday = Ok r
    /\ List.length (chartData r) = 28%nat
    /\ skipn 26 (map chartDate (chartData r)) = ["2024-11-03"%string; "2024-11-03"%string]
    /\ hd_error (map chartDate (chartData r)) = Some "2024-10-08"%string
    /\ hd_error (specChartDates newYork2024 lateOnFallBack) = Some "2024-10-07"%string
    /\ map chartDate (chartData r) <> specChartDates newYork2024 lateOnFallBack.
Proof.
  eexists.
  split; [vm_compute; reflexivity |].
  split; [reflexivity |].
  split; [reflexivity |].
  split; [reflexivity |].
  split; [vm_compute; reflexivity |].
  vm_compute. discriminate.
Qed.

(** ** The numbers that reach the explanations *)

Lemma isInteger_floor (q : Q) : isInteger (Fin (inject_Z (Qfloor q))) = true.
Proof. unfold isInteger. rewrite Qfloor_Z. apply Qeq_bool_iff. reflexivity. Qed.

Lemma dayDiff_integral (P : Platform) (a b : ActiveDay) : integralOrNaN (dayDiff P a b).
Proof.
  unfold dayDiff, integralOrNaN.
  destruct (newDate P (date b)) as [tb |], (newDate P (date a)) as [ta |];
    cbn [getTime]; try (left; reflexivity).
  right. unfold ofZ, nsub, nneg, nadd, ndiv.
  replace (Qeq_bool (inject_Z (1000 * 60 * 60 * 24)) 0) with false by reflexivity.
  apply isInteger_floor.
Qed.

Lemma gapsFrom_integral (P : Platform) (rest : list ActiveDay) :
  forall prev, Forall integralOrNaN (gapsFrom P prev rest).
Proof.
  induction rest as [| c rest IH]; intros prev; cbn [gapsFrom]; constructor.
  - apply dayDiff_integral.
  - apply IH.
Qed.

Lemma Math_max_integral (x y : number) :
  integralOrNaN x -> integralOrNaN y -> integralOrNaN (Math_max x y).
Proof.
  unfold integralOrNaN. intros [-> | Hx] [-> | Hy]; try (left; now destruct x);
    try (left; reflexivity).
  destruct x as [a | | |], y as [b | | |]; try discriminate.
  right. unfold Math_max. destruct (nleb (Fin a) (Fin b)); assumption.
Qed.

Lemma fold_Math_max_integral (l : list number) :
  forall acc, integralOrNaN acc -> Forall integralOrNaN l ->
  integralOrNaN (fold_left Math_max l acc).
Proof.
  induction l as [| y l IH]; intros acc Ha F; cbn [fold_left]; [exact Ha |].
  inversion F; subst. apply IH; [now apply Math_max_integral | assumption].
Qed.

Lemma Math_max_spread_integral (l : list number) :
  l <> [] -> Forall integralOrNaN l -> integralOrNaN (Math_max_spread l).
Proof.
  destruct l as [| x l]; intros N F; [contradiction |].
  inversion F as [| ? ? Hx F']; subst. unfold Math_max_spread. cbn [fold_left].
  apply fold_Math_max_integral; [| exact F'].
  destruct Hx as [-> | Hx]; [now left |]. destruct x; try discriminate. now right.
Qed.

(** [longestGap] and [daysSinceLastSession], the two numbers of the
    metadata that are not counts and that [generateExplanations]
    interpolates, are integers or NaN. *)
Lemma interpolated_numbers_integral (P : Platform) (days : list ActiveDay) (ref : JSDate)
  (tz : string) (m : ConsistencyMetadata) :
  calculateMetadata P days ref tz = Ok m ->
  integralOrNaN (longestGap m) /\ integralOrNaN (daysSinceLastSession m).
Proof.
  unfold calculateMetadata. destruct days as [| d days]; intros H.
  - inversion H. split; right; reflexivity.
  - destruct (toLocalDateString P ref tz) as [k |]; cbn [bind] in H; [| discriminate].
    inversion H; subst m; clear H. cbn [longestGap daysSinceLastSession]. split.
    + cbn [gapsOf]. destruct days as [| c days]; [right; reflexivity |].
      replace (0 <? Z.of_nat (List.length (gapsFrom P d (c :: days)))) with true
        by (cbn [gapsFrom List.length]; symmetry; apply Z.ltb_lt; lia).
      apply Math_max_spread_integral; [discriminate | apply gapsFrom_integral].
    + destruct (newDate P k) as [tr |], (newDate P (date (last days d))) as [tl |];
        cbn [getTime]; try (left; reflexivity).
      right. unfold ofZ, nsub, nneg, nadd, ndiv.
      replace (Qeq_bool (inject_Z (1000 * 60 * 60 * 24)) 0) with false by reflexivity.
      apply isInteger_floor.
Qed.

(** ** Where the walk and the chart follow the civil calendar *)

Lemma Ok_inj {A : Type} (a b : A) : Ok a = Ok b -> a = b.
Proof. congruence. Qed.

Lemma Day_shift (t i : Z) : Day (t - i * msPerDay) = Day t - i.
Proof. unfold Day, msPerDay. divmod. Qed.

Lemma Day_of_midnight (d o : Z) : 0 <= o < msPerDay -> Day (d * msPerDay + o) = d.
Proof. unfold Day, msPerDay. intros; divmod. Qed.

Lemma Day_midnight (d : Z) : Day (d * msPerDay) = d.
Proof. unfold Day, msPerDay. divmod. Qed.

Lemma chartInstant_fixed_host (P : Platform) (h t i : Z) :
  (forall u, hostOffsetAtUTC P u = h) -> (forall u, hostOffsetAtLocal P u = h) ->
  chartInstant P t i = t - i * msPerDay.
Proof. intros H1 H2. unfold chartInstant, UTC, LocalTime. rewrite H1, H2. lia. Qed.

(** On a host with a constant offset, in a zone with a constant offset
    between 0 and 24 hours, the loop of [calculateStreakBonus] started at
    UTC midnight of a civil day is the walk of the specification. *)
Lemma streakWalk_civil (P : Platform) (has : string -> bool) (tz : string)
  (off : Z -> Z) (o h : Z) (steps : nat) :
  zoneOffset P tz = Some off -> (forall u, off u = o) -> 0 <= o < msPerDay ->
  (forall u, hostOffsetAtUTC P u = h) -> (forall u, hostOffsetAtLocal P u = h) ->
  forall streak day s,
    streakWalk P has tz steps streak (Valid (day * msPerDay)) = Ok s ->
    s = specStreakWalk (fun d => has (civilDayString d)) steps streak day.
Proof.
  intros Hz Ho Hr H1 H2. induction steps as [| n IH]; intros streak day s H;
    cbn [streakWalk specStreakWalk] in *; [now injection H |].
  destruct (toLocalDateString P (Valid (day * msPerDay)) tz) as [k |] eqn:D;
    cbn [bind] in H; [| discriminate].
  apply toLocalDateString_inv in D. destruct D as (off' & t' & Hz' & Et & _ & ->).
  rewrite Hz in Hz'. injection Hz' as <-. injection Et as <-.
  rewrite setDate_back, (chartInstant_fixed_host P h _ _ H1 H2) in H.
  replace (day * msPerDay - 1 * msPerDay) with ((day - 1) * msPerDay) in H by lia.
  rewrite Ho in H.
  rewrite (formatCivil_same_day (day * msPerDay + o) (day * msPerDay)) in H
    by (rewrite Day_of_midnight by assumption; symmetry; apply Day_midnight).
  fold (civilDayString day) in H.
  destruct (has (civilDayString day)); [now apply IH |].
  destruct (streak >? 0); [now injection H | now apply IH].
Qed.

(** There the streak bonus of the code is the one of the specification. *)
Lemma calculateStreakBonus_civil (P : Platform) (days : list ActiveDay) (tz : string)
  (off : Z -> Z) (o h t : Z) (x : number) :
  days <> [] ->
  zoneOffset P tz = Some off -> (forall u, off u = o) -> 0 <= o < msPerDay ->
  (forall u, hostOffsetAtUTC P u = h) -> (forall u, hostOffsetAtLocal P u = h) ->
  fourDigitYear (t + off t) = true ->
  calculateStreakBonus P days (Valid t) tz = Ok x ->
  x = specStreakBonus days off t.
Proof.
  intros N Hz Ho Hr H1 H2 R H. unfold calculateStreakBonus in H. unfold specStreakBonus.
  destruct days as [| d days]; [contradiction |].
  replace (Z.of_nat (List.length (d :: days)) =? 0) with false in H
    by (symmetry; apply Z.eqb_neq; cbn [List.length]; lia).
  destruct (toLocalDateString P (Valid t) tz) as [k |] eqn:D; cbn [bind] in H; [| discriminate].
  apply toLocalDateString_inv in D. destruct D as (off' & t' & Hz' & Et & _ & ->).
  rewrite Hz in Hz'. injection Hz' as <-. injection Et as <-.
  rewrite (newDate_formatCivil P _ R) in H.
  destruct (streakWalk P _ tz _ 0 _) as [s |] eqn:W; cbn [bind] in H; [| discriminate].
  apply (streakWalk_civil P _ tz off o h _ Hz Ho Hr H1 H2) in W. subst s.
  apply Ok_inj in H. symmetry. exact H.
Qed.

(** On a host and in a zone with constant offsets the chart carries the
    civil dates of the window, oldest first. *)
Lemma chart_dates_civil (P : Platform) (days : list ActiveDay) (tz : string)
  (off : Z -> Z) (o h t : Z) (chart : list DayActivity) :
  zoneOffset P tz = Some off -> (forall u, off u = o) ->
  (forall u, hostOffsetAtUTC P u = h) -> (forall u, hostOffsetAtLocal P u = h) ->
  generateChartData P days (Valid t) tz = Ok chart ->
  map chartDate chart = specChartDates off t.
Proof.
  intros Hz Ho H1 H2 G. apply (generateChartData_value P days tz off t chart Hz) in G.
  destruct G as [_ ->]. unfold specChartDates. rewrite map_map.
  apply map_ext. intros i. unfold chartEntryAt. cbn [chartDate].
  rewrite (chartInstant_fixed_host P h t i H1 H2), !Ho. unfold civilDayString.
  apply formatCivil_same_day.
  replace (t - i * msPerDay + o) with (t + o - i * msPerDay) by lia.
  rewrite Day_shift. symmetry. apply Day_midnight.
Qed.

Lemma Map_set_absent {V : Type} (m : JSMap V) (k : string) (v : V) :
  Map_get m k = None -> Map_set m k v = m ++ [(k, v)].
Proof.
  induction m as [| [k' w] m IH]; cbn [Map_get Map_set app]; intros H; [reflexivity |].
  destruct (String.eqb k' k); [discriminate | now rewrite IH].
Qed.

Lemma Map_get_absent {V : Type} (m : JSMap V) (k : string) :
  ~ In k (map fst m) -> Map_get m k = None.
Proof.
  induction m as [| [k' w] m IH]; cbn [Map_get map fst]; intros H; [reflexivity |].
  destruct (String.eqb k' k) eqn:E.
  - apply String.eqb_eq in E. exfalso. apply H. now left.
  - apply IH. intros I. apply H. now right.
Qed.

Lemma Map_of_distinct {V : Type} (es : list (string * V)) :
  forall m, NoDup (map fst (m ++ es)) ->
  fold_left (fun m kv => Map_set m (fst kv) (snd kv)) es m = m ++ es.
Proof.
  induction es as [| [k v] es IH]; intros m N; cbn [fold_left fst snd].
  - now rewrite app_nil_r.
  - rewrite Map_set_absent.
    + rewrite IH; rewrite <- app_assoc; [reflexivity | exact N].
    + apply Map_get_absent. rewrite map_app in N. cbn [map fst] in N.
      apply NoDup_remove_2 in N. intros I. apply N. apply in_or_app. now left.
Qed.

Lemma Map_get_find (days : list ActiveDay) (k : string) :
  Map_get (map (fun d => (date d, d)) days) k
  = find (fun d => String.eqb (date d) k) days.
Proof.
  induction days as [| d days IH]; cbn [map Map_get find]; [reflexivity |].
  now destruct (String.eqb (date d) k).
Qed.

(** Every chart entry reports the bucket of its date. *)
Lemma chart_reports_buckets (P : Platform) (days : list ActiveDay) (tz : string)
  (off : Z -> Z) (t : Z) (chart : list DayActivity) :
  NoDup (map date days) -> zoneOffset P tz = Some off ->
  generateChartData P days (Valid t) tz = Ok chart ->
  List.length chart = 28%nat /\ Forall (reportsBucket days) chart.
Proof.
  intros N Hz G. apply (generateChartData_value P days tz off t chart Hz) in G.
  destruct G as [_ ->]. split.
  - now rewrite length_map, countdown_length.
  - apply Forall_forall. intros e He. apply in_map_iff in He. destruct He as (i & <- & _).
    unfold reportsBucket, chartEntryAt, Map_of, Map_has. cbn [chartDate hasActivity chartSessionCount].
    rewrite (Map_of_distinct _ []) by (cbn [app]; now rewrite map_map).
    cbn [app]. rewrite Map_get_find.
    destruct (find _ days); split; reflexivity.
Qed.

(** * Further properties of the engine *)

(** ** The buckets *)

Lemma groupSessionsByDay_tally (P : Platform) (ss : list Session) (tz : string)
  (days : list ActiveDay) :
  groupSessionsByDay P ss tz = Ok days ->
  exists dates, sessionDates P tz ss = Ok dates
    /\ Permutation (map observe days) (tally dates).
Proof.
  intros G. pose proof (groupSessionsByDay_observe P ss tz) as O.
  destruct (sessionDates P tz ss) as [dates |]; [| congruence].
  destruct O as (days' & G' & O). rewrite G in G'. apply Ok_inj in G'. subst days'.
  exists dates. split; [reflexivity |]. rewrite O. apply (Array_sort_perm fst).
Qed.

Lemma sessionDates_complete (P : Platform) (tz : string) (ss : list Session) :
  forall dates s, sessionDates P tz ss = Ok dates -> In s ss ->
  exists k, toLocalDateString P (timestamp s) tz = Ok k /\ In k dates.
Proof.
  induction ss as [| s0 ss IH]; intros dates s H Hin; [contradiction |].
  cbn [sessionDates] in H.
  destruct (toLocalDateString P (timestamp s0) tz) as [k0 | e] eqn:D; cbn [bind] in H;
    [| discriminate].
  destruct (sessionDates P tz ss) as [ks | e]; cbn [bind] in H; [| discriminate].
  apply Ok_inj in H. subst dates. destruct Hin as [<- | Hin].
  - exists k0. split; [exact D | now left].
  - destruct (IH ks s eq_refl Hin) as (k & Dk & Ik). exists k. split; [exact Dk | now right].
Qed.

Lemma In_occurrences (k : string) (dates : list string) :
  In k dates -> 0 < occurrences k dates.
Proof. unfold occurrences. intros H. apply (count_occ_In string_dec) in H. lia. Qed.

(** X1: the buckets come out strictly ascending by date string, so no date
    occurs twice; every bucket counts at least one session and carries the
    date string of one; and every session is counted in the bucket of its
    date string. *)
Theorem X1_buckets_sorted_and_complete (P : Platform) (ss : list Session) (tz : string)
  (days : list ActiveDay) :
  groupSessionsByDay P ss tz = Ok days ->
  StronglySorted (keyLt date) days
  /\ NoDup (map date days)
  /\ Forall (fun d => 1 <= sessionCount d) days
  /\ (forall d, In d days ->
        exists s, In s ss /\ toLocalDateString P (timestamp s) tz = Ok (date d))
  /\ (forall s, In s ss ->
        exists d, In d days /\ toLocalDateString P (timestamp s) tz = Ok (date d)).
Proof.
  intros G. destruct (groupSessionsByDay_sorted P ss tz days G) as [Sorted From].
  destruct (groupSessionsByDay_tally P ss tz days G) as (dates & D & Pm).
  split; [exact Sorted |]. split; [now apply keyLt_NoDup |]. split; [| split; [exact From |]].
  - apply Forall_forall. intros d Hd.
    assert (I : In (observe d) (tally dates))
      by (eapply Permutation_in; [exact Pm | now apply in_map]).
    apply tally_In in I. lia.
  - intros s Hs. destruct (sessionDates_complete P tz ss dates s D Hs) as (k & Dk & Ik).
    assert (I : In (k, occurrences k dates) (map observe days)).
    { eapply Permutation_in; [apply Permutation_sym, Pm |].
      apply tally_In. split; [reflexivity | now apply In_occurrences]. }
    apply in_map_iff in I. destruct I as (d & Ed & Id).
    apply observe_inv' in Ed. destruct Ed as [Ek _].
    exists d. split; [exact Id | now rewrite Ek].
Qed.

Lemma X1_witness :
  exists days,
    groupSessionsByDay utcHost (sessions scenarioA) "UTC" = Ok days
    /\ StronglySorted (keyLt date) days
    /\ NoDup (map date days)
    /\ Forall (fun d => 1 <= sessionCount d) days
    /\ (forall d, In d days ->
          exists s, In s (sessions scenarioA)
            /\ toLocalDateString utcHost (timestamp s) "UTC" = Ok (date d))
    /\ (forall s, In s (sessions scenarioA) ->
          exists d, In d days /\ toLocalDateString utcHost (timestamp s) "UTC" = Ok (date d)).
Proof.
  eexists.
  assert (G : groupSessionsByDay utcHost (sessions scenarioA) "UTC" = Ok _)
    by (vm_compute; reflexivity).
  split; [exact G |].
  exact (X1_buckets_sorted_and_complete utcHost (sessions scenarioA) "UTC" _ G).
Defined.

(** ** Counts in the metadata *)

Lemma totalCount_lower (t : list (string * Z)) :
  Forall (fun kc => 0 < snd kc) t -> Z.of_nat (List.length t) <= totalCount t.
Proof.
  induction 1 as [| [k c] t Hc F IH]; [cbn; lia |].
  rewrite totalCount_cons. cbn [List.length snd] in *. lia.
Qed.

Lemma tally_positive (dates : list string) : Forall (fun kc => 0 < snd kc) (tally dates).
Proof.
  apply Forall_forall. intros [k c] H. apply tally_In in H. cbn. lia.
Qed.

(** X3: whenever the call returns, [totalSessions] is the number of sessions
    of the input, [activeDays] is at most [totalSessions], and it is at
    least 1 as soon as there is a session. *)
Theorem X3_active_days_at_most_sessions (P : Platform) (input : ScoreInput)
  (r : ConsistencyScore) :
  calculateConsistencyScore P input = Ok r ->
  totalSessions (metadata r) = Z.of_nat (List.length (sessions input))
  /\ 0 <= activeDays (metadata r) <= totalSessions (metadata r)
  /\ (sessions input <> [] -> 1 <= activeDays (metadata r)).
Proof.
  intros H.
  destruct (calculateConsistencyScore_inv P input r H)
    as (days & m & streak & chart & G & M & _ & _ & Em & _).
  rewrite Em.
  destruct (groupSessionsByDay_tally P _ _ days G) as (dates & D & Pm).
  destruct (sessionsOn_occurrences P (zoneOf input) EmptyString _ dates D) as [_ Len].
  pose proof (calculateMetadata_totalSessions P days _ _ m M) as T.
  pose proof (calculateMetadata_activeDays P days _ _ m M) as A.
  rewrite (totalCount_perm _ _ Pm), totalCount_tally, Len in T.
  pose proof (totalCount_lower _ (tally_positive dates)) as L.
  rewrite totalCount_tally, <- (Permutation_length Pm), length_map, Len in L.
  rewrite T, A. split; [reflexivity |]. split; [lia |].
  intros N. destruct (sessions input) as [| s ss] eqn:E; [contradiction |].
  destruct days as [| d days]; [| cbn [List.length]; lia].
  apply Permutation_nil in Pm. cbn [sessionDates] in D.
  destruct (toLocalDateString P (timestamp s) (zoneOf input)) as [k |]; cbn [bind] in D;
    [| discriminate].
  destruct (sessionDates P (zoneOf input) ss) as [ks |]; cbn [bind] in D; [| discriminate].
  apply Ok_inj in D. subst dates.
  assert (I : In (k, occurrences k (k :: ks)) (tally (k :: ks)))
    by (apply tally_In; split; [reflexivity | apply In_occurrences; now left]).
  rewrite Pm in I. contradiction.
Qed.

Lemma X3_witness :
  exists r,
    calculateConsistencyScore utcHost
      (inputAt (sameInstantTwice ++ [daysAgo 3]) noon "Asia/Tokyo") = Ok r
    /\ totalSessions (metadata r) = 3
    /\ 0 <= activeDays (metadata r) <= totalSessions (metadata r)
    /\ (sameInstantTwice ++ [daysAgo 3] <> [] -> 1 <= activeDays (metadata r)).
Proof.
  eexists.
  assert (H : calculateConsistencyScore utcHost
                (inputAt (sameInstantTwice ++ [daysAgo 3]) noon "Asia/Tokyo") = Ok _)
    by (vm_compute; reflexivity).
  split; [exact H |].
  exact (X3_active_days_at_most_sessions utcHost _ _ H).
Defined.

Lemma streakScan_bounds (P : Platform) (rest : list ActiveDay) :
  forall prev l c, 1 <= c <= l ->
  l <= streakScan P prev rest l c <= Z.max l (c + Z.of_nat (List.length rest)).
Proof.
  induction rest as [| curr rest IH]; intros prev l c H; cbn [streakScan List.length].
  - lia.
  - destruct (nstrictEq (dayDiff P prev curr) (ofZ 1)).
    + specialize (IH curr (Z.max l (c + 1)) (c + 1)). lia.
    + specialize (IH curr l 1). lia.
Qed.

(** X4: for a non-empty list of buckets the longest streak is at least 1
    and at most the number of active days; for the empty list it is 0. *)
Theorem X4_longest_streak_bounds (P : Platform) (days : list ActiveDay) (ref : JSDate)
  (tz : string) (m : ConsistencyMetadata) :
  calculateMetadata P days ref tz = Ok m ->
  (days = [] -> longestStreak m = 0)
  /\ (days <> [] -> 1 <= longestStreak m <= activeDays m).
Proof.
  unfold calculateMetadata. destruct days as [| d days]; intros H.
  - apply Ok_inj in H. subst m. split; [reflexivity | intros N; contradiction].
  - destruct (toLocalDateString P ref tz); cbn [bind] in H; [| discriminate].
    apply Ok_inj in H. subst m. cbn [longestStreak activeDays]. split; [discriminate |].
    intros _. pose proof (streakScan_bounds P days d 1 1 ltac:(lia)) as B.
    cbn [List.length]. lia.
Qed.

Lemma X4_witness :
  exists m,
    calculateMetadata utcHost threeBuckets (Valid noon) "UTC" = Ok m
    /\ threeBuckets <> []
    /\ 1 <= longestStreak m <= activeDays m.
Proof.
  eexists.
  assert (H : calculateMetadata utcHost threeBuckets (Valid noon) "UTC" = Ok _)
    by (vm_compute; reflexivity).
  split; [exact H |].
  assert (N : threeBuckets <> []) by discriminate.
  split; [exact N |].
  exact (proj2 (X4_longest_streak_bounds utcHost threeBuckets _ _ _ H) N).
Defined.

(** ** The recency bonus *)

Lemma nleb_trans (x y z : number) : nleb x y = true -> nleb y z = true -> nleb x z = true.
Proof.
  destruct x as [a | | |], y as [b | | |], z as [c | | |]; cbn; try discriminate; trivial.
  rewrite !Qle_bool_iff. apply Qle_trans.
Qed.

(** X5: the recency bonus never grows with the number of days since the
    last session: a history whose last session is at least as recent gets
    at least as many points.  It is one of 5, 3, 1 and 0, and 0 when the
    number of days is NaN. *)
Theorem X5_recency_bonus_is_antitone (m1 m2 : ConsistencyMetadata) :
  nleb (daysSinceLastSession m1) (daysSinceLastSession m2) = true ->
  nleb (calculateRecencyBonus m2) (calculateRecencyBonus m1) = true
  /\ In (calculateRecencyBonus m1) [ofZ 5; ofZ 3; ofZ 1; ofZ 0]
  /\ (forall m, daysSinceLastSession m = NaN -> calculateRecencyBonus m = ofZ 0).
Proof.
  intros H. split; [| split].
  - unfold calculateRecencyBonus.
    destruct (nleb (daysSinceLastSession m2) (ofZ 1)) eqn:E1.
    { now rewrite (nleb_trans _ _ _ H E1). }
    destruct (nleb (daysSinceLastSession m2) (ofZ 3)) eqn:E3.
    { rewrite (nleb_trans _ _ _ H E3). now destruct (nleb (daysSinceLastSession m1) (ofZ 1)). }
    destruct (nleb (daysSinceLastSession m2) (ofZ 7)) eqn:E7.
    { rewrite (nleb_trans _ _ _ H E7).
      now destruct (nleb (daysSinceLastSession m1) (ofZ 1)),
                   (nleb (daysSinceLastSession m1) (ofZ 3)). }
    now destruct (nleb (daysSinceLastSession m1) (ofZ 1)),
                 (nleb (daysSinceLastSession m1) (ofZ 3)),
                 (nleb (daysSinceLastSession m1) (ofZ 7)).
  - unfold calculateRecencyBonus.
    destruct (nleb _ (ofZ 1)); [cbn; auto |].
    destruct (nleb _ (ofZ 3)); [cbn; auto |].
    destruct (nleb _ (ofZ 7)); cbn; auto.
  - intros m E. unfold calculateRecencyBonus. now rewrite E.
Qed.

Lemma X5_witness :
  nleb (daysSinceLastSession scenarioA_metadata) (daysSinceLastSession emptyMetadata) = true
  /\ nleb (calculateRecencyBonus emptyMetadata) (calculateRecencyBonus scenarioA_metadata)
     = true.
Proof.
  split; [reflexivity |].
  exact (proj1 (X5_recency_bonus_is_antitone scenarioA_metadata emptyMetadata eq_refl)).
Defined.

(** ** The explanations *)

Lemma firstn_all_short {A : Type} (n : nat) (l : list A) :
  (List.length l <= n)%nat -> firstn n l = l.
Proof. intros H. now apply firstn_all2. Qed.

(** X6: the explanations are between 1 and 5 bullets; the first one is
    always the frequency bullet; and a longest gap above 7 days always ends
    the list with its bullet: at most four bullets precede it, so neither the
    length guard nor the final [slice(0, 5)] ever drops one. *)
Theorem X6_explanations_shape (m : ConsistencyMetadata) (b : ScoreBreakdown) :
  (1 <= List.length (generateExplanations m b) <= 5)%nat
  /\ hd_error (generateExplanations m b) = Some (frequencyBullet (activeDays m))
  /\ (ngtb (longestGap m) (ofZ 7) = true ->
      last (generateExplanations m b) EmptyString = gapBullet (longestGap m)).
Proof.
  unfold generateExplanations. fold (frequencyBullet (activeDays m)).
  fold (gapBullet (longestGap m)).
  destruct (activeDays m >=? 2);
    [destruct (ngeb _ (ofZ 75)); [| destruct (ngeb _ (ofZ 50))] |];
    destruct (longestStreak m >? 1);
    destruct (nleb (daysSinceLastSession m) (ofZ 3));
    destruct (ngtb (longestGap m) (ofZ 7));
    cbn [app List.length];
    repeat match goal with
           | |- context [Z.of_nat ?n <? 5] =>
               let v := eval compute in (Z.of_nat n <? 5) in
               change (Z.of_nat n <? 5) with v
           end;
    cbn [andb app List.length firstn hd_error last];
    (split; [lia |]); (split; [reflexivity |]);
    intros E; (reflexivity || discriminate).
Qed.

Lemma X6_witness :
  ngtb (longestGap scenarioA_metadata) (ofZ 7) = true
  /\ last (generateExplanations scenarioA_metadata scenarioA_breakdown) EmptyString
     = "Longest gap: 10 days"%string.
Proof.
  split; [reflexivity |].
  exact (proj2 (proj2 (X6_explanations_shape scenarioA_metadata scenarioA_breakdown))
               eq_refl).
Defined.

(** ** Date strings *)

Lemma isoString_length (y m d : Z) : String.length (isoString y m d) = 10%nat.
Proof. reflexivity. Qed.

(** X13: in a recognised zone, a date whose civil date has a four-digit
    year is rendered as a string of ten characters, and [new Date] of that
    string is UTC midnight of the civil day: the string holds the civil date
    and nothing of the time of day or the zone. *)
Theorem X13_date_string_round_trip (P : Platform) (tz : string) (off : Z -> Z) (t : Z) :
  zoneOffset P tz = Some off ->
  fourDigitYear (t + off t) = true ->
  exists s, toLocalDateString P (Valid t) tz = Ok s
    /\ String.length s = 10%nat
    /\ newDate P s = Valid (Day (t + off t) * msPerDay).
Proof.
  intros Hz R. exists (formatCivil (t + off t)). split; [| split].
  - now apply toLocalDateString_civil.
  - rewrite formatCivil_iso by exact R. apply isoString_length.
  - now apply newDate_formatCivil.
Qed.

Lemma X13_witness :
  zoneOffset utcHost "Asia/Tokyo" = Some (fun _ => hours 9)
  /\ fourDigitYear (utcTime 2024 6 15 17 0 + hours 9) = true
  /\ exists s, toLocalDateString utcHost (Valid (utcTime 2024 6 15 17 0)) "Asia/Tokyo" = Ok s
       /\ String.length s = 10%nat
       /\ newDate utcHost s = Valid (Day (utcTime 2024 6 15 17 0 + hours 9) * msPerDay).
Proof.
  split; [reflexivity |]. split; [reflexivity |].
  exact (X13_date_string_round_trip utcHost "Asia/Tokyo" (fun _ => hours 9)
           (utcTime 2024 6 15 17 0) eq_refl eq_refl).
Defined.

(** X14: for two dates whose civil dates in the zone have four-digit
    years, the comparator of the bucket sort orders the date strings the way
    the calendar orders the civil days; in particular two dates get the same
    string exactly when they fall on the same civil day. *)
Theorem X14_date_strings_order_like_days (P : Platform) (tz : string) (off : Z -> Z)
  (t1 t2 : Z) (s1 s2 : string) :
  zoneOffset P tz = Some off ->
  fourDigitYear (t1 + off t1) = true -> fourDigitYear (t2 + off t2) = true ->
  toLocalDateString P (Valid t1) tz = Ok s1 ->
  toLocalDateString P (Valid t2) tz = Ok s2 ->
  localeCompare s1 s2 = (Day (t1 + off t1) ?= Day (t2 + off t2))
  /\ (s1 = s2 <-> Day (t1 + off t1) = Day (t2 + off t2)).
Proof.
  intros Hz R1 R2 H1 H2.
  rewrite (toLocalDateString_civil P tz off _ Hz R1) in H1.
  rewrite (toLocalDateString_civil P tz off _ Hz R2) in H2.
  apply Ok_inj in H1, H2. subst s1 s2.
  assert (C : localeCompare (formatCivil (t1 + off t1)) (formatCivil (t2 + off t2))
              = (Day (t1 + off t1) ?= Day (t2 + off t2)))
    by (now apply formatCivil_compare).
  split; [exact C |]. split.
  - intros E. unfold localeCompare in C. rewrite E, compare_refl in C.
    symmetry in C. now apply Z.compare_eq_iff.
  - apply formatCivil_same_day.
Qed.

Lemma X14_witness :
  localeCompare "2024-06-15" "2024-06-16"
  = (Day (utcTime 2024 6 15 14 0 + hours 9) ?= Day (utcTime 2024 6 15 16 0 + hours 9))
  /\ ("2024-06-15"%string = "2024-06-16"%string
      <-> Day (utcTime 2024 6 15 14 0 + hours 9) = Day (utcTime 2024 6 15 16 0 + hours 9)).
Proof.
  exact (X14_date_strings_order_like_days utcHost "Asia/Tokyo" (fun _ => hours 9)
           (utcTime 2024 6 15 14 0) (utcTime 2024 6 15 16 0)
           "2024-06-15" "2024-06-16" eq_refl eq_refl eq_refl eq_refl eq_refl).
Defined.



(** ** When the call fails and when it returns *)

Lemma generateChartData_invalid_reference (P : Platform) (days : list ActiveDay)
  (tz : string) (off : Z -> Z) :
  zoneOffset P tz = Some off ->
  generateChartData P days Invalid tz = Throw RangeError_InvalidTimeValue.
Proof.
  intros Hz. unfold generateChartData.
  change (Z.to_nat WINDOW_DAYS) with (S 27). cbn [chartLoop].
  unfold chartEntry. cbn [setDate]. unfold toLocalDateString. now rewrite Hz.
Qed.

Lemma calculateMetadata_invalid_reference (P : Platform) (d : ActiveDay)
  (days : list ActiveDay) (tz : string) (off : Z -> Z) :
  zoneOffset P tz = Some off ->
  calculateMetadata P (d :: days) Invalid tz = Throw RangeError_InvalidTimeValue.
Proof. intros Hz. unfold calculateMetadata, toLocalDateString. now rewrite Hz. Qed.

(** X16: in a recognised zone, a call whose reference date is the invalid
    date throws the RangeError of [format], whatever the sessions are. *)
Theorem X16_invalid_reference_is_fatal (P : Platform) (input : ScoreInput) (off : Z -> Z) :
  zoneOffset P (zoneOf input) = Some off ->
  referenceDate input = Some Invalid ->
  calculateConsistencyScore P input = Throw RangeError_InvalidTimeValue.
Proof.
  intros Hz Hr. rewrite calculateConsistencyScore_split.
  unfold referenceOf. rewrite Hr.
  pose proof (groupSessionsByDay_observe P (sessions input) (zoneOf input)) as G.
  rewrite (sessionDates_known_zone P _ off _ Hz) in G.
  destruct (forallb (fun s => validDate (timestamp s)) (sessions input)).
  - destruct G as (days & -> & _). cbn [bind]. unfold scoreDays.
    destruct days as [| d days].
    + cbn [calculateMetadata bind]. unfold calculateStreakBonus.
      cbn [List.length Z.of_nat Z.eqb bind].
      now rewrite (generateChartData_invalid_reference P [] _ off Hz).
    + now rewrite (calculateMetadata_invalid_reference P d days _ off Hz).
  - now rewrite G.
Qed.

Lemma X16_witness :
  calculateConsistencyScore utcHost
    {| sessions := [daysAgo 1]; referenceDate := Some Invalid; timezone := None |}
  = Throw RangeError_InvalidTimeValue.
Proof.
  exact (X16_invalid_reference_is_fatal utcHost
           {| sessions := [daysAgo 1]; referenceDate := Some Invalid; timezone := None |}
           (fun _ => 0) eq_refl eq_refl).
Defined.

(** One step of [setDate] on the calendar of the host moves an instant by
    the days asked for and by at most two days more. *)
Lemma chartInstant_near (P : Platform) (t i : Z) :
  Z.abs (chartInstant P t i - (t - i * msPerDay)) <= 2 * msPerDay.
Proof.
  unfold chartInstant, UTC, LocalTime.
  pose proof (proj1 (hostOffset_bounded P t)) as B1.
  pose proof (proj2 (hostOffset_bounded P (t + hostOffsetAtUTC P t - i * msPerDay))) as B2.
  lia.
Qed.

Lemma chartInRange_margin (P : Platform) (t : Z) (n : nat) :
  Z.abs t + (Z.of_nat n + 2) * msPerDay <= maxTime -> chartInRange P t n = true.
Proof.
  intros B. unfold chartInRange. apply forallb_forall. intros i Hi.
  unfold countdown in Hi. apply in_map_iff in Hi. destruct Hi as (k & <- & Hk).
  apply in_rev, in_seq in Hk. apply timeInRange_spec.
  pose proof (chartInstant_near P t (Z.of_nat k)) as N. unfold msPerDay in *. nia.
Qed.

Lemma streakWalk_returns (P : Platform) (has : string -> bool) (tz : string)
  (off : Z -> Z) (steps : nat) :
  zoneOffset P tz = Some off ->
  forall streak t, Z.abs t + Z.of_nat steps * (3 * msPerDay) <= maxTime ->
  exists s, streakWalk P has tz steps streak (Valid t) = Ok s.
Proof.
  intros Hz. induction steps as [| n IH]; intros streak t B; cbn [streakWalk]; [eauto |].
  assert (R : timeInRange t = true) by (apply timeInRange_spec; unfold msPerDay in *; lia).
  rewrite (toLocalDateString_ok P tz off t Hz R). cbn [bind]. rewrite setDate_back.
  assert (B' : Z.abs (chartInstant P t 1) + Z.of_nat n * (3 * msPerDay) <= maxTime).
  { pose proof (chartInstant_near P t 1) as N. unfold msPerDay in *. lia. }
  destruct (has _); [now apply IH |]. destruct (streak >? 0); [eauto | now apply IH].
Qed.

Lemma scoreDays_returns (P : Platform) (days : list ActiveDay) (tz : string)
  (off : Z -> Z) (t : Z) :
  zoneOffset P tz = Some off -> fourDigitYear (t + off t) = true ->
  exists r, scoreDays P days (Valid t) tz = Ok r.
Proof.
  intros Hz R. unfold scoreDays.
  pose proof (toLocalDateString_civil P tz off t Hz R) as F.
  pose proof (fourDigitYear_bounds _ R) as B.
  pose proof (zoneOffset_bounded P tz off t Hz) as Bo.
  assert (M : exists m, calculateMetadata P days (Valid t) tz = Ok m).
  { unfold calculateMetadata. destruct days; [eauto |].
    rewrite F. cbn [bind]. eauto. }
  destruct M as (m & ->). cbn [bind].
  assert (S : exists x, calculateStreakBonus P days (Valid t) tz = Ok x).
  { unfold calculateStreakBonus. destruct (Z.of_nat (List.length days) =? 0); [eauto |].
    rewrite F. cbn [bind].
    rewrite (newDate_formatCivil P _ R).
    destruct (streakWalk_returns P (activeDaySet_has days) _ off (Z.to_nat WINDOW_DAYS) Hz 0
                (Day (t + off t) * msPerDay)) as (s & ->).
    - change (Z.of_nat (Z.to_nat WINDOW_DAYS)) with 28.
      clear - B. unfold maxTime, Day, msPerDay. divmod.
    - cbn [bind]. eauto. }
  destruct S as (x & ->). cbn [bind].
  rewrite (generateChartData_ok P days _ off t Hz). { cbn [bind]. eauto. }
  apply chartInRange_margin. change (Z.of_nat (Z.to_nat WINDOW_DAYS)) with 28.
  unfold maxTime, msPerDay in *. lia.
Qed.

Lemma groupSessionsByDay_returns (P : Platform) (ss : list Session) (tz : string)
  (off : Z -> Z) :
  zoneOffset P tz = Some off ->
  Forall (fun s => validDate (timestamp s) = true) ss ->
  exists days, groupSessionsByDay P ss tz = Ok days.
Proof.
  intros Hz Hv. pose proof (groupSessionsByDay_observe P ss tz) as G.
  rewrite (sessionDates_known_zone P _ off _ Hz) in G.
  replace (forallb (fun s => validDate (timestamp s)) ss) with true in G
    by (symmetry; apply forallb_forall; now apply Forall_forall).
  destruct G as (days & G & _). eauto.
Qed.

(** X17: the call returns a result, and throws nothing, on every input
    with a recognised zone, valid session timestamps and a valid reference
    date whose civil date has a four-digit year. *)
Theorem X17_well_formed_input_returns (P : Platform) (input : ScoreInput)
  (off : Z -> Z) (t : Z) :
  zoneOffset P (zoneOf input) = Some off ->
  Forall (fun s => validDate (timestamp s) = true) (sessions input) ->
  referenceOf P input = Valid t ->
  fourDigitYear (t + off t) = true ->
  exists r, calculateConsistencyScore P input = Ok r.
Proof.
  intros Hz Hv Hr R. rewrite calculateConsistencyScore_split, Hr.
  destruct (groupSessionsByDay_returns P _ _ off Hz Hv) as (days & ->). cbn [bind].
  now apply (scoreDays_returns P days _ off t).
Qed.

Lemma X17_witness : exists r, calculateConsistencyScore utcHost scenarioA = Ok r.
Proof.
  apply (X17_well_formed_input_returns utcHost scenarioA (fun _ => 0) noon).
  - reflexivity.
  - repeat constructor.
  - reflexivity.
  - reflexivity.
Defined.

(** ** The chart and the walk, in terms of the sessions *)

Lemma generateChartData_inv (P : Platform) (days : list ActiveDay) (ref : JSDate)
  (tz : string) (chart : list DayActivity) :
  generateChartData P days ref tz = Ok chart ->
  exists off t, zoneOffset P tz = Some off /\ ref = Valid t.
Proof.
  unfold generateChartData. change (Z.to_nat WINDOW_DAYS) with (S 27). cbn [chartLoop].
  unfold chartEntry, toLocalDateString.
  destruct (zoneOffset P tz) as [off |]; [| discriminate].
  destruct ref as [t |]; [eauto | discriminate].
Qed.

(** The bucket of a date string holds the number of sessions on that date,
    and there is no bucket when there is no such session. *)
Lemma find_bucket (P : Platform) (ss : list Session) (tz k : string)
  (days : list ActiveDay) :
  groupSessionsByDay P ss tz = Ok days ->
  match find (fun d => String.eqb (date d) k) days with
  | Some a => sessionCount a = sessionsOn P tz k ss /\ 1 <= sessionsOn P tz k ss
  | None => sessionsOn P tz k ss = 0
  end.
Proof.
  intros G. destruct (groupSessionsByDay_tally P ss tz days G) as (dates & D & Pm).
  destruct (sessionsOn_occurrences P tz k ss dates D) as [-> _].
  destruct (find _ days) as [a |] eqn:F.
  - apply find_some in F. destruct F as [Ia Ea]. apply String.eqb_eq in Ea.
    assert (I : In (observe a) (tally dates))
      by (eapply Permutation_in; [exact Pm | now apply in_map]).
    unfold observe in I. rewrite Ea in I. apply tally_In in I. lia.
  - destruct (Z.eq_dec (occurrences k dates) 0) as [E | N]; [exact E |].
    pose proof (occurrences_nonneg k dates) as Nn.
    assert (I : In (k, occurrences k dates) (map observe days)).
    { eapply Permutation_in; [apply Permutation_sym, Pm |]. apply tally_In. lia. }
    apply in_map_iff in I. destruct I as (d & Ed & Id). apply observe_inv' in Ed.
    destruct Ed as [Ek _]. pose proof (find_none _ _ F d Id) as C. cbn beta in C.
    rewrite Ek, String.eqb_refl in C. discriminate.
Qed.

(** X7: whenever the call returns, the chart has 28 entries, and each entry
    shows the number of sessions that fall on its date string in the zone
    and is active exactly when that number is positive. *)
Theorem X7_chart_entries_count_the_sessions (P : Platform) (input : ScoreInput)
  (r : ConsistencyScore) :
  calculateConsistencyScore P input = Ok r ->
  List.length (chartData r) = 28%nat
  /\ Forall (fun e =>
       chartSessionCount e = sessionsOn P (zoneOf input) (chartDate e) (sessions input)
       /\ hasActivity e = (0 <? chartSessionCount e)) (chartData r).
Proof.
  intros H.
  destruct (calculateConsistencyScore_inv P input r H)
    as (days & m & streak & chart & G & _ & _ & C & _ & Ec & _).
  rewrite Ec.
  destruct (generateChartData_inv P days _ _ chart C) as (off & t & Hz & Hr).
  rewrite Hr in C.
  destruct (groupSessionsByDay_sorted P _ _ days G) as [Sorted _].
  destruct (chart_reports_buckets P days _ off t chart (keyLt_NoDup date days Sorted) Hz C)
    as [L F].
  split; [exact L |].
  eapply Forall_impl; [| exact F]. intros e Re. unfold reportsBucket in Re.
  pose proof (find_bucket P (sessions input) (zoneOf input) (chartDate e) days G) as B.
  destruct (find _ days) as [a |].
  - destruct Re as [-> ->]. destruct B as [-> B]. split; [reflexivity |].
    symmetry. apply Z.ltb_lt. lia.
  - destruct Re as [-> ->]. now rewrite B.
Qed.

Lemma X7_witness :
  exists r,
    calculateConsistencyScore utcHost scenarioA = Ok r
    /\ List.length (chartData r) = 28%nat
    /\ Forall (fun e =>
         chartSessionCount e = sessionsOn utcHost (zoneOf scenarioA) (chartDate e)
                                 (sessions scenarioA)
         /\ hasActivity e = (0 <? chartSessionCount e)) (chartData r).
Proof.
  eexists.
  assert (H : calculateConsistencyScore utcHost scenarioA = Ok _) by (vm_compute; reflexivity).
  split; [exact H |].
  exact (X7_chart_entries_count_the_sessions utcHost scenarioA _ H).
Defined.

(** X8: on a host with a constant offset and in a zone with a constant
    offset, the chart of a returned call carries the 28 consecutive civil
    dates that end with the civil date of the reference instant, oldest
    first. *)
Theorem X8_chart_dates_with_constant_offsets (P : Platform) (input : ScoreInput)
  (r : ConsistencyScore) (off : Z -> Z) (o h t : Z) :
  zoneOffset P (zoneOf input) = Some off -> (forall u, off u = o) ->
  (forall u, hostOffsetAtUTC P u = h) -> (forall u, hostOffsetAtLocal P u = h) ->
  referenceOf P input = Valid t ->
  calculateConsistencyScore P input = Ok r ->
  map chartDate (chartData r)
  = map (fun i => civilDayString (Day (t + o) - i)) (countdown 28).
Proof.
  intros Hz Ho H1 H2 Hr H.
  destruct (calculateConsistencyScore_inv P input r H)
    as (days & m & streak & chart & _ & _ & _ & C & _ & Ec & _).
  rewrite Ec. rewrite Hr in C.
  rewrite (chart_dates_civil P days _ off o h t chart Hz Ho H1 H2 C).
  unfold specChartDates. now rewrite Ho.
Qed.

Lemma X8_witness :
  exists r,
    calculateConsistencyScore utcHost scenarioA = Ok r
    /\ map chartDate (chartData r)
       = map (fun i => civilDayString (Day (noon + 0) - i)) (countdown 28).
Proof.
  eexists.
  assert (H : calculateConsistencyScore utcHost scenarioA = Ok _) by (vm_compute; reflexivity).
  split; [exact H |].
  exact (X8_chart_dates_with_constant_offsets utcHost scenarioA _ (fun _ => 0) 0 0 noon
           eq_refl (fun _ => eq_refl) (fun _ => eq_refl) (fun _ => eq_refl) eq_refl H).
Defined.

Lemma specStreakWalk_ext (f g : Z -> bool) (steps : nat) :
  (forall d, f d = g d) ->
  forall c day, specStreakWalk f steps c day = specStreakWalk g steps c day.
Proof.
  intros E. induction steps as [| n IH]; intros c day; cbn [specStreakWalk]; [reflexivity |].
  rewrite E. destruct (g day); [apply IH |]. destruct (c >? 0); [reflexivity | apply IH].
Qed.

Lemma specStreakWalk_inactive (f : Z -> bool) (steps : nat) :
  (forall d, f d = false) -> forall day, specStreakWalk f steps 0 day = 0.
Proof.
  intros E. induction steps as [| n IH]; intros day; cbn [specStreakWalk]; [reflexivity |].
  rewrite E. cbn. apply IH.
Qed.

Lemma activeDaySet_has_find (days : list ActiveDay) (k : string) :
  activeDaySet_has days k
  = match find (fun d => String.eqb (date d) k) days with
    | Some _ => true
    | None => false
    end.
Proof.
  unfold activeDaySet_has. induction days as [| d days IH]; cbn [existsb find]; [reflexivity |].
  now destruct (String.eqb (date d) k).
Qed.

Lemma activeDaySet_has_sessionsOn (P : Platform) (ss : list Session) (tz k : string)
  (days : list ActiveDay) :
  groupSessionsByDay P ss tz = Ok days ->
  activeDaySet_has days k = (0 <? sessionsOn P tz k ss).
Proof.
  intros G. rewrite activeDaySet_has_find.
  pose proof (find_bucket P ss tz k days G) as B.
  destruct (find _ days).
  - symmetry. apply Z.ltb_lt. lia.
  - now rewrite B.
Qed.

(** X9: on a host with a constant offset, in a zone whose constant offset is
    between 0 and 24 hours ahead of UTC, and for a reference date with a
    four-digit year, the streak bonus of a returned call is
    [min(2 * streak, 10)], where [streak] counts the active civil days met
    walking back from the civil date of the reference instant for up to 28
    days: inactive days are passed while the count is 0 and the first
    inactive day after an active one ends the walk. *)
Theorem X9_streak_bonus_east_of_greenwich (P : Platform) (input : ScoreInput)
  (r : ConsistencyScore) (off : Z -> Z) (o h t : Z) :
  zoneOffset P (zoneOf input) = Some off -> (forall u, off u = o) -> 0 <= o < msPerDay ->
  (forall u, hostOffsetAtUTC P u = h) -> (forall u, hostOffsetAtLocal P u = h) ->
  referenceOf P input = Valid t ->
  fourDigitYear (t + o) = true ->
  calculateConsistencyScore P input = Ok r ->
  streakBonus (breakdown r)
  = ofZ (Z.min
           (specStreakWalk
              (fun day => 0 <? sessionsOn P (zoneOf input) (civilDayString day) (sessions input))
              28 0 (Day (t + o)) * 2) 10).
Proof.
  intros Hz Ho Hr H1 H2 Href R H.
  destruct (calculateConsistencyScore_inv P input r H)
    as (days & m & streak & chart & G & _ & S & _ & _ & _ & Eb & _).
  rewrite Eb. cbn [streakBonus]. rewrite Href in S.
  assert (E : forall day, activeDaySet_has days (civilDayString day)
                          = (0 <? sessionsOn P (zoneOf input) (civilDayString day) (sessions input)))
    by (intros day; now apply activeDaySet_has_sessionsOn).
  destruct days as [| d days].
  - unfold calculateStreakBonus in S. cbn [List.length Z.of_nat Z.eqb] in S.
    apply Ok_inj in S. subst streak.
    rewrite (specStreakWalk_inactive _ 28); [reflexivity |].
    intros day. now rewrite <- E.
  - apply (calculateStreakBonus_civil P (d :: days) _ off o h t) in S;
      try assumption; [| discriminate | now rewrite Ho].
    subst streak. unfold specStreakBonus. rewrite Ho.
    change (Z.to_nat WINDOW_DAYS) with 28%nat.
    now rewrite (specStreakWalk_ext _ _ 28 E).
Qed.

Lemma X9_witness :
  exists r,
    calculateConsistencyScore utcHost tokyoStreak = Ok r
    /\ streakBonus (breakdown r) = ofZ 6
    /\ streakBonus (breakdown r)
       = ofZ (Z.min
                (specStreakWalk
                   (fun day => 0 <? sessionsOn utcHost (zoneOf tokyoStreak) (civilDayString day)
                                      (sessions tokyoStreak))
                   28 0 (Day (noon + hours 9)) * 2) 10).
Proof.
  eexists.
  assert (H : calculateConsistencyScore utcHost tokyoStreak = Ok _)
    by (vm_compute; reflexivity).
  split; [exact H |]. split; [reflexivity |].
  refine (X9_streak_bonus_east_of_greenwich utcHost tokyoStreak _ (fun _ => hours 9)
            (hours 9) 0 noon
            eq_refl (fun _ => eq_refl) _ (fun _ => eq_refl) (fun _ => eq_refl)
            eq_refl eq_refl H).
  vm_compute. split; [discriminate | reflexivity].
Defined.

(** ** The ceiling of the distribution bonus *)

Lemma distribution_quality_cap (z : Z) :
  1 <= z ->
  within 0 (675 # 28)
    (nmul (nsub (ofZ 1) (Math_min (ndiv (ofZ z) (ofZ WINDOW_DAYS)) (ofZ 1))) (ofZ 25)).
Proof.
  intros Hz.
  assert (H1 : (1 <= inject_Z z)%Q) by (change 1%Q with (inject_Z 1); now rewrite <- Zle_Qle).
  unfold ofZ, ndiv, WINDOW_DAYS.
  replace (Qeq_bool (inject_Z 28) 0) with false by reflexivity.
  unfold Math_min, nleb.
  destruct (Qle_bool (inject_Z z / inject_Z 28) (inject_Z 1)) eqn:E;
    unfold nsub, nneg, nadd, nmul; eexists; (split; [reflexivity |]).
  - apply Qle_bool_iff in E. revert E.
    unfold Qdiv. change (/ inject_Z 28)%Q with (1 # 28)%Q.
    change (inject_Z 1) with 1%Q. change (inject_Z 25) with 25%Q.
    generalize dependent (inject_Z z). intros x Hx E. split; lra.
  - change (inject_Z 1) with 1%Q. change (inject_Z 25) with 25%Q. split; lra.
Qed.

Lemma calculateDistributionBonus_cap (P : Platform) (days : list ActiveDay) :
  Forall rendered days -> StronglySorted (keyLt date) days ->
  within 0 (675 # 28) (calculateDistributionBonus P days).
Proof.
  intros R S. unfold calculateDistributionBonus.
  destruct (Z.ltb_spec (Z.of_nat (List.length days)) 2) as [L | L].
  - exists 0%Q. split; [reflexivity | split; lra].
  - cbv zeta.
    destruct (Math_max_spread_intFrom 1 (gapsOf P days)) as (z & -> & Hz).
    + destruct days as [| a [| b days]]; cbn in L; try lia. discriminate.
    + now apply gapsOf_positive.
    + now apply distribution_quality_cap.
Qed.

(** X12: for sessions on civil dates with four-digit years, the
    distribution bonus of a returned call is at most 675/28 (about 24.1): two
    active days are at least one day apart, so the quality factor never
    reaches 1.  With at most 28 active days the score is therefore at most
    99. *)
Theorem X12_full_marks_are_out_of_reach (P : Platform) (input : ScoreInput)
  (r : ConsistencyScore) :
  Forall (fun s => dateInRange P (zoneOf input) (timestamp s) = true) (sessions input) ->
  calculateConsistencyScore P input = Ok r ->
  within 0 (675 # 28) (distributionBonus (breakdown r))
  /\ (activeDays (metadata r) <= 28 -> exists z, score r = ofZ z /\ 0 <= z <= 99).
Proof.
  intros R H.
  destruct (calculateConsistencyScore_inv P input r H)
    as (days & m & streak & chart & G & M & S & _ & Em & _ & Eb & _ & Es).
  destruct (groupSessionsByDay_sorted P _ _ days G) as [Sorted _].
  pose proof (groupSessionsByDay_rendered P _ _ days R G) as Rd.
  pose proof (calculateDistributionBonus_cap P days Rd Sorted) as D.
  rewrite Eb. cbn [distributionBonus]. split; [exact D |].
  intros A. rewrite Em, (calculateMetadata_activeDays P days _ _ m M) in A.
  destruct (calculateBaseScore_within days A) as (qb & Hb & Bb).
  destruct D as (qd & Hd & Bd).
  destruct (calculateStreakBonus_within P days _ _ streak S) as (qs & Hs & Bs).
  destruct (calculateRecencyBonus_within m) as (qr & Hq & Br).
  rewrite Es, Eb. cbn [baseScore distributionBonus streakBonus recencyBonus].
  rewrite Hb, Hd, Hs, Hq. cbn [nadd]. unfold Math_round.
  fold (ofZ (Qfloor (qb + qd + qs + qr + (1 # 2)))).
  rewrite Math_min_ofZ, Math_max_ofZ. eexists. split; [reflexivity |].
  assert (U : Qfloor (qb + qd + qs + qr + (1 # 2)) <= Qfloor (2789 # 28))
    by (apply Qfloor_resp_le; lra).
  change (Qfloor (2789 # 28)) with 99 in U. lia.
Qed.

Lemma X12_witness :
  exists r,
    Forall (fun s => dateInRange utcHost (zoneOf scenarioA) (timestamp s) = true)
           (sessions scenarioA)
    /\ calculateConsistencyScore utcHost scenarioA = Ok r
    /\ within 0 (675 # 28) (distributionBonus (breakdown r))
    /\ (activeDays (metadata r) <= 28 -> exists z, score r = ofZ z /\ 0 <= z <= 99).
Proof.
  eexists.
  assert (R : Forall (fun s => dateInRange utcHost (zoneOf scenarioA) (timestamp s) = true)
                     (sessions scenarioA)) by (repeat constructor).
  split; [exact R |].
  assert (H : calculateConsistencyScore utcHost scenarioA = Ok _) by (vm_compute; reflexivity).
  split; [exact H |].
  exact (X12_full_marks_are_out_of_reach utcHost scenarioA _ R H).
Defined.

(** ** Gaps and recency, in civil days *)

Lemma bucketDay_rendered (d : ActiveDay) (lt : Z) :
  date d = formatCivil lt -> fourDigitYear lt = true -> bucketDay d = Day lt.
Proof.
  intros E R. unfold bucketDay. rewrite E, (parseISODate_formatCivil lt R).
  apply Day_midnight.
Qed.

Lemma dayDiff_bucketDay (P : Platform) (a b : ActiveDay) :
  rendered a -> rendered b -> dayDiff P a b = ofZ (bucketDay b - bucketDay a).
Proof.
  intros (la & Ea & Ra) (lb & Eb & Rb).
  rewrite (dayDiff_rendered P a b la lb Ea Ra Eb Rb).
  now rewrite (bucketDay_rendered a la Ea Ra), (bucketDay_rendered b lb Eb Rb).
Qed.

Lemma keyLt_bucketDay (a b : ActiveDay) :
  rendered a -> rendered b -> keyLt date a b -> bucketDay a < bucketDay b.
Proof.
  intros (la & Ea & Ra) (lb & Eb & Rb) L. unfold keyLt in L.
  rewrite Ea, Eb, (formatCivil_compare la lb Ra Rb) in L.
  rewrite (bucketDay_rendered a la Ea Ra), (bucketDay_rendered b lb Eb Rb). exact L.
Qed.

Lemma sorted_by_bucketDay (days : list ActiveDay) :
  Forall rendered days -> StronglySorted (keyLt date) days ->
  StronglySorted (fun a b => bucketDay a < bucketDay b) days.
Proof.
  intros R S. induction S as [| a l S IH F]; [constructor |].
  inversion R as [| ? ? Ra Rl]; subst. constructor; [now apply IH |].
  rewrite Forall_forall in *. intros b Hb. apply keyLt_bucketDay; auto.
Qed.

Lemma sorted_last_is_greatest (l : list ActiveDay) :
  forall a, StronglySorted (fun a b => bucketDay a < bucketDay b) (a :: l) ->
  forall x, In x (a :: l) -> bucketDay x <= bucketDay (last l a).
Proof.
  induction l as [| b l IH]; intros a S x Hx.
  - destruct Hx as [<- | []]. cbn. lia.
  - inversion S as [| ? ? S' F]; subst. rewrite last_cons.
    destruct Hx as [<- | Hx].
    + rewrite Forall_forall in F. pose proof (F b (or_introl eq_refl)).
      pose proof (IH b S' b (or_introl eq_refl)). lia.
    + now apply IH.
Qed.

Lemma last_In {A : Type} (l : list A) (a : A) : In (last l a) (a :: l).
Proof.
  revert a. induction l as [| b l IH]; intros a; [now left |].
  rewrite last_cons. right. apply IH.
Qed.

Lemma toLocalDateString_civilDayOf (P : Platform) (tz : string) (off : Z -> Z)
  (d : JSDate) (b : ActiveDay) :
  zoneOffset P tz = Some off -> dateInRange P tz d = true ->
  toLocalDateString P d tz = Ok (date b) ->
  rendered b /\ bucketDay b = civilDayOf off d.
Proof.
  intros Hz R H. unfold dateInRange in R. unfold toLocalDateString in H. rewrite Hz in R, H.
  destruct d as [u |]; [| discriminate].
  destruct (timeInRange u); [| discriminate]. apply Ok_inj in H. symmetry in H.
  split; [exists (u + off u); auto |]. cbn [civilDayOf].
  now apply bucketDay_rendered.
Qed.

(** The buckets of an in-range history, against the civil days of its
    sessions. *)
Lemma buckets_in_range (P : Platform) (ss : list Session) (tz : string) (off : Z -> Z)
  (days : list ActiveDay) :
  zoneOffset P tz = Some off ->
  Forall (fun s => dateInRange P tz (timestamp s) = true) ss ->
  groupSessionsByDay P ss tz = Ok days ->
  Forall rendered days
  /\ StronglySorted (fun a b => bucketDay a < bucketDay b) days
  /\ (forall d, In d days -> exists s, In s ss /\ civilDayOf off (timestamp s) = bucketDay d)
  /\ (forall s, In s ss -> exists d, In d days /\ bucketDay d = civilDayOf off (timestamp s)).
Proof.
  intros Hz R G.
  destruct (groupSessionsByDay_sorted P ss tz days G) as [Sorted From].
  pose proof (groupSessionsByDay_rendered P ss tz days R G) as Rd.
  destruct (groupSessionsByDay_tally P ss tz days G) as (dates & D & Pm).
  rewrite Forall_forall in R.
  split; [exact Rd |]. split; [now apply sorted_by_bucketDay |]. split.
  - intros d Hd. destruct (From d Hd) as (s & Hs & Ds). exists s. split; [exact Hs |].
    symmetry. now apply (toLocalDateString_civilDayOf P tz off _ d Hz (R s Hs) Ds).
  - intros s Hs. destruct (sessionDates_complete P tz ss dates s D Hs) as (k & Dk & Ik).
    assert (I : In (k, occurrences k dates) (map observe days)).
    { eapply Permutation_in; [apply Permutation_sym, Pm |].
      apply tally_In. split; [reflexivity | now apply In_occurrences]. }
    apply in_map_iff in I. destruct I as (d & Ed & Id). apply observe_inv' in Ed.
    destruct Ed as [Ek _]. exists d. split; [exact Id |]. rewrite <- Ek in Dk.
    now apply (toLocalDateString_civilDayOf P tz off _ d Hz (R s Hs) Dk).
Qed.

Lemma latestDay_of_buckets (P : Platform) (ss : list Session) (tz : string) (off : Z -> Z)
  (first : ActiveDay) (rest : list ActiveDay) :
  zoneOffset P tz = Some off ->
  Forall (fun s => dateInRange P tz (timestamp s) = true) ss ->
  groupSessionsByDay P ss tz = Ok (first :: rest) ->
  latestDay off ss (bucketDay (last rest first))
  /\ earliestDay off ss (bucketDay first).
Proof.
  intros Hz R G. destruct (buckets_in_range P ss tz off _ Hz R G) as (_ & S & From & To).
  split; split.
  - apply From, last_In.
  - intros s Hs. destruct (To s Hs) as (d & Hd & <-). now apply sorted_last_is_greatest.
  - apply From. now left.
  - intros s Hs. destruct (To s Hs) as (d & Hd & <-).
    inversion S as [| ? ? _ F]; subst. destruct Hd as [<- | Hd]; [lia |].
    rewrite Forall_forall in F. specialize (F d Hd). lia.
Qed.

(** X10: for sessions and a reference date on civil dates with four-digit
    years, [daysSinceLastSession] of a returned call with at least one
    session is the number of civil days from the latest civil day of a session
    to the civil day of the reference instant, both taken in the zone. *)
Theorem X10_days_since_last_session (P : Platform) (input : ScoreInput)
  (r : ConsistencyScore) (off : Z -> Z) (t : Z) :
  zoneOffset P (zoneOf input) = Some off ->
  Forall (fun s => dateInRange P (zoneOf input) (timestamp s) = true) (sessions input) ->
  sessions input <> [] ->
  referenceOf P input = Valid t -> fourDigitYear (t + off t) = true ->
  calculateConsistencyScore P input = Ok r ->
  exists D, latestDay off (sessions input) D
    /\ daysSinceLastSession (metadata r) = ofZ (Day (t + off t) - D).
Proof.
  intros Hz R N Hr Rt H.
  destruct (calculateConsistencyScore_inv P input r H)
    as (days & m & streak & chart & G & M & _ & _ & Em & _).
  rewrite Em. rewrite Hr in M.
  destruct days as [| first rest].
  - exfalso. destruct (sessions input) as [| s ss] eqn:E; [contradiction |].
    destruct (buckets_in_range P _ _ off _ Hz R G) as (_ & _ & _ & To).
    destruct (To s (or_introl eq_refl)) as (d & [] & _).
  - destruct (latestDay_of_buckets P _ _ off first rest Hz R G) as [L _].
    exists (bucketDay (last rest first)). split; [exact L |].
    destruct (buckets_in_range P _ _ off _ Hz R G) as (Rd & _).
    rewrite Forall_forall in Rd. destruct (Rd _ (last_In rest first)) as (ll & El & Rl).
    unfold calculateMetadata in M.
    rewrite (toLocalDateString_civil P _ off t Hz Rt) in M. cbn [bind] in M.
    apply Ok_inj in M. subst m. cbn [daysSinceLastSession].
    rewrite El, !newDate_formatCivil by assumption.
    rewrite (bucketDay_rendered _ ll El Rl).
    unfold getTime, ofZ, nsub, nneg, nadd, ndiv.
    replace (Qeq_bool (inject_Z (1000 * 60 * 60 * 24)) 0) with false by reflexivity.
    unfold Math_floor. now rewrite Qfloor_days.
Qed.

Lemma X10_witness :
  exists r D,
    calculateConsistencyScore utcHost tokyoStreak = Ok r
    /\ latestDay (fun _ => hours 9) (sessions tokyoStreak) D
    /\ daysSinceLastSession (metadata r) = ofZ (Day (noon + hours 9) - D).
Proof.
  assert (H : exists r, calculateConsistencyScore utcHost tokyoStreak = Ok r)
    by (eexists; vm_compute; reflexivity).
  destruct H as (r & H). exists r.
  destruct (X10_days_since_last_session utcHost tokyoStreak r (fun _ => hours 9) noon
              eq_refl ltac:(repeat constructor) ltac:(discriminate) eq_refl eq_refl H)
    as (D & L & E).
  exists D. auto.
Defined.

Lemma nadd_ofZ (a b : Z) : nadd (ofZ a) (ofZ b) = ofZ (a + b).
Proof.
  unfold nadd, ofZ, Qplus, inject_Z. cbn [Qnum Qden]. do 2 f_equal. lia.
Qed.

Lemma sumZ_cons (z : Z) (zs : list Z) : sumZ (z :: zs) = z + sumZ zs.
Proof. reflexivity. Qed.

Lemma sumZ_nonneg (zs : list Z) : Forall (fun z => 1 <= z) zs -> 0 <= sumZ zs.
Proof.
  induction 1 as [| z zs Hz F IH]; [cbn; lia | rewrite sumZ_cons; lia].
Qed.

Lemma fold_nadd_ofZ (zs : list Z) :
  forall a, fold_left nadd (map ofZ zs) (ofZ a) = ofZ (a + sumZ zs).
Proof.
  induction zs as [| z zs IH]; intros a; cbn [map fold_left].
  - f_equal. cbn. lia.
  - rewrite nadd_ofZ, IH, sumZ_cons. f_equal. lia.
Qed.

(** The gaps of rendered, ascending buckets are positive integers that add
    up to the distance between the first and the last day. *)
Lemma gapsFrom_telescope (P : Platform) (rest : list ActiveDay) :
  forall prev, Forall rendered (prev :: rest) ->
  StronglySorted (fun a b => bucketDay a < bucketDay b) (prev :: rest) ->
  exists zs, gapsFrom P prev rest = map ofZ zs
    /\ List.length zs = List.length rest
    /\ Forall (fun z => 1 <= z) zs
    /\ sumZ zs = bucketDay (last rest prev) - bucketDay prev.
Proof.
  induction rest as [| curr rest IH]; intros prev R S.
  - exists []. cbn. repeat split; [constructor | lia].
  - inversion R as [| ? ? Rp Rr]; subst. inversion S as [| ? ? S' F]; subst.
    destruct (IH curr Rr S') as (zs & E & L & Pz & Sz).
    inversion Rr as [| ? ? Rc _]; subst.
    exists ((bucketDay curr - bucketDay prev) :: zs).
    cbn [gapsFrom map List.length]. rewrite (dayDiff_bucketDay P prev curr Rp Rc), E, L.
    rewrite last_cons. repeat split.
    + constructor; [| exact Pz]. rewrite Forall_forall in F.
      pose proof (F curr (or_introl eq_refl)). lia.
    + rewrite sumZ_cons. lia.
Qed.

Lemma fold_Math_max_intBetween (lo hi : Z) (l : list number) :
  forall acc, intBetween lo hi acc -> Forall (intBetween lo hi) l ->
  intBetween lo hi (fold_left Math_max l acc).
Proof.
  induction l as [| x l IH]; intros acc A F; cbn [fold_left]; [exact A |].
  inversion F as [| ? ? (z & -> & Hz) F']; subst. destruct A as (a & -> & Ha).
  apply IH; [| exact F']. rewrite Math_max_ofZ. exists (Z.max a z). split; [reflexivity | lia].
Qed.

Lemma element_le_sumZ (zs : list Z) :
  Forall (fun z => 1 <= z) zs -> Forall (fun z => 1 <= z <= sumZ zs) zs.
Proof.
  induction 1 as [| z zs Hz F IH]; [constructor |].
  pose proof (sumZ_nonneg zs F). rewrite sumZ_cons. constructor; [lia |].
  eapply Forall_impl; [| exact IH]. cbn beta. intros; lia.
Qed.

Lemma Math_max_spread_ofZ (zs : list Z) :
  zs <> [] -> Forall (fun z => 1 <= z) zs ->
  intBetween 1 (sumZ zs) (Math_max_spread (map ofZ zs)).
Proof.
  intros N F. apply element_le_sumZ in F.
  destruct zs as [| z zs]; [contradiction |].
  inversion F as [| ? ? Hz F']; subst.
  unfold Math_max_spread. cbn [map fold_left].
  change (Math_max NegInf (ofZ z)) with (ofZ z).
  apply fold_Math_max_intBetween; [exists z; auto |].
  apply Forall_forall. intros x Hx. apply in_map_iff in Hx. destruct Hx as (y & <- & Hy).
  rewrite Forall_forall in F'. exists y. split; [reflexivity | now apply F'].
Qed.

(** X11: for sessions on civil dates with four-digit years that fall on at
    least two civil days, the average gap of a returned call is the number
    of civil days from the earliest to the latest day of a session, divided
    by [activeDays - 1]; the longest gap is an integer between 1 and that
    number of days. *)
Theorem X11_gaps_span_the_history (P : Platform) (input : ScoreInput)
  (r : ConsistencyScore) (off : Z -> Z) :
  zoneOffset P (zoneOf input) = Some off ->
  Forall (fun s => dateInRange P (zoneOf input) (timestamp s) = true) (sessions input) ->
  calculateConsistencyScore P input = Ok r ->
  2 <= activeDays (metadata r) ->
  exists Dmin Dmax,
    earliestDay off (sessions input) Dmin /\ latestDay off (sessions input) Dmax
    /\ averageGap (metadata r)
       = Fin (inject_Z (Dmax - Dmin) / inject_Z (activeDays (metadata r) - 1))
    /\ intBetween 1 (Dmax - Dmin) (longestGap (metadata r)).
Proof.
  intros Hz R H A.
  destruct (calculateConsistencyScore_inv P input r H)
    as (days & m & streak & chart & G & M & _ & _ & Em & _).
  rewrite Em in *. clear Em.
  pose proof (calculateMetadata_activeDays P days _ _ m M) as Ea. rewrite Ea in *.
  destruct days as [| first [| second rest]]; cbn [List.length] in A; try lia.
  destruct (latestDay_of_buckets P _ _ off first (second :: rest) Hz R G) as [L E].
  destruct (buckets_in_range P _ _ off _ Hz R G) as (Rd & S & _).
  destruct (gapsFrom_telescope P (second :: rest) first Rd S) as (zs & Eg & Lz & Pz & Sz).
  exists (bucketDay first), (bucketDay (last (second :: rest) first)).
  split; [exact E |]. split; [exact L |].
  unfold calculateMetadata in M.
  destruct (toLocalDateString P _ _); cbn [bind] in M; [| discriminate].
  apply Ok_inj in M. subst m. cbn [averageGap longestGap]. cbn [gapsOf].
  rewrite Eg, length_map, Lz.
  replace (0 <? Z.of_nat (List.length (second :: rest))) with true
    by (symmetry; apply Z.ltb_lt; cbn [List.length]; lia).
  split.
  - rewrite fold_nadd_ofZ, Sz. unfold ofZ, ndiv.
    replace (Qeq_bool (inject_Z (Z.of_nat (List.length (second :: rest)))) 0) with false.
    + cbn [List.length]. do 3 f_equal. lia.
    + symmetry. apply not_true_is_false. intros Q. apply Qeq_bool_iff in Q.
      unfold Qeq, inject_Z in Q. cbn [Qnum Qden List.length] in Q. lia.
  - rewrite <- Sz. apply Math_max_spread_ofZ; [| exact Pz].
    destruct zs; [discriminate | discriminate].
Qed.

Lemma X11_witness :
  exists r Dmin Dmax,
    calculateConsistencyScore utcHost tokyoStreak = Ok r
    /\ 2 <= activeDays (metadata r)
    /\ earliestDay (fun _ => hours 9) (sessions tokyoStreak) Dmin
    /\ latestDay (fun _ => hours 9) (sessions tokyoStreak) Dmax
    /\ averageGap (metadata r)
       = Fin (inject_Z (Dmax - Dmin) / inject_Z (activeDays (metadata r) - 1))
    /\ intBetween 1 (Dmax - Dmin) (longestGap (metadata r)).
Proof.
  assert (H : exists r, calculateConsistencyScore utcHost tokyoStreak = Ok r
                        /\ 2 <= activeDays (metadata r))
    by (eexists; split; [vm_compute; reflexivity | vm_compute; discriminate]).
  destruct H as (r & H & A). exists r.
  destruct (X11_gaps_span_the_history utcHost tokyoStreak r (fun _ => hours 9)
              eq_refl ltac:(repeat constructor) H A)
    as (Dmin & Dmax & E & L & Av & Lg).
  exists Dmin, Dmax. auto 10.
Defined.

(** ** The accumulated durations *)

Lemma normalizedDuration_nonNegative (s : Session) : nonNegative (normalizedDuration s).
Proof.
  unfold normalizedDuration, nonNegative, nor, truthy.
  destruct (Number_of (durationSec s)) as [q | | |].
  - destruct (Qeq_bool q 0); cbn [negb].
    + right. exists 0%Q. split; [reflexivity | apply Qle_refl].
    + unfold Math_max, ofZ, nleb. destruct (Qle_bool (inject_Z 0) q) eqn:E.
      * right. exists q. split; [reflexivity |]. now apply Qle_bool_iff in E.
      * right. exists 0%Q. split; [reflexivity | apply Qle_refl].
  - left. reflexivity.
  - right. exists 0%Q. split; [reflexivity | apply Qle_refl].
  - right. exists 0%Q. split; [reflexivity | apply Qle_refl].
Qed.

Lemma nadd_nonNegative (x y : number) :
  nonNegative x -> nonNegative y -> nonNegative (nadd x y).
Proof.
  intros [-> | (a & -> & Ha)] [-> | (b & -> & Hb)]; cbn [nadd]; try (left; reflexivity).
  right. exists (a + b)%Q. split; [reflexivity | lra].
Qed.

Lemma fold_nadd_nonNegative (l : list number) :
  forall acc, nonNegative acc -> Forall nonNegative l -> nonNegative (fold_left nadd l acc).
Proof.
  induction l as [| x l IH]; intros acc A F; cbn [fold_left]; [exact A |].
  inversion F; subst. apply IH; [now apply nadd_nonNegative | assumption].
Qed.

Lemma totalOf_bump (k k' : string) (dur : number) (m : JSMap ActiveDay) :
  totalOf (bump k dur m) k'
  = if String.eqb k k' then nadd (totalOf m k) dur else totalOf m k'.
Proof.
  unfold totalOf. induction m as [| [k0 v] m IH]; cbn [bump Map_get].
  - destruct (String.eqb k k'); reflexivity.
  - destruct (String.eqb k0 k) eqn:E0; cbn [Map_get].
    + apply String.eqb_eq in E0. subst k0.
      destruct (String.eqb k k'); reflexivity.
    + destruct (String.eqb k0 k') eqn:E1; [| exact IH].
      apply String.eqb_eq in E1. subst k0. rewrite String.eqb_sym, E0. reflexivity.
Qed.

Lemma durationsOn_cons (P : Platform) (tz k k0 : string) (s : Session) (ss : list Session) :
  toLocalDateString P (timestamp s) tz = Ok k0 ->
  durationsOn P tz k (s :: ss)
  = if String.eqb k0 k then normalizedDuration s :: durationsOn P tz k ss
    else durationsOn P tz k ss.
Proof.
  intros D. unfold durationsOn. cbn [filter]. rewrite D.
  now destruct (String.eqb k0 k).
Qed.

Lemma groupLoop_totals (P : Platform) (tz : string) (ss : list Session) :
  forall m m', groupLoop P tz m ss = Ok m' ->
  forall k, totalOf m' k = fold_left nadd (durationsOn P tz k ss) (totalOf m k).
Proof.
  induction ss as [| s ss IH]; intros m m' H k; cbn [groupLoop] in H.
  - apply Ok_inj in H. now subst m'.
  - destruct (toLocalDateString P (timestamp s) tz) as [k0 | e] eqn:D.
    + rewrite (groupStep_bump P tz m s k0 D) in H. cbn [bind] in H.
      rewrite (IH _ _ H k), (durationsOn_cons P tz k k0 s ss D), totalOf_bump.
      destruct (String.eqb k0 k) eqn:E; [| reflexivity].
      apply String.eqb_eq in E. now subst k0.
    + now rewrite (groupStep_throw P tz m s e D) in H.
Qed.

Lemma Map_get_In {V : Type} (m : JSMap V) (k : string) (v : V) :
  NoDup (map fst m) -> In (k, v) m -> Map_get m k = Some v.
Proof.
  induction m as [| [k0 v0] m IH]; cbn [map fst Map_get]; intros N H; [contradiction |].
  inversion N as [| ? ? Hn N']; subst. destruct H as [H | H].
  - inversion H; subst. now rewrite String.eqb_refl.
  - destruct (String.eqb k0 k) eqn:E; [| now apply IH].
    apply String.eqb_eq in E. subst k0. exfalso. apply Hn.
    change k with (fst (k, v)). now apply in_map.
Qed.

Lemma wellKeyed_keys (m : JSMap ActiveDay) :
  wellKeyed m -> map fst m = map date (Map_values m).
Proof.
  unfold wellKeyed, Map_values. induction 1 as [| [k v] m Hk W IH]; [reflexivity |].
  cbn [map fst snd] in *. now rewrite IH, Hk.
Qed.

(** The total of a bucket is what the loop adds up: the normalised
    durations of the sessions on its date, from 0. *)
Lemma bucket_totals (P : Platform) (ss : list Session) (tz : string)
  (days : list ActiveDay) :
  groupSessionsByDay P ss tz = Ok days ->
  Forall (fun d =>
    totalDurationSec d = fold_left nadd (durationsOn P tz (date d) ss) (ofZ 0)
    /\ nonNegative (totalDurationSec d)) days.
Proof.
  intros G. destruct (groupSessionsByDay_sorted P ss tz days G) as [Sorted _].
  pose proof (keyLt_NoDup date days Sorted) as ND.
  unfold groupSessionsByDay in G.
  pose proof (groupLoop_observe P tz ss [] (Forall_nil _)) as O.
  destruct (groupLoop P tz [] ss) as [m |] eqn:L; cbn [bind] in G; [| discriminate].
  apply Ok_inj in G.
  destruct (sessionDates P tz ss) as [dates |]; [| discriminate].
  destruct O as (m' & Em & W & _). apply Ok_inj in Em. subst m'.
  assert (Pm : Permutation days (Map_values m))
    by (rewrite <- G; apply (Array_sort_perm date)).
  assert (Nk : NoDup (map fst m)).
  { rewrite (wellKeyed_keys m W).
    eapply Permutation_NoDup; [apply Permutation_map, Pm | exact ND]. }
  apply Forall_forall. intros d Hd.
  assert (Im : In d (Map_values m)) by (eapply Permutation_in; [exact Pm | exact Hd]).
  unfold Map_values in Im. apply in_map_iff in Im. destruct Im as ([k v] & Ev & Ikv).
  cbn [snd] in Ev. subst v.
  assert (Ek : date d = k).
  { unfold wellKeyed in W. rewrite Forall_forall in W. exact (W _ Ikv). }
  pose proof (groupLoop_totals P tz ss [] m L k) as T.
  unfold totalOf at 1 in T. rewrite (Map_get_In m k d Nk Ikv) in T.
  change (totalOf [] k) with (ofZ 0) in T. rewrite Ek.
  split; [exact T |]. rewrite T. apply fold_nadd_nonNegative.
  - right. exists 0%Q. split; [reflexivity | apply Qle_refl].
  - apply Forall_forall. intros x Hx. unfold durationsOn in Hx.
    apply in_map_iff in Hx. destruct Hx as (s & <- & _).
    apply normalizedDuration_nonNegative.
Qed.


(** X2: the [totalDurationSec] of every bucket is never NaN and never
    negative, whatever the durations of the sessions are; and when the
    normalised durations [Math.max(0, Number(durationSec) || 0)] of the
    sessions on its date are whole numbers whose sum does not exceed 2^53,
    it is exactly their sum. *)
Theorem X2_bucket_durations (P : Platform) (ss : list Session) (tz : string)
  (days : list ActiveDay) :
  groupSessionsByDay P ss tz = Ok days ->
  Forall (fun d =>
    nonNegative (totalDurationSec d)
    /\ forall zs, durationsOn P tz (date d) ss = map ofZ zs ->
                  sumZ zs <= 9007199254740992 ->
                  totalDurationSec d = ofZ (sumZ zs)) days.
Proof.
  intros G. pose proof (bucket_totals P ss tz days G) as T.
  rewrite Forall_forall in *. intros d Hd. destruct (T d Hd) as [E NN].
  split; [exact NN |]. intros zs Z _. rewrite E, Z. apply (fold_nadd_ofZ zs 0).
Qed.

Lemma X2_witness :
  exists days,
    groupSessionsByDay utcHost
      [sessionAt "a" (Valid noon) (DurNumber (ofZ (-5)));
       sessionAt "b" (Valid noon) (DurNumber (ofZ 40));
       sessionAt "c" (Valid noon) (DurOther NaN);
       sessionAt "d" (Valid (noon - msPerDay)) DurMissing] "UTC" = Ok days
    /\ map totalDurationSec days = [ofZ 0; ofZ 40]
    /\ Forall (fun d =>
         nonNegative (totalDurationSec d)
         /\ forall zs,
              durationsOn utcHost "UTC" (date d)
                [sessionAt "a" (Valid noon) (DurNumber (ofZ (-5)));
                 sessionAt "b" (Valid noon) (DurNumber (ofZ 40));
                 sessionAt "c" (Valid noon) (DurOther NaN);
                 sessionAt "d" (Valid (noon - msPerDay)) DurMissing] = map ofZ zs ->
              sumZ zs <= 9007199254740992 ->
              totalDurationSec d = ofZ (sumZ zs)) days.
Proof.
  destruct (groupSessionsByDay utcHost
      [sessionAt "a" (Valid noon) (DurNumber (ofZ (-5)));
       sessionAt "b" (Valid noon) (DurNumber (ofZ 40));
       sessionAt "c" (Valid noon) (DurOther NaN);
       sessionAt "d" (Valid (noon - msPerDay)) DurMissing] "UTC") as [days | e] eqn:G;
    [| vm_compute in G; discriminate].
  exists days. split; [reflexivity |].
  split; [vm_compute in G; apply Ok_inj in G; subst days; reflexivity |].
  exact (X2_bucket_durations utcHost _ "UTC" days G).
Defined.

(** ** Several sessions on one day *)

Section SameDates.

Variable P : Platform.

Lemma gapsFrom_dates (r1 : list ActiveDay) :
  forall r2 p1 p2, date p1 = date p2 -> map date r1 = map date r2 ->
  gapsFrom P p1 r1 = gapsFrom P p2 r2.
Proof.
  induction r1 as [| a r1 IH]; intros [| b r2] p1 p2 Hp H; cbn [map] in H;
    try discriminate; [reflexivity |].
  injection H as Hd Ht. cbn [gapsFrom].
  rewrite (dayDiff_observed P p1 p2 a b Hp Hd). f_equal. now apply IH.
Qed.

Lemma gapsOf_dates (d1 d2 : list ActiveDay) :
  map date d1 = map date d2 -> gapsOf P d1 = gapsOf P d2.
Proof.
  destruct d1 as [| a d1], d2 as [| b d2]; cbn [map]; intros H; try discriminate;
    [reflexivity |].
  injection H as Hd Ht. now apply gapsFrom_dates.
Qed.

Lemma streakScan_dates (r1 : list ActiveDay) :
  forall r2 p1 p2 l c, date p1 = date p2 -> map date r1 = map date r2 ->
  streakScan P p1 r1 l c = streakScan P p2 r2 l c.
Proof.
  induction r1 as [| a r1 IH]; intros [| b r2] p1 p2 l c Hp H; cbn [map] in H;
    try discriminate; [reflexivity |].
  injection H as Hd Ht. cbn [streakScan].
  rewrite (dayDiff_observed P p1 p2 a b Hp Hd).
  destruct (nstrictEq _ _); now apply IH.
Qed.

Lemma last_dates (r1 : list ActiveDay) :
  forall r2 p1 p2, date p1 = date p2 -> map date r1 = map date r2 ->
  date (last r1 p1) = date (last r2 p2).
Proof.
  induction r1 as [| a r1 IH]; intros [| b r2] p1 p2 Hp H; cbn [map] in H;
    try discriminate; [exact Hp |].
  injection H as Hd Ht. rewrite !last_cons. now apply IH.
Qed.

Lemma length_dates (d1 d2 : list ActiveDay) :
  map date d1 = map date d2 -> List.length d1 = List.length d2.
Proof. intros H. apply (f_equal (@List.length _)) in H. now rewrite !length_map in H. Qed.

Lemma calculateMetadata_dates (d1 d2 : list ActiveDay) (ref : JSDate) (tz : string)
  (m1 : ConsistencyMetadata) :
  map date d1 = map date d2 ->
  calculateMetadata P d1 ref tz = Ok m1 ->
  exists m2, calculateMetadata P d2 ref tz = Ok m2 /\ sameButTotal m1 m2.
Proof.
  intros H M. pose proof (gapsOf_dates _ _ H) as G. pose proof (length_dates _ _ H) as L.
  destruct d1 as [| a d1], d2 as [| b d2]; try discriminate.
  - exists m1. split; [exact M | repeat split].
  - unfold calculateMetadata in *. injection H as Hd Ht.
    destruct (toLocalDateString P ref tz) as [k |]; cbn [bind] in *; [| discriminate].
    apply Ok_inj in M. subst m1. eexists. split; [reflexivity |].
    unfold sameButTotal.
    cbn [activeDays longestStreak longestGap averageGap daysSinceLastSession].
    rewrite G, L, (streakScan_dates d1 d2 a b 1 1 Hd Ht), (last_dates d1 d2 a b Hd Ht).
    repeat split.
Qed.

Lemma activeDaySet_has_dates (d1 : list ActiveDay) :
  forall d2 s, map date d1 = map date d2 ->
  activeDaySet_has d1 s = activeDaySet_has d2 s.
Proof.
  unfold activeDaySet_has.
  induction d1 as [| a d1 IH]; intros [| b d2] s H; cbn [map] in H; try discriminate;
    [reflexivity |].
  injection H as Hd Ht. cbn [existsb]. rewrite Hd. f_equal. now apply IH.
Qed.

Lemma calculateStreakBonus_dates (d1 d2 : list ActiveDay) (ref : JSDate) (tz : string) :
  map date d1 = map date d2 ->
  calculateStreakBonus P d1 ref tz = calculateStreakBonus P d2 ref tz.
Proof.
  intros H. unfold calculateStreakBonus. rewrite (length_dates _ _ H).
  destruct (Z.of_nat (List.length d2) =? 0); [reflexivity |].
  destruct (toLocalDateString P ref tz) as [k | e]; cbn [bind]; [| reflexivity].
  rewrite (streakWalk_ext P (activeDaySet_has d1) (activeDaySet_has d2)); [reflexivity |].
  intros s. now apply activeDaySet_has_dates.
Qed.

Lemma find_dates (d1 : list ActiveDay) :
  forall d2 k, map date d1 = map date d2 ->
  match find (fun d => String.eqb (date d) k) d1,
        find (fun d => String.eqb (date d) k) d2 with
  | Some _, Some _ | None, None => True
  | _, _ => False
  end.
Proof.
  induction d1 as [| a d1 IH]; intros [| b d2] k H; cbn [map] in H; try discriminate;
    [exact I |].
  injection H as Hd Ht. cbn [find]. rewrite Hd.
  destruct (String.eqb (date b) k); [exact I | now apply IH].
Qed.

Lemma generateChartData_dates (d1 d2 : list ActiveDay) (ref : JSDate) (tz : string)
  (c1 : list DayActivity) :
  NoDup (map date d1) -> map date d1 = map date d2 ->
  generateChartData P d1 ref tz = Ok c1 ->
  exists c2, generateChartData P d2 ref tz = Ok c2 /\ map chartMark c1 = map chartMark c2.
Proof.
  intros N H C. destruct (generateChartData_inv P d1 ref tz c1 C) as (off & t & Hz & ->).
  apply (generateChartData_value P d1 tz off t c1 Hz) in C. destruct C as [R ->].
  rewrite (generateChartData_ok P d2 tz off t Hz R). eexists. split; [reflexivity |].
  rewrite !map_map. apply map_ext. intros i.
  unfold chartMark, chartEntryAt, Map_of, Map_has. cbn [chartDate hasActivity].
  assert (N2 : NoDup (map date d2)) by now rewrite <- H.
  rewrite (Map_of_distinct (map (fun d => (date d, d)) d1) [])
    by (cbn [app]; now rewrite map_map).
  rewrite (Map_of_distinct (map (fun d => (date d, d)) d2) [])
    by (cbn [app]; now rewrite map_map).
  cbn [app]. rewrite !Map_get_find.
  pose proof (find_dates d1 d2 (formatCivil (chartInstant P t i + off (chartInstant P t i))) H)
    as F.
  destruct (find _ d1), (find _ d2); try contradiction; reflexivity.
Qed.

Lemma generateExplanations_ext (m1 m2 : ConsistencyMetadata) (b : ScoreBreakdown) :
  sameButTotal m1 m2 -> generateExplanations m1 b = generateExplanations m2 b.
Proof.
  intros (A & S & G & _ & D). unfold generateExplanations. now rewrite A, S, G, D.
Qed.

End SameDates.

Lemma sorted_strings_unique (l1 l2 : list string) :
  StronglySorted (keyLt (fun s => s)) l1 -> StronglySorted (keyLt (fun s => s)) l2 ->
  (forall k, In k l1 <-> In k l2) -> l1 = l2.
Proof.
  intros S1 S2 E. apply (sorted_unique (fun s => s)); trivial.
  apply NoDup_Permutation; trivial.
  - rewrite <- (map_id l1). now apply (keyLt_NoDup (fun s => s)).
  - rewrite <- (map_id l2). now apply (keyLt_NoDup (fun s => s)).
Qed.

Lemma StronglySorted_dates (days : list ActiveDay) :
  StronglySorted (keyLt date) days -> StronglySorted (keyLt (fun s => s)) (map date days).
Proof.
  induction 1 as [| a l S IH F]; cbn [map]; constructor; [exact IH |].
  rewrite Forall_forall in *. intros k Hk. apply in_map_iff in Hk.
  destruct Hk as (b & <- & Hb). now apply F.
Qed.

Lemma bucket_dates (P : Platform) (ss : list Session) (tz k : string)
  (days : list ActiveDay) :
  groupSessionsByDay P ss tz = Ok days ->
  In k (map date days) <-> 0 < sessionsOn P tz k ss.
Proof.
  intros G. pose proof (find_bucket P ss tz k days G) as B.
  destruct (find (fun d => String.eqb (date d) k) days) as [a |] eqn:F.
  - apply find_some in F. destruct F as [Ia Ea]. apply String.eqb_eq in Ea.
    split; [lia |]. intros _. rewrite <- Ea. now apply in_map.
  - split; [| lia]. intros Hk. apply in_map_iff in Hk. destruct Hk as (d & Ed & Id).
    pose proof (find_none _ _ F d Id) as C. cbn beta in C.
    rewrite Ed, String.eqb_refl in C. discriminate.
Qed.

(** X18: two session lists with valid timestamps that make the same civil
    dates active, however many sessions fall on each date, get the same
    score, breakdown and explanations, the same metadata up to
    [totalSessions], and charts that differ at most in the session counts. *)
Theorem X18_more_sessions_on_a_day_change_no_score (P : Platform) (ss ss' : list Session)
  (ref : option JSDate) (tz : option string) (r : ConsistencyScore)
  (days' : list ActiveDay) :
  let input := {| sessions := ss; referenceDate := ref; timezone := tz |} in
  let input' := {| sessions := ss'; referenceDate := ref; timezone := tz |} in
  (forall k, 0 < sessionsOn P (zoneOf input) k ss <-> 0 < sessionsOn P (zoneOf input) k ss') ->
  groupSessionsByDay P ss' (zoneOf input) = Ok days' ->
  calculateConsistencyScore P input = Ok r ->
  exists r', calculateConsistencyScore P input' = Ok r'
    /\ score r' = score r
    /\ breakdown r' = breakdown r
    /\ explanations r' = explanations r
    /\ sameButTotal (metadata r) (metadata r')
    /\ map chartMark (chartData r') = map chartMark (chartData r).
Proof.
  intros input input' Same G' H.
  destruct (calculateConsistencyScore_inv P input r H)
    as (days & m & streak & chart & G & M & S & C & Em & Ec & Eb & Ee & Es).
  change (sessions input) with ss in G. change (zoneOf input') with (zoneOf input) in *.
  destruct (groupSessionsByDay_sorted P ss _ days G) as [Sorted _].
  destruct (groupSessionsByDay_sorted P ss' _ days' G') as [Sorted' _].
  assert (E : map date days = map date days').
  { apply sorted_strings_unique; try now apply StronglySorted_dates.
    intros k. rewrite (bucket_dates P ss _ k days G), (bucket_dates P ss' _ k days' G').
    apply Same. }
  destruct (calculateMetadata_dates P days days' _ _ m E M) as (m' & M' & Sm).
  destruct (generateChartData_dates P days days' _ _ chart (keyLt_NoDup date days Sorted) E C)
    as (chart' & C' & Ech).
  rewrite calculateConsistencyScore_split.
  change (sessions input') with ss'. change (zoneOf input') with (zoneOf input).
  change (referenceOf P input') with (referenceOf P input).
  rewrite G'. cbn [bind]. unfold scoreDays.
  rewrite M', <- (calculateStreakBonus_dates P days days' _ _ E), S, C'. cbn [bind].
  eexists. split; [reflexivity |].
  cbn [score breakdown explanations metadata chartData].
  assert (B : calculateScoreBreakdown P days' m' = calculateScoreBreakdown P days m).
  { unfold calculateScoreBreakdown, calculateBaseScore, calculateDistributionBonus,
      calculateRecencyBonus.
    destruct Sm as (_ & _ & _ & _ & D).
    now rewrite <- (gapsOf_dates P _ _ E), <- (length_dates _ _ E), D. }
  rewrite B, Es, Eb, Ee, Eb, Em, Ec.
  cbn [baseScore distributionBonus streakBonus recencyBonus calculateScoreBreakdown].
  repeat split; try (symmetry; exact Ech); try apply Sm.
  symmetry. apply generateExplanations_ext. exact Sm.
Qed.

Lemma thriceADay_dates (k : string) :
  0 < sessionsOn utcHost "UTC" k onceADay <-> 0 < sessionsOn utcHost "UTC" k thriceADay.
Proof.
  assert (E2 : toLocalDateString utcHost (timestamp (daysAgo 2)) "UTC" = Ok "2024-06-13"%string)
    by (vm_compute; reflexivity).
  assert (E5 : toLocalDateString utcHost (timestamp (daysAgo 5)) "UTC" = Ok "2024-06-10"%string)
    by (vm_compute; reflexivity).
  unfold sessionsOn, onceADay, thriceADay. cbn [filter]. rewrite E2, E5.
  destruct (String.eqb "2024-06-13" k), (String.eqb "2024-06-10" k);
    cbn [List.length]; lia.
Qed.

Lemma X18_witness :
  exists r days',
    (forall k, 0 < sessionsOn utcHost "UTC" k onceADay
               <-> 0 < sessionsOn utcHost "UTC" k thriceADay)
    /\ groupSessionsByDay utcHost thriceADay "UTC" = Ok days'
    /\ calculateConsistencyScore utcHost (inputAt onceADay noon "UTC") = Ok r
    /\ exists r', calculateConsistencyScore utcHost (inputAt thriceADay noon "UTC") = Ok r'
         /\ score r' = score r
         /\ breakdown r' = breakdown r
         /\ explanations r' = explanations r
         /\ sameButTotal (metadata r) (metadata r')
         /\ map chartMark (chartData r') = map chartMark (chartData r).
Proof.
  destruct (calculateConsistencyScore utcHost (inputAt onceADay noon "UTC")) as [r | e] eqn:H;
    [| vm_compute in H; discriminate].
  destruct (groupSessionsByDay utcHost thriceADay "UTC") as [days' | e] eqn:G;
    [| vm_compute in G; discriminate].
  exists r, days'. repeat (split; [first [exact thriceADay_dates | reflexivity] |]).
  exact (X18_more_sessions_on_a_day_change_no_score utcHost onceADay thriceADay
           (Some (Valid noon)) (Some "UTC"%string) r days' thriceADay_dates G H).
Defined.

(** * The Firestore helpers *)

(** ** The window of the query *)






(** ** From documents to sessions *)

Lemma nor_zero_not_NaN (x : number) : nor x (ofZ 0) <> NaN.
Proof. unfold nor. destruct x as [q | | |]; cbn; try discriminate. destruct (negb _); discriminate. Qed.

Lemma nor_zero_twice (x : number) : nor (nor x (ofZ 0)) (ofZ 0) = nor x (ofZ 0).
Proof. unfold nor. destruct (truthy x) eqn:E; [now rewrite E | reflexivity]. Qed.

Lemma docToSession_fromDoc (doc : Doc) (s : Session) :
  docToSession doc = Ok s -> fromDoc doc s.
Proof.
  unfold docToSession. destruct (docTimestamp doc) as [ms |] eqn:T; [| discriminate].
  intros H. apply Ok_inj in H. subst s. unfold fromDoc, normalizedDuration.
  cbn [id type timestamp durationSec Number_of].
  split; [reflexivity |]. split; [reflexivity |]. split; [eauto |].
  eexists. split; [reflexivity |]. split; [apply nor_zero_not_NaN |].
  split; [reflexivity |]. now rewrite nor_zero_twice.
Qed.

Lemma mapDocs_docToSession (docs : list Doc) :
  forall ss, mapDocs docToSession docs = Ok ss -> Forall2 fromDoc docs ss.
Proof.
  induction docs as [| doc docs IH]; intros ss H; cbn [mapDocs] in H.
  - apply Ok_inj in H. subst ss. constructor.
  - destruct (docToSession doc) as [s |] eqn:D; cbn [bind] in H; [| discriminate].
    destruct (mapDocs docToSession docs) as [rest |]; cbn [bind] in H; [| discriminate].
    apply Ok_inj in H. subst ss. constructor; [now apply docToSession_fromDoc | now apply IH].
Qed.

Lemma fromDoc_valid (docs : list Doc) (ss : list Session) :
  Forall2 fromDoc docs ss -> Forall (fun s => validDate (timestamp s) = true) ss.
Proof.
  induction 1 as [| doc s docs ss (_ & _ & (ts & _ & T) & _) F IH]; constructor; [| exact IH].
  rewrite T. apply toMillis_range.
Qed.

Lemma fetchUserSessions_valid (P : Platform) (db : Firestore) (userId : string)
  (days : option number) (options : option FetchOptions) (ss : list Session) :
  fetchUserSessions P db userId days options = Resolved ss ->
  Forall (fun s => validDate (timestamp s) = true) ss.
Proof.
  unfold fetchUserSessions. destruct (db _) as [docs | r]; cbn [await]; [| discriminate].
  destruct (mapDocs docToSession docs) as [l |] eqn:M; cbn [settle]; [| discriminate].
  intros H. injection H as <-. apply (fromDoc_valid docs). now apply mapDocs_docToSession.
Qed.

(** X21: when [fetchUserSessions] resolves, the database has answered its
    query, and the sessions mirror the documents of the answer one for one
    and in order: same id and type, the date of the document's Timestamp,
    and as duration a number that is never NaN, which the normalisation of
    the scoring engine changes only by raising a negative one to 0. *)
Theorem X21_fetched_sessions_mirror_the_documents (P : Platform) (db : Firestore)
  (userId : string) (days : option number) (options : option FetchOptions)
  (ss : list Session) :
  fetchUserSessions P db userId days options = Resolved ss ->
  exists docs, db (fetchQuery P userId days options) = Resolved docs
    /\ Forall2 fromDoc docs ss.
Proof.
  unfold fetchUserSessions. destruct (db _) as [docs | r]; cbn [await]; [| discriminate].
  destruct (mapDocs docToSession docs) as [l |] eqn:M; cbn [settle]; [| discriminate].
  intros H. injection H as <-. exists docs. split; [reflexivity |].
  now apply mapDocs_docToSession.
Qed.

Lemma X21_witness :
  exists ss docs,
    fetchUserSessions utcHost sampleDb "ada" None atNoon = Resolved ss
    /\ sampleDb (fetchQuery utcHost "ada" None atNoon) = Resolved docs
    /\ Forall2 fromDoc docs ss.
Proof.
  destruct (fetchUserSessions utcHost sampleDb "ada" None atNoon) as [ss | e] eqn:H;
    [| vm_compute in H; discriminate].
  destruct (X21_fetched_sessions_mirror_the_documents utcHost sampleDb "ada" None atNoon ss H)
    as (docs & Q & F).
  exists ss, docs. split; [reflexivity |]. split; [exact Q | exact F].
Defined.

(** X22: whatever [fetchUserSessions] resolves to can be scored: with a
    recognised zone and a valid reference date whose civil date has a
    four-digit year, [calculateConsistencyScore] returns a result on the
    fetched sessions and throws nothing. *)
Theorem X22_fetched_sessions_can_be_scored (P : Platform) (db : Firestore)
  (userId : string) (days : option number) (options : option FetchOptions)
  (ss : list Session) (tz : string) (off : Z -> Z) (t : Z) :
  fetchUserSessions P db userId days options = Resolved ss ->
  zoneOffset P tz = Some off ->
  fourDigitYear (t + off t) = true ->
  exists r, calculateConsistencyScore P (inputAt ss t tz) = Ok r.
Proof.
  intros H Hz R. pose proof (fetchUserSessions_valid P db userId days options ss H) as V.
  rewrite calculateConsistencyScore_split.
  change (sessions (inputAt ss t tz)) with ss. change (zoneOf (inputAt ss t tz)) with tz.
  change (referenceOf P (inputAt ss t tz)) with (Valid t).
  destruct (groupSessionsByDay_returns P ss tz off Hz V) as (d & ->).
  cbn [bind]. now apply (scoreDays_returns P d tz off t).
Qed.

Lemma X22_witness :
  exists ss,
    fetchUserSessions utcHost sampleDb "ada" None atNoon = Resolved ss
    /\ exists r, calculateConsistencyScore utcHost (inputAt ss noon "Asia/Tokyo") = Ok r.
Proof.
  destruct (fetchUserSessions utcHost sampleDb "ada" None atNoon) as [ss | e] eqn:H;
    [| vm_compute in H; discriminate].
  exists ss. split; [reflexivity |].
  exact (X22_fetched_sessions_can_be_scored utcHost sampleDb "ada" None atNoon ss
           "Asia/Tokyo" (fun _ => hours 9) noon H eq_refl eq_refl).
Defined.

(** ** The batch *)

Lemma Map_get_set {V : Type} (m : JSMap V) (k k' : string) (v : V) :
  Map_get (Map_set m k v) k' = if String.eqb k k' then Some v else Map_get m k'.
Proof.
  induction m as [| [k0 v0] m IH]; cbn [Map_set Map_get]; [reflexivity |].
  destruct (String.eqb k0 k) eqn:E; cbn [Map_get].
  - apply String.eqb_eq in E. subst k0. now destruct (String.eqb k k').
  - destruct (String.eqb k0 k') eqn:E'; [| exact IH].
    apply String.eqb_eq in E'. subst k0. now rewrite String.eqb_sym, E.
Qed.

Lemma Map_get_fold {V : Type} (f : string -> V) (us : list string) :
  forall m u,
  Map_get (fold_left (fun m kv => Map_set m (fst kv) (snd kv)) (map (fun u => (u, f u)) us) m) u
  = if existsb (String.eqb u) us then Some (f u) else Map_get m u.
Proof.
  induction us as [| a us IH]; intros m u; cbn [map fold_left existsb fst snd]; [reflexivity |].
  rewrite IH, Map_get_set, (String.eqb_sym u a).
  destruct (existsb (String.eqb u) us); [now rewrite orb_true_r |]. rewrite orb_false_r.
  destruct (String.eqb a u) eqn:E; [| reflexivity].
  apply String.eqb_eq in E. now subst a.
Qed.

Lemma Promise_all_fetchOrEmpty (P : Platform) (db : Firestore) (d : number)
  (us : list string) :
  Promise_all (map (fetchOrEmpty P db d) us)
  = Resolved (map (fun u => (u, sessionsOrNone P db (Some d) u)) us).
Proof.
  induction us as [| u us IH]; cbn [map Promise_all]; [reflexivity |].
  rewrite IH. unfold fetchOrEmpty, sessionsOrNone.
  now destruct (fetchUserSessions P db u (Some d) None).
Qed.

(** X23: [batchFetchUserSessions] never rejects.  The map it resolves to
    has an entry for exactly the requested users; the entry of a user is
    what [fetchUserSessions] resolves to for that user, and the empty list
    when that fetch is rejected. *)
Theorem X23_batch_fails_soft (P : Platform) (db : Firestore) (userIds : list string)
  (days : option number) :
  exists m, batchFetchUserSessions P db userIds days = Resolved m
    /\ forall u, Map_get m u
                 = if existsb (String.eqb u) userIds
                   then Some (sessionsOrNone P db days u) else None.
Proof.
  unfold batchFetchUserSessions. rewrite Promise_all_fetchOrEmpty. cbn [await].
  eexists. split; [reflexivity |]. intros u. unfold Map_of.
  rewrite (Map_get_fold (sessionsOrNone P db (Some _))).
  destruct (existsb _ userIds); [| reflexivity]. now destruct days.
Qed.

(** ** The latest session *)

(** X24: when [getLastSession] resolves to a session, that session mirrors
    the first document of the answer of the database and no other document
    is read; it resolves to null exactly when the answer is empty. *)
Theorem X24_last_session_mirrors_the_first_document (db : Firestore) (userId : string)
  (found : option Session) :
  getLastSession db userId = Resolved found ->
  exists docs, db (LatestSession userId) = Resolved docs
    /\ match found, docs with
       | None, [] => True
       | Some s, doc :: _ => fromDoc doc s
       | _, _ => False
       end.
Proof.
  unfold getLastSession. destruct (db _) as [docs | r]; cbn [await]; [| discriminate].
  intros H. exists docs. split; [reflexivity |].
  destruct docs as [| doc rest].
  - injection H as <-. exact I.
  - destruct (docToSession doc) as [s |] eqn:D; cbn [bind settle] in H; [| discriminate].
    injection H as <-. now apply docToSession_fromDoc.
Qed.

Lemma X24_witness :
  exists found docs,
    getLastSession sampleDb "ada" = Resolved found
    /\ sampleDb (LatestSession "ada") = Resolved docs
    /\ match found, docs with
       | None, [] => True
       | Some s, doc :: _ => fromDoc doc s
       | _, _ => False
       end.
Proof.
  destruct (getLastSession sampleDb "ada") as [found | e] eqn:H;
    [| vm_compute in H; discriminate].
  destruct (X24_last_session_mirrors_the_first_document sampleDb "ada" found H)
    as (docs & Q & F).
  exists found, docs. split; [reflexivity |]. split; [exact Q | exact F].
Defined.
